(** * Binance futures testnet bot: a shallow embedding of its order logic

    The development follows the Python sources:
    - [src/utils.py]            validation and quantization helpers,
    - [src/client_wrapper.py]   the REST client ([BinanceFuturesClient]),
    - [src/market_orders.py], [src/limit_orders.py],
    - [src/advanced/oco.py], [src/advanced/stop_orders.py],
      [src/advanced/twap.py],
    - [src/cli.py]              the command line front end.

    Numbers.  The sources compute with [decimal.Decimal] under the default
    context (28 significant digits, ROUND_HALF_EVEN, Emax = 999999,
    Emin = -999999, traps on InvalidOperation, DivisionByZero, Overflow).
    A finite Decimal is a signed coefficient and an exponent; the context
    precision and the exponent limits are written out in every operation.
    Infinities and NaNs are not represented.  A finite Python float is
    represented by the decimal that [str] prints for it, which is what
    [Decimal(str(x))] reads back and what [urlencode] puts on the wire; the
    conversion [float(d)] of a Decimal to binary64 is a parameter of the
    development ([to_float]).

    Strings are ASCII; [str.upper] is modelled on ASCII letters.
    Logging, printing, request signing and time stamps are left out. *)

From Stdlib Require Import ZArith List String Ascii Bool Lia.
Import ListNotations.
Open Scope string_scope.
Open Scope list_scope.
Open Scope Z_scope.

(** ** Exceptions *)

Inductive exn_kind :=
| ValueError | RuntimeError | TypeError | KeyError
| HTTPError | RequestException
| InvalidOperation | DecimalOverflow.

(** An exception caught by [except Exception]: its class and [str(e)].
    Interpolated values of f-string messages are not rendered. *)
Inductive exn :=
| Exception (k : exn_kind) (msg : string).

Definition exn_msg (e : exn) : string :=
  match e with Exception _ m => m end.

(** Outcome of a computation without side effects. *)
Inductive result (A : Type) :=
| Ok (a : A)
| Err (e : exn).
Arguments Ok {A} a.
Arguments Err {A} e.

(** ** decimal.Decimal under the default context *)

Record Decimal := mkDec { coef : Z; expo : Z }.

Definition prec : Z := 28.
Definition Emax : Z := 999999.
Definition Emin : Z := -999999.
Definition Etiny : Z := Emin - prec + 1.
Definition Etop : Z := Emax - prec + 1.

(** [len(str(n))] for a non-negative integer. *)
Fixpoint ndigits_pos (fuel : nat) (n : Z) : Z :=
  match fuel with
  | O => 1
  | S f => if n <? 10 then 1 else 1 + ndigits_pos f (n / 10)
  end.

Definition ndigits (n : Z) : Z :=
  ndigits_pos (Z.to_nat (Z.log2 (Z.abs n))) (Z.abs n).

(** [Decimal.adjusted]: exponent of the leading digit. *)
Definition adjusted (d : Decimal) : Z := expo d + ndigits (coef d) - 1.

(** The coefficient of [d] at exponent [e], exact when [e <= expo d]. *)
Definition scaled (d : Decimal) (e : Z) : Z := coef d * 10 ^ (expo d - e).

(** Comparison of values ([Decimal._cmp]). *)
Definition dec_compare (a b : Decimal) : comparison :=
  let m := Z.min (expo a) (expo b) in
  Z.compare (scaled a m) (scaled b m).

Definition dec_eqb (a b : Decimal) : bool :=
  match dec_compare a b with Eq => true | _ => false end.
Definition dec_ltb (a b : Decimal) : bool :=
  match dec_compare a b with Lt => true | _ => false end.
Definition dec_leb (a b : Decimal) : bool :=
  match dec_compare a b with Gt => false | _ => true end.
Definition dec_gtb (a b : Decimal) : bool := dec_ltb b a.

Definition dec_zero : Decimal := mkDec 0 0.
(** Truth value of a Decimal, and [d == 0]. *)
Definition dec_is_zero (d : Decimal) : bool := coef d =? 0.

Definition dec_neg (d : Decimal) : Decimal := mkDec (- coef d) (expo d).

Definition invalid_operation : exn :=
  Exception InvalidOperation "[<class 'decimal.InvalidOperation'>]".
Definition division_impossible : exn :=
  Exception InvalidOperation "[<class 'decimal.DivisionImpossible'>]".
Definition division_by_zero : exn :=
  Exception InvalidOperation "[<class 'decimal.DivisionByZero'>]".
Definition decimal_overflow : exn :=
  Exception DecimalOverflow "[<class 'decimal.Overflow'>]".

(** Rounding of a coefficient when its last [k] digits are dropped,
    ROUND_HALF_EVEN on the magnitude. *)
Definition round_half_even (c k : Z) : Z :=
  let p := 10 ^ k in
  let q := Z.abs c / p in
  let r := Z.abs c mod p in
  let up := (p <? 2 * r) || ((2 * r =? p) && Z.odd q) in
  Z.sgn c * (if up then q + 1 else q).

(** [Decimal._fix]: fit a result into the context. *)
Definition fix_context (d : Decimal) : result Decimal :=
  if coef d =? 0 then Ok (mkDec 0 (Z.min (Z.max (expo d) Etiny) Emax))
  else
    let exp_min0 := ndigits (coef d) + expo d - prec in
    if Etop <? exp_min0 then Err decimal_overflow
    else
      let exp_min := Z.max exp_min0 Etiny in
      if expo d <? exp_min then
        let r := round_half_even (coef d) (exp_min - expo d) in
        let carry := prec <? ndigits r in
        let r' := if carry then Z.quot r 10 else r in
        let e' := if carry then exp_min + 1 else exp_min in
        if Etop <? e' then Err decimal_overflow else Ok (mkDec r' e')
      else Ok d.

(** [a * b]: the exact product, then [_fix]; [a + b] and [a - b] likewise,
    below. *)
Definition dec_mul (a b : Decimal) : result Decimal :=
  fix_context (mkDec (coef a * coef b) (expo a + expo b)).

(** [a // b]: the integer part of the quotient, truncated toward zero, with
    exponent 0; DivisionImpossible when it has more than [prec] digits. *)
Definition int_quotient (a b : Decimal) : Z :=
  let m := Z.min (expo a) (expo b) in
  Z.quot (scaled a m) (scaled b m).

Definition dec_floordiv (a b : Decimal) : result Decimal :=
  if coef b =? 0 then Err division_by_zero
  else
    let q := int_quotient a b in
    if Z.abs q <? 10 ^ prec then Ok (mkDec q 0) else Err division_impossible.

(** The sum and the difference before they are fitted into the context. *)
Definition exact_sum (a b : Decimal) : Decimal :=
  let m := Z.min (expo a) (expo b) in
  mkDec (scaled a m + scaled b m) m.
Definition exact_diff (a b : Decimal) : Decimal := exact_sum a (dec_neg b).

Definition dec_add (a b : Decimal) : result Decimal := fix_context (exact_sum a b).
Definition dec_sub (a b : Decimal) : result Decimal := dec_add a (dec_neg b).

(** [Decimal._rescale(e, ROUND_DOWN)]. *)
Definition rescale_down (d : Decimal) (e : Z) : Decimal :=
  if e <=? expo d then mkDec (coef d * 10 ^ (expo d - e)) e
  else mkDec (Z.quot (coef d) (10 ^ (e - expo d))) e.

(** [d.quantize(ex, rounding=ROUND_DOWN)].  The two checks Python makes on
    the rescaled value (too many digits, exponent too large) cannot fire
    after the ones made before rescaling when the rounding truncates. *)
Definition quantize_down (d ex : Decimal) : result Decimal :=
  if negb ((Etiny <=? expo ex) && (expo ex <=? Emax)) then Err invalid_operation
  else if coef d =? 0 then Ok (mkDec 0 (expo ex))
  else if Emax <? adjusted d then Err invalid_operation
  else if prec <? adjusted d - expo ex + 1 then Err invalid_operation
  else Ok (rescale_down d (expo ex)).

(** Value-level relations used in statements. *)
Definition dec_le (a b : Decimal) : Prop := dec_leb a b = true.
Definition dec_lt (a b : Decimal) : Prop := dec_ltb a b = true.
Definition dec_eq (a b : Decimal) : Prop := dec_eqb a b = true.

(** [r] is an integer multiple of [s]. *)
Definition multiple_of (r s : Decimal) : Prop :=
  exists n : Z, dec_eq r (mkDec (n * coef s) (expo s)).

(** ** src/utils.py *)

(** A finite float, by the decimal its [str] denotes. *)
Definition PyFloat := Decimal.

(** An argument that [float(v)] converts to a finite float, or fails to
    convert.  Arguments that [float] converts to nan or to an infinity,
    such as the strings nan and inf, are not represented. *)
Inductive PyNum :=
| NotNumber
| Num (f : PyFloat).

(** [str.upper] on ASCII strings: the letters a to z are capitalised.  On
    other strings [str.upper] also maps letters beyond ASCII, some of them
    to ASCII capitals; [is_ascii] below marks the strings for which [upper]
    is [str.upper]. *)
Definition upper_ascii (c : ascii) : ascii :=
  let n := nat_of_ascii c in
  if (Nat.leb 97 n && Nat.leb n 122)%bool then ascii_of_nat (n - 32)%nat else c.

Fixpoint upper (s : string) : string :=
  match s with
  | EmptyString => EmptyString
  | String c s' => String (upper_ascii c) (upper s')
  end.

Definition validate_side (side : string) : result string :=
  let s := upper side in
  if (String.eqb s "BUY" || String.eqb s "SELL")%bool then Ok s
  else Err (Exception ValueError "side must be BUY or SELL").

Definition validate_positive_number (name : string) (v : PyNum) : result PyFloat :=
  match v with
  | NotNumber => Err (Exception ValueError (name ++ " must be a number")%string)
  | Num fv =>
      if dec_leb fv dec_zero
      then Err (Exception ValueError (name ++ " must be positive")%string)
      else Ok fv
  end.

Definition round_price_to_tick (price : PyFloat) (tick : Decimal) : result Decimal :=
  let p := price in
  if dec_is_zero tick then Ok p
  else
    match dec_floordiv p tick with
    | Err e => Err e
    | Ok q => dec_mul q tick
    end.

Definition round_down_qty (qty : PyFloat) (step : Decimal) : result Decimal :=
  let q := qty in
  if dec_is_zero step then Ok q
  else quantize_down q step.

(** ** Data exchanged with the REST API

    JSON objects are records of the fields the sources read.  A field of
    an order, a position or a ticker read with [d.get(k)] is an option:
    [None] stands for an absent key, a JSON null, or (for strings read
    under [or]) the empty string.  A field of a filter is read with
    [fil.get(k, "0")] and passed to [Decimal(str(...))]: there [None]
    stands for an absent key only, and every present value is a numeric
    string.  Numeric strings are given by the Decimal they denote; the
    sign of a zero is not kept. *)

Record Order := mkOrder {
  o_orderId : option Z;
  o_symbol : option string;
  o_status : option string;
  o_executedQty : option Decimal;
  o_origQty : option Decimal
}.

Inductive Filter :=
| PRICE_FILTER (tickSize minPrice maxPrice : option Decimal)
| LOT_SIZE (stepSize minQty : option Decimal)
| MIN_NOTIONAL (notional minNotional : option Decimal)
| OTHER_FILTER.

Record SymbolInfo := mkSymbolInfo { si_filters : list Filter }.

(** The value of [info["symbols"]], [None] when [info] is empty or has no
    such key. *)
Definition ExchangeInfo := option (list SymbolInfo).

Record Position := mkPosition {
  pos_symbol : option string;
  pos_positionAmt : option Decimal
}.

Record Account := mkAccount { acct_positions : list Position }.

Record Ticker := mkTicker { tk_price : option Decimal }.

(** What [parse_symbol_filters] returns. *)
Record Filters := mkFilters {
  f_tickSize : Decimal;
  f_stepSize : Decimal;
  f_minQty : Decimal;
  f_minNotional : Decimal;
  f_minPrice : option Decimal;
  f_maxPrice : option Decimal
}.

Definition or_zero (v : option Decimal) : Decimal :=
  match v with Some x => x | None => dec_zero end.

Definition parse_symbol_filters (symbol_info : SymbolInfo) : Filters :=
  fold_left
    (fun f fil =>
       match fil with
       | PRICE_FILTER t mn mx =>
           mkFilters (or_zero t) (f_stepSize f) (f_minQty f) (f_minNotional f)
                     (Some (or_zero mn)) (Some (or_zero mx))
       | LOT_SIZE st mq =>
           mkFilters (f_tickSize f) (or_zero st) (or_zero mq) (f_minNotional f)
                     (f_minPrice f) (f_maxPrice f)
       | MIN_NOTIONAL n mn =>
           mkFilters (f_tickSize f) (f_stepSize f) (f_minQty f)
                     (match n with Some x => x | None => or_zero mn end)
                     (f_minPrice f) (f_maxPrice f)
       | OTHER_FILTER => f
       end)
    (si_filters symbol_info)
    (mkFilters dec_zero dec_zero dec_zero dec_zero None None).

(** Arguments of [BinanceFuturesClient.place_order] (its second, effective
    definition in the class body). *)
Record PlaceArgs := mkPlaceArgs {
  pa_symbol : string;
  pa_side : string;
  pa_order_type : string;
  pa_quantity : PyFloat;
  pa_price : option PyFloat;
  pa_time_in_force : string;
  pa_reduce_only : bool;
  pa_stop_price : option PyFloat;
  pa_close_position : bool;
  pa_working_type : option string
}.

(** Query parameters of POST /fapi/v1/order. *)
Record OrderParams := mkOrderParams {
  p_symbol : string;
  p_side : string;
  p_type : string;
  p_quantity : PyFloat;
  p_price : option PyFloat;
  p_timeInForce : option string;
  p_stopPrice : option PyFloat;
  p_reduceOnly : bool;
  p_closePosition : bool;
  p_workingType : option string
}.

(** ** The exchange and the trace of a run *)

Inductive Call :=
| Call_get_exchange_info (symbol : option string)
| Call_get_ticker_price (symbol : string)
| Call_place_order (a : PlaceArgs)
| Call_get_order (symbol : string) (orderId : option Z)
| Call_cancel_order (symbol : option string) (orderId : option Z)
                    (clientOrderId : option string)
| Call_get_open_orders (symbol : option string)
| Call_get_account.

(** A trace lists, in order, the client methods entered, the HTTP requests
    sent with their responses, and the sleeps. *)
Inductive Event :=
| EvCall (c : Call)
| EvTime (r : result Z)
| EvExchangeInfo (symbol : option string) (r : result ExchangeInfo)
| EvTickerPrice (symbol : string) (r : result Ticker)
| EvPostOrder (p : OrderParams) (r : result Order)
| EvGetOrder (symbol : string) (orderId : Z) (r : result Order)
| EvDeleteOrder (symbol : option string) (orderId : option Z)
                (origClientOrderId : option string) (r : result Order)
| EvOpenOrders (symbol : option string) (r : result (list Order))
| EvAccount (r : result Account)
| EvSleep (secs : Z).

(** The exchange, the network and the clock: a state and one transition per
    endpoint.  [Err] is what [raise_for_status], the transport or the JSON
    decoder raise.  The clock counts ticks; [wait_timeout], [poll_interval]
    and [interval] are counted in the same ticks. *)
Class Exchange (X : Type) := {
  x_time : X -> result Z * X;
  x_exchange_info : option string -> X -> result ExchangeInfo * X;
  x_ticker_price : string -> X -> result Ticker * X;
  x_post_order : OrderParams -> X -> result Order * X;
  x_get_order : string -> Z -> X -> result Order * X;
  x_delete_order : option string -> option Z -> option string -> X -> result Order * X;
  x_open_orders : option string -> X -> result (list Order) * X;
  x_account : X -> result Account * X;
  x_clock : X -> Z;
  x_sleep : Z -> X -> X
}.

(** Conversions of the float type that the development does not compute:
    [float(d)] as [str] prints it, and [f / n] for an integer [n] that
    converts to float, those below [float_overflow]; from there on the
    division raises OverflowError. *)
Class Platform := {
  to_float : Decimal -> PyFloat;
  float_div_int : PyFloat -> Z -> PyFloat
}.

(** ** Computations: state of the exchange, exceptions, a trace *)

Inductive outcome (A : Type) :=
| Ret (a : A)
| Raise (e : exn)
| Exit (code : Z)
| OutOfFuel.
Arguments Ret {A} a.
Arguments Raise {A} e.
Arguments Exit {A} code.
Arguments OutOfFuel {A}.

Definition M (X A : Type) : Type := X -> outcome A * X * list Event.

Definition ret {X A} (a : A) : M X A := fun x => (Ret a, x, []).
Definition raise {X A} (e : exn) : M X A := fun x => (Raise e, x, []).
Definition sys_exit {X A} (code : Z) : M X A := fun x => (Exit code, x, []).
Definition out_of_fuel {X A} : M X A := fun x => (OutOfFuel, x, []).

Definition bind {X A B} (m : M X A) (f : A -> M X B) : M X B :=
  fun x =>
    match m x with
    | (Ret a, x1, t1) =>
        match f a x1 with (r, x2, t2) => (r, x2, t1 ++ t2) end
    | (Raise e, x1, t1) => (Raise e, x1, t1)
    | (Exit c, x1, t1) => (Exit c, x1, t1)
    | (OutOfFuel, x1, t1) => (OutOfFuel, x1, t1)
    end.

(** [try: body except Exception as e: handler e].  [SystemExit] is not an
    [Exception] and passes through. *)
Definition try_except {X A} (body : M X A) (handler : exn -> M X A) : M X A :=
  fun x =>
    match body x with
    | (Raise e, x1, t1) =>
        match handler e x1 with (r, x2, t2) => (r, x2, t1 ++ t2) end
    | other => other
    end.

Definition lift {X A} (r : result A) : M X A :=
  match r with Ok a => ret a | Err e => raise e end.

Definition emit {X} (ev : Event) : M X unit := fun x => (Ret tt, x, [ev]).

Declare Scope py_scope.
Delimit Scope py_scope with py.
Notation "x <- m ;; k" := (bind m (fun x => k))
  (at level 61, m at next level, right associativity) : py_scope.
Notation "m ;; k" := (bind m (fun _ => k))
  (at level 61, right associativity) : py_scope.
Notation "' pat <- m ;; k" := (bind m (fun x => match x with pat => k end))
  (at level 61, pat pattern, m at next level, right associativity) : py_scope.
Open Scope py_scope.

Definition of_result {A} (r : result A) : outcome A :=
  match r with Ok a => Ret a | Err e => Raise e end.

(** Truth values of optional strings and integers. *)
Definition truthy_str (s : option string) : bool :=
  match s with Some s => negb (String.eqb s "") | None => false end.
Definition truthy_int (n : option Z) : bool :=
  match n with Some n => negb (n =? 0) | None => false end.

(** [pat in s] *)
Definition contains (pat s : string) : bool :=
  match String.index 0 pat s with Some _ => true | None => false end.

Section Program.
Context {X : Type} {EX : Exchange X} {PF : Platform}.

(** ** time *)

(** [time.time()] *)
Definition time_time : M X Z := fun x => (Ret (x_clock x), x, []).

(** [time.sleep(secs)] *)
Definition time_sleep (secs : Z) : M X unit :=
  if secs <? 0
  then raise (Exception ValueError "sleep length must be non-negative")
  else fun x => (Ret tt, x_sleep secs x, [EvSleep secs]).

(** ** src/client_wrapper.py *)

(** [_public_request] and [_signed_request], one per endpoint: the request
    is sent, a failure is re-raised. *)
Definition request_time : M X Z :=
  fun x => let (r, x') := x_time x in (of_result r, x', [EvTime r]).
Definition request_exchange_info (symbol : option string) : M X ExchangeInfo :=
  fun x => let (r, x') := x_exchange_info symbol x in
           (of_result r, x', [EvExchangeInfo symbol r]).
Definition request_ticker_price (symbol : string) : M X Ticker :=
  fun x => let (r, x') := x_ticker_price symbol x in
           (of_result r, x', [EvTickerPrice symbol r]).
Definition request_post_order (p : OrderParams) : M X Order :=
  fun x => let (r, x') := x_post_order p x in (of_result r, x', [EvPostOrder p r]).
Definition request_get_order (symbol : string) (orderId : Z) : M X Order :=
  fun x => let (r, x') := x_get_order symbol orderId x in
           (of_result r, x', [EvGetOrder symbol orderId r]).
Definition request_delete_order (symbol : option string) (orderId : option Z)
  (origClientOrderId : option string) : M X Order :=
  fun x => let (r, x') := x_delete_order symbol orderId origClientOrderId x in
           (of_result r, x', [EvDeleteOrder symbol orderId origClientOrderId r]).
Definition request_open_orders (symbol : option string) : M X (list Order) :=
  fun x => let (r, x') := x_open_orders symbol x in
           (of_result r, x', [EvOpenOrders symbol r]).
Definition request_account : M X Account :=
  fun x => let (r, x') := x_account x in (of_result r, x', [EvAccount r]).

(** [BinanceFuturesClient.__init__]: the optional time sync, whose failure
    is only logged. *)
Definition BinanceFuturesClient (sync_time : bool) : M X unit :=
  if sync_time
  then try_except (_ <- request_time ;; ret tt) (fun _ => ret tt)
  else ret tt.

(** [{"symbol": symbol} if symbol else {}] *)
Definition symbol_param (symbol : option string) : option string :=
  if truthy_str symbol then symbol else None.

Definition get_exchange_info (symbol : option string) : M X ExchangeInfo :=
  emit (EvCall (Call_get_exchange_info symbol)) ;;
  request_exchange_info (symbol_param symbol).

Definition get_ticker_price (symbol : string) : M X Ticker :=
  emit (EvCall (Call_get_ticker_price symbol)) ;;
  request_ticker_price symbol.

(** [order_type.upper() == "LIMIT" or order_type.upper() == "STOP"] *)
Definition needs_price (order_type : string) : bool :=
  (String.eqb (upper order_type) "LIMIT" || String.eqb (upper order_type) "STOP")%bool.

(** The [params] dictionary that [place_order] builds. *)
Definition order_params (a : PlaceArgs) : OrderParams :=
  mkOrderParams (pa_symbol a) (pa_side a) (pa_order_type a) (pa_quantity a)
    (if needs_price (pa_order_type a) then pa_price a else None)
    (if needs_price (pa_order_type a) then Some (pa_time_in_force a) else None)
    (pa_stop_price a)
    (pa_reduce_only a)
    (pa_close_position a)
    (if truthy_str (pa_working_type a) then pa_working_type a else None).

Definition place_order (a : PlaceArgs) : M X Order :=
  emit (EvCall (Call_place_order a)) ;;
  if (needs_price (pa_order_type a)
      && match pa_price a with None => true | Some _ => false end)%bool
  then raise (Exception ValueError
                "price is required for LIMIT/STOP (stop-limit) orders")
  else request_post_order (order_params a).

Definition get_order (symbol : string) (orderId : option Z) : M X Order :=
  emit (EvCall (Call_get_order symbol orderId)) ;;
  match orderId with
  | None => raise (Exception TypeError
              "int() argument must be a string, a bytes-like object or a real number, not 'NoneType'")
  | Some n => request_get_order symbol n
  end.

Definition cancel_order (symbol : option string) (orderId : option Z)
  (clientOrderId : option string) : M X Order :=
  emit (EvCall (Call_cancel_order symbol orderId clientOrderId)) ;;
  if truthy_int orderId then request_delete_order symbol orderId None
  else if truthy_str clientOrderId then request_delete_order symbol None clientOrderId
  else raise (Exception ValueError "orderId or clientOrderId required").

Definition get_open_orders (symbol : option string) : M X (list Order) :=
  emit (EvCall (Call_get_open_orders symbol)) ;;
  request_open_orders (symbol_param symbol).

Definition get_account : M X Account :=
  emit (EvCall Call_get_account) ;;
  request_account.

(** Shorthands for the keyword arguments the callers leave at their
    defaults. *)
Definition market_args (symbol side : string) (quantity : PyFloat) : PlaceArgs :=
  mkPlaceArgs symbol side "MARKET" quantity None "GTC" false None false None.
Definition limit_args (symbol side : string) (quantity price : PyFloat)
  (time_in_force : string) (reduce_only : bool) : PlaceArgs :=
  mkPlaceArgs symbol side "LIMIT" quantity (Some price) time_in_force reduce_only
              None false None.

(** ** src/market_orders.py, src/limit_orders.py *)

Definition could_not_fetch (msg : string) : exn := Exception RuntimeError msg.

(** [info["symbols"][0]] after the guard
    [not info or "symbols" not in info or not info["symbols"]]. *)
Definition first_symbol (msg : string) (info : ExchangeInfo) : M X SymbolInfo :=
  match info with
  | Some (s :: _) => ret s
  | _ => raise (could_not_fetch msg)
  end.

Definition place_market_order (symbol side : string) (qty : PyNum) : M X Order :=
  side <- lift (validate_side side) ;;
  qty_f <- lift (validate_positive_number "qty" qty) ;;
  BinanceFuturesClient true ;;
  info <- get_exchange_info (Some symbol) ;;
  s <- first_symbol "Could not fetch symbol info" info ;;
  let filters := parse_symbol_filters s in
  let step := f_stepSize filters in
  let qty_dec := qty_f in
  let qty_dec := if dec_ltb qty_dec (f_minQty filters) then f_minQty filters else qty_dec in
  qty_dec <- lift (round_down_qty (to_float qty_dec) step) ;;
  resp <- place_order (market_args symbol side (to_float qty_dec)) ;;
  ret resp.

Definition place_limit_order (symbol side : string) (qty price : PyNum) : M X Order :=
  side <- lift (validate_side side) ;;
  qty_f <- lift (validate_positive_number "qty" qty) ;;
  price_f <- lift (validate_positive_number "price" price) ;;
  BinanceFuturesClient true ;;
  info <- get_exchange_info (Some symbol) ;;
  s <- first_symbol "Could not fetch symbol info" info ;;
  let filters := parse_symbol_filters s in
  let step := f_stepSize filters in
  let tick := f_tickSize filters in
  let min_qty := f_minQty filters in
  let qty_dec := qty_f in
  let qty_dec := if dec_ltb qty_dec min_qty then min_qty else qty_dec in
  qty_dec <- lift (round_down_qty (to_float qty_dec) step) ;;
  price_dec <- lift (round_price_to_tick price_f tick) ;;
  resp <- place_order (limit_args symbol side (to_float qty_dec) (to_float price_dec)
                                  "GTC" false) ;;
  ret resp.

(** ** src/advanced/oco.py *)

(** [(o.get("status") or "").upper() == "FILLED"] *)
Definition is_filled (o : Order) : bool :=
  String.eqb (upper (match o_status o with Some s => s | None => "" end)) "FILLED".

(** The [while True] loop of [_poll_order_filled]; [fuel] bounds the number
    of iterations. *)
Fixpoint _poll_order_filled_loop (fuel : nat) (symbol : string) (order_id : option Z)
  (timeout poll_interval started : Z) : M X Order :=
  match fuel with
  | O => out_of_fuel
  | S fuel' =>
      o <- get_order symbol order_id ;;
      let last_order := o in
      if is_filled o then ret o
      else
        now <- time_time ;;
        if timeout <? now - started then ret last_order
        else
          time_sleep poll_interval ;;
          _poll_order_filled_loop fuel' symbol order_id timeout poll_interval started
  end.

Definition _poll_order_filled (fuel : nat) (symbol : string) (order_id : option Z)
  (timeout poll_interval : Z) : M X Order :=
  started <- time_time ;;
  _poll_order_filled_loop fuel symbol order_id timeout poll_interval started.

Definition _get_position_amount (symbol : string) : M X Decimal :=
  acct <- get_account ;;
  ret (match
          find (fun p => match pos_symbol p with
                         | Some s => String.eqb s symbol
                         | None => false
                         end) (acct_positions acct)
        with
        | Some p => or_zero (pos_positionAmt p)
        | None => dec_zero
        end).

Definition _place_limit_leg_with_reduce_fallback (symbol side : string)
  (quantity price : Decimal) (time_in_force : string) (prefer_reduce_only : bool)
  : M X (Order * bool) :=
  let qty_f := to_float quantity in
  let price_f := to_float price in
  let plain :=
    resp <- place_order (limit_args symbol side qty_f price_f time_in_force false) ;;
    ret (resp, false) in
  if prefer_reduce_only
  then try_except
         (resp <- place_order (limit_args symbol side qty_f price_f time_in_force true) ;;
          ret (resp, true))
         (fun _ => plain)
  else plain.

(** [entry_final.get("executedQty") or entry_final.get("origQty") or qty_dec] *)
Definition executed_or (o : Order) (qty_dec : Decimal) : Decimal :=
  match o_executedQty o with
  | Some q => q
  | None => match o_origQty o with Some q => q | None => qty_dec end
  end.

Inductive leg_role := TP | SL.

(** The dictionary [place_oco] returns.  The key "detached" exists only in
    detach mode and "winner" only otherwise; both are read with [get]. *)
Record OcoResult := mkOcoResult {
  oco_entry : Order;
  oco_tp : Order;
  oco_sl : Order;
  oco_winner : option (leg_role * Order);
  oco_detached : bool
}.

(** The monitoring loop at the end of [place_oco]. *)
Fixpoint place_oco_monitor (fuel : nat) (symbol : string) (tp_id sl_id : option Z)
  (wait_timeout poll_interval start : Z) : M X (option (leg_role * Order)) :=
  match fuel with
  | O => out_of_fuel
  | S fuel' =>
      tp_o <- get_order symbol tp_id ;;
      sl_o <- get_order symbol sl_id ;;
      if is_filled tp_o then
        try_except (_ <- cancel_order (Some symbol) sl_id None ;; ret tt)
                   (fun _ => ret tt) ;;
        ret (Some (TP, tp_o))
      else if is_filled sl_o then
        try_except (_ <- cancel_order (Some symbol) tp_id None ;; ret tt)
                   (fun _ => ret tt) ;;
        ret (Some (SL, sl_o))
      else
        now <- time_time ;;
        if wait_timeout <? now - start then ret None
        else
          time_sleep poll_interval ;;
          place_oco_monitor fuel' symbol tp_id sl_id wait_timeout poll_interval start
  end.

Definition opposite_side (side : string) : string :=
  if String.eqb side "BUY" then "SELL" else "BUY".

(** [float(entry_price)] *)
Definition float_of (v : PyNum) : result PyFloat :=
  match v with
  | Num f => Ok f
  | NotNumber => Err (Exception ValueError "could not convert string to float")
  end.

Definition entry_not_filled : exn :=
  Exception RuntimeError "entry not filled within wait_timeout".

Definition place_oco (fuel : nat) (symbol side : string) (qty tp_price sl_price : PyNum)
  (entry_type : string) (entry_price : option PyNum)
  (wait_timeout poll_interval : Z) (detach : bool) : M X OcoResult :=
  side <- lift (validate_side side) ;;
  qty_f <- lift (validate_positive_number "qty" qty) ;;
  tp_price <- lift (validate_positive_number "tp_price" tp_price) ;;
  sl_price <- lift (validate_positive_number "sl_price" sl_price) ;;
  BinanceFuturesClient true ;;
  info <- get_exchange_info (Some symbol) ;;
  s <- first_symbol "could not fetch symbol info" info ;;
  let filters := parse_symbol_filters s in
  let step := f_stepSize filters in
  let tick := f_tickSize filters in
  let qty_dec := qty_f in
  qty_dec <- lift (round_down_qty (to_float qty_dec) step) ;;
  (* 1) entry *)
  entry_resp <-
    (if String.eqb (upper entry_type) "MARKET"
     then place_order (market_args symbol side (to_float qty_dec))
     else
       match entry_price with
       | None => raise (Exception ValueError "entry_price required for LIMIT entry_type")
       | Some ep =>
           ep_f <- lift (float_of ep) ;;
           place_order (limit_args symbol side (to_float qty_dec) ep_f "GTC" false)
       end) ;;
  let entry_order_id := o_orderId entry_resp in
  if negb (truthy_int entry_order_id)
  then raise (Exception RuntimeError "entry returned no orderId")
  else if detach then
    (* place TP & SL and return immediately *)
    let leg_side := opposite_side side in
    tp_dec <- lift (round_price_to_tick tp_price tick) ;;
    sl_dec <- lift (round_price_to_tick sl_price tick) ;;
    pos <- _get_position_amount symbol ;;
    let prefer_reduce :=
      ((String.eqb side "BUY" && dec_gtb pos dec_zero)
       || (String.eqb side "SELL" && dec_ltb pos dec_zero))%bool in
    '(tp_resp, _) <- _place_limit_leg_with_reduce_fallback symbol leg_side qty_dec tp_dec
                       "GTC" prefer_reduce ;;
    '(sl_resp, _) <- _place_limit_leg_with_reduce_fallback symbol leg_side qty_dec sl_dec
                       "GTC" prefer_reduce ;;
    ret (mkOcoResult entry_resp tp_resp sl_resp None true)
  else
    (* non-detach: wait for fill and monitor *)
    entry_final <- _poll_order_filled fuel symbol entry_order_id wait_timeout poll_interval ;;
    if negb (is_filled entry_final) then raise entry_not_filled
    else
      let executed_qty := executed_or entry_final qty_dec in
      leg_qty <- lift (round_down_qty (to_float executed_qty) step) ;;
      let leg_side := opposite_side side in
      tp_dec <- lift (round_price_to_tick tp_price tick) ;;
      sl_dec <- lift (round_price_to_tick sl_price tick) ;;
      pos <- _get_position_amount symbol ;;
      let prefer_reduce :=
        ((String.eqb side "BUY" && dec_gtb pos dec_zero)
         || (String.eqb side "SELL" && dec_ltb pos dec_zero))%bool in
      '(tp_resp, _) <- _place_limit_leg_with_reduce_fallback symbol leg_side leg_qty tp_dec
                         "GTC" prefer_reduce ;;
      '(sl_resp, _) <- _place_limit_leg_with_reduce_fallback symbol leg_side leg_qty sl_dec
                         "GTC" prefer_reduce ;;
      (* monitor TP/SL until one fills, then cancel the other *)
      let tp_id := o_orderId tp_resp in
      let sl_id := o_orderId sl_resp in
      start <- time_time ;;
      winner <- place_oco_monitor fuel symbol tp_id sl_id wait_timeout poll_interval start ;;
      ret (mkOcoResult entry_final tp_resp sl_resp winner false).

(** ** src/advanced/stop_orders.py *)

Definition _get_current_price (symbol : string) : M X Decimal :=
  tick <- get_ticker_price symbol ;;
  ret (or_zero (tk_price tick)).

(** [Decimal("0.0001")] *)
Definition fallback_tick : Decimal := mkDec 1 (-4).

Definition invalid_stop_buy : exn :=
  Exception ValueError "Invalid stopPrice for BUY. stopPrice must be greater than current price by at least one tick.".
Definition invalid_stop_sell : exn :=
  Exception ValueError "Invalid stopPrice for SELL. stopPrice must be less than current price by at least one tick.".

Definition _validate_stop_vs_market (symbol side : string) (stop_price tick : Decimal)
  : M X unit :=
  current <- _get_current_price symbol ;;
  (* add a minimal buffer equal to one tick to avoid edge immediate trigger *)
  let buffer := if negb (dec_is_zero tick) then tick else fallback_tick in
  if String.eqb side "BUY" then
    bound <- lift (dec_add current buffer) ;;
    if negb (dec_gtb stop_price bound) then raise invalid_stop_buy else ret tt
  else (* SELL *)
    bound <- lift (dec_sub current buffer) ;;
    if negb (dec_ltb stop_price bound) then raise invalid_stop_sell else ret tt.

Definition place_stop_limit (symbol side : string) (qty stop_price limit_price : PyNum)
  (time_in_force : string) (reduce_only : bool) : M X Order :=
  side <- lift (validate_side side) ;;
  qty_f <- lift (validate_positive_number "qty" qty) ;;
  stop_f <- lift (validate_positive_number "stop_price" stop_price) ;;
  limit_f <- lift (validate_positive_number "limit_price" limit_price) ;;
  BinanceFuturesClient true ;;
  info <- get_exchange_info (Some symbol) ;;
  s <- first_symbol "could not fetch symbol info" info ;;
  let filters := parse_symbol_filters s in
  let step := f_stepSize filters in
  let tick := if negb (dec_is_zero (f_tickSize filters))
              then f_tickSize filters else fallback_tick in
  qty_dec <- lift (round_down_qty (to_float qty_f) step) ;;
  limit_price_dec <- lift (round_price_to_tick limit_f tick) ;;
  stop_price_dec <- lift (round_price_to_tick stop_f tick) ;;
  (* validate stop price vs current price to avoid immediate trigger *)
  _validate_stop_vs_market symbol side stop_price_dec tick ;;
  resp <- place_order
            (mkPlaceArgs symbol side "STOP" (to_float qty_dec)
               (Some (to_float limit_price_dec)) time_in_force reduce_only
               (Some (to_float stop_price_dec)) false None) ;;
  ret resp.

Definition place_stop_market (symbol side : string) (qty stop_price : PyNum)
  (close_position : bool) : M X Order :=
  side <- lift (validate_side side) ;;
  qty_f <- lift (validate_positive_number "qty" qty) ;;
  stop_f <- lift (validate_positive_number "stop_price" stop_price) ;;
  BinanceFuturesClient true ;;
  info <- get_exchange_info (Some symbol) ;;
  s <- first_symbol "could not fetch symbol info" info ;;
  let filters := parse_symbol_filters s in
  let step := f_stepSize filters in
  let tick := if negb (dec_is_zero (f_tickSize filters))
              then f_tickSize filters else fallback_tick in
  qty_dec <- lift (round_down_qty (to_float qty_f) step) ;;
  stop_price_dec <- lift (round_price_to_tick stop_f tick) ;;
  (* validate stop price vs current price *)
  _validate_stop_vs_market symbol side stop_price_dec tick ;;
  resp <- place_order
            (mkPlaceArgs symbol side "STOP_MARKET" (to_float qty_dec) None "GTC" false
               (Some (to_float stop_price_dec)) close_position None) ;;
  ret resp.

(** ** src/advanced/twap.py *)

(** Values passed as keyword arguments. *)
Inductive PyVal :=
| VNone
| VBool (b : bool)
| VInt (n : Z)
| VFloat (f : PyFloat)
| VStr (s : string).

(** Parameter names of [place_order(self, symbol, side, order_type, quantity,
    price=None, time_in_force="GTC", reduce_only=False, stop_price=None,
    close_position=False, working_type=None)]. *)
Definition place_order_parameters : list string :=
  ["symbol"; "side"; "order_type"; "quantity"; "price"; "time_in_force";
   "reduce_only"; "stop_price"; "close_position"; "working_type"].

Fixpoint kw_get (k : string) (kw : list (string * PyVal)) : option PyVal :=
  match kw with
  | [] => None
  | (k', v) :: rest => if String.eqb k k' then Some v else kw_get k rest
  end.

Definition as_str (v : option PyVal) : option string :=
  match v with Some (VStr s) => Some s | _ => None end.
Definition as_float (v : option PyVal) : option PyFloat :=
  match v with Some (VFloat f) => Some f | _ => None end.
Definition as_bool (v : option PyVal) : bool :=
  match v with Some (VBool b) => b | _ => false end.

(** Binding of a call to [place_order] by keywords: a keyword that is not a
    parameter, or a required parameter left without a value, is a TypeError
    raised before the body runs.  Values are given their static types. *)
Definition bind_place_order (kw : list (string * PyVal)) : result PlaceArgs :=
  match find (fun kv => negb (existsb (String.eqb (fst kv)) place_order_parameters)) kw with
  | Some (k, _) =>
      Err (Exception TypeError
             ("BinanceFuturesClient.place_order() got an unexpected keyword argument '"
                ++ k ++ "'")%string)
  | None =>
      match as_str (kw_get "symbol" kw), as_str (kw_get "side" kw),
            as_str (kw_get "order_type" kw), as_float (kw_get "quantity" kw) with
      | Some symbol, Some side, Some order_type, Some quantity =>
          Ok (mkPlaceArgs symbol side order_type quantity
                (as_float (kw_get "price" kw))
                (match as_str (kw_get "time_in_force" kw) with Some t => t | None => "GTC" end)
                (as_bool (kw_get "reduce_only" kw))
                (as_float (kw_get "stop_price" kw))
                (as_bool (kw_get "close_position" kw))
                (as_str (kw_get "working_type" kw)))
      | _, _, _, _ =>
          Err (Exception TypeError
                 "BinanceFuturesClient.place_order() missing required positional arguments")
      end
  end.

Definition place_order_kw (kw : list (string * PyVal)) : M X Order :=
  a <- lift (bind_place_order kw) ;;
  place_order a.

Record TwapResult := mkTwapResult {
  executed_slices : Z;
  expected_slices : Z;
  slice_qty : PyFloat;
  results : list Order
}.

(** The body of [for i in range(1, parts + 1)], over the remaining indices;
    [results] accumulates the responses. *)
Fixpoint execute_twap_loop (indices : list Z) (symbol side : string)
  (slice_qty : PyFloat) (parts interval : Z) (results : list Order)
  : M X (list Order) :=
  match indices with
  | [] => ret results
  | i :: rest =>
      r <- try_except
             (resp <- place_order_kw
                        [("symbol", VStr symbol); ("side", VStr side);
                         ("type", VStr "MARKET"); ("quantity", VFloat slice_qty)] ;;
              ret (Some resp))
             (fun _ =>
                (* Do NOT stop the entire TWAP - continue *)
                ret None) ;;
      match r with
      | None => execute_twap_loop rest symbol side slice_qty parts interval results
      | Some resp =>
          (* Sleep only between slices (not after last one) *)
          (if negb (i =? parts) then time_sleep interval else ret tt) ;;
          execute_twap_loop rest symbol side slice_qty parts interval (results ++ [resp])
      end
  end.

(** [range(1, parts + 1)] *)
Definition range1 (parts : Z) : list Z :=
  map (fun k => Z.of_nat k + 1) (seq 0 (Z.to_nat parts)).

Definition execute_twap (symbol side : string) (total_qty : PyFloat) (parts interval : Z)
  : M X TwapResult :=
  if parts <? 1 then raise (Exception ValueError "parts must be >= 1")
  else if interval <? 1 then raise (Exception ValueError "interval must be >= 1")
  else
    let slice_qty := float_div_int total_qty parts in
    BinanceFuturesClient true ;;
    results <- execute_twap_loop (range1 parts) symbol side slice_qty parts interval [] ;;
    ret (mkTwapResult (Z.of_nat (List.length results)) parts slice_qty results).

(** ** src/cli.py

    A command is the body of its function, from the parsed options on.
    [sys.exit(n)] is the outcome [Exit n]. *)

(** [X if X else None] for an optional symbol, upper-cased. *)
Definition upper_opt (symbol : option string) : option string :=
  if truthy_str symbol
  then match symbol with Some s => Some (upper s) | None => None end
  else None.

(** Each command is a [try] block and a handler; the block is named
    [..._try]. *)

Definition market_try (symbol side : string) (qty : PyNum) : M X unit :=
  _ <- place_market_order (upper symbol) (upper side) qty ;; ret tt.
Definition market (symbol side : string) (qty : PyNum) : M X unit :=
  try_except (market_try symbol side qty) (fun _ => sys_exit 1).

Definition limit_try (symbol side : string) (qty price : PyNum) : M X unit :=
  _ <- place_limit_order (upper symbol) (upper side) qty price ;; ret tt.
Definition limit (symbol side : string) (qty price : PyNum) : M X unit :=
  try_except (limit_try symbol side qty price) (fun _ => sys_exit 1).

Definition open_orders_try (symbol : option string) : M X unit :=
  BinanceFuturesClient true ;;
  orders <- get_open_orders (upper_opt symbol) ;;
  ret tt.
Definition open_orders_cmd (symbol : option string) : M X unit :=
  try_except (open_orders_try symbol) (fun _ => sys_exit 1).

(** [msg] names an order the exchange no longer knows. *)
Definition unknown_order (msg : string) : bool :=
  (contains "Unknown order sent" msg || contains "-2011" msg || contains "400" msg)%bool.

(** The [for o in orders] loop of [cancel_all_cmd], returning the two
    counters. *)
Fixpoint cancel_all_loop (orders : list Order) (cancelled failed : Z) : M X (Z * Z) :=
  match orders with
  | [] => ret (cancelled, failed)
  | o :: rest =>
      ok <- try_except
              (_ <- cancel_order (o_symbol o) (o_orderId o) None ;; ret true)
              (fun e => ret (unknown_order (exn_msg e))) ;;
      if ok : bool
      then cancel_all_loop rest (cancelled + 1) failed
      else cancel_all_loop rest cancelled (failed + 1)
  end.

Definition cancel_all_try (symbol : option string) : M X unit :=
  BinanceFuturesClient true ;;
  orders <- get_open_orders (upper_opt symbol) ;;
  match orders with
  | [] => ret tt
  | _ => _ <- cancel_all_loop orders 0 0 ;; ret tt
  end.
Definition cancel_all_cmd (symbol : option string) : M X unit :=
  try_except (cancel_all_try symbol) (fun _ => sys_exit 1).

Definition cancel_order_try (symbol : string) (order_id : option Z)
  (client_order_id : option string) : M X unit :=
  BinanceFuturesClient true ;;
  try_except
    (resp <- (if truthy_int order_id
              then cancel_order (Some (upper symbol)) order_id None
              else cancel_order (Some (upper symbol)) None client_order_id) ;;
     ret tt)
    (fun e => if unknown_order (exn_msg e) then ret tt else raise e).
Definition cancel_order_cmd (symbol : string) (order_id : option Z)
  (client_order_id : option string) : M X unit :=
  if (negb (truthy_int order_id) && negb (truthy_str client_order_id))%bool
  then sys_exit 2
  else try_except (cancel_order_try symbol order_id client_order_id)
                  (fun _ => sys_exit 1).

Definition inspect_pos_try (symbol : option string) : M X unit :=
  BinanceFuturesClient true ;;
  acct <- get_account ;;
  ret tt.
Definition inspect_pos_cmd (symbol : option string) : M X unit :=
  try_except (inspect_pos_try symbol) (fun _ => sys_exit 1).

Definition filters_try (symbol : string) : M X unit :=
  BinanceFuturesClient true ;;
  info <- get_exchange_info (Some (upper symbol)) ;;
  match info with
  | Some (sym :: _) => ret tt
  | Some [] => raise (Exception KeyError "list index out of range")
  | None => raise (Exception KeyError "'symbols'")
  end.
Definition filters_cmd (symbol : string) : M X unit :=
  try_except (filters_try symbol) (fun _ => sys_exit 1).

Definition oco_try (fuel : nat) (symbol side : string) (qty tp_price sl_price : PyNum)
  (entry_type : string) (entry_price : option PyNum) (wait_time : Z) (detach : bool)
  : M X unit :=
  tp <- lift (float_of tp_price) ;;
  sl <- lift (float_of sl_price) ;;
  result <- place_oco fuel (upper symbol) (upper side) qty (Num tp) (Num sl)
              (upper entry_type) entry_price wait_time 1 detach ;;
  ret tt.
Definition oco (fuel : nat) (symbol side : string) (qty tp_price sl_price : PyNum)
  (entry_type : string) (entry_price : option PyNum) (wait_time : Z) (detach : bool)
  : M X unit :=
  try_except (oco_try fuel symbol side qty tp_price sl_price entry_type entry_price
                wait_time detach)
             (fun _ => sys_exit 1).

Definition auth_check_try : M X unit :=
  BinanceFuturesClient true ;;
  acct <- get_account ;;
  ret tt.
Definition auth_check : M X unit :=
  try_except auth_check_try (fun _ => ret tt).

Definition stop_limit_try (symbol side : string) (qty stop_price price : PyNum)
  (time_in_force : string) (reduce_only : bool) : M X unit :=
  sp <- lift (float_of stop_price) ;;
  pr <- lift (float_of price) ;;
  resp <- place_stop_limit (upper symbol) (upper side) qty (Num sp) (Num pr)
            time_in_force reduce_only ;;
  ret tt.
Definition stop_limit_cmd (symbol side : string) (qty stop_price price : PyNum)
  (time_in_force : string) (reduce_only : bool) : M X unit :=
  try_except (stop_limit_try symbol side qty stop_price price time_in_force reduce_only)
             (fun _ => sys_exit 1).

Definition stop_market_try (symbol side : string) (qty stop_price : PyNum)
  (close_position : bool) : M X unit :=
  sp <- lift (float_of stop_price) ;;
  resp <- place_stop_market (upper symbol) (upper side) qty (Num sp) close_position ;;
  ret tt.
Definition stop_market_cmd (symbol side : string) (qty stop_price : PyNum)
  (close_position : bool) : M X unit :=
  try_except (stop_market_try symbol side qty stop_price close_position)
             (fun _ => sys_exit 1).

(** The subcommands of the [cli] group with their options. *)
Inductive Command :=
| Cmd_market (symbol side : string) (qty : PyNum)
| Cmd_limit (symbol side : string) (qty price : PyNum)
| Cmd_open_orders (symbol : option string)
| Cmd_cancel_all (symbol : option string)
| Cmd_cancel_order (symbol : string) (order_id : option Z) (client_order_id : option string)
| Cmd_inspect_pos (symbol : option string)
| Cmd_filters (symbol : string)
| Cmd_oco (symbol side : string) (qty tp_price sl_price : PyNum) (entry_type : string)
          (entry_price : option PyNum) (wait_time : Z) (detach : bool)
| Cmd_auth_check
| Cmd_stop_limit (symbol side : string) (qty stop_price price : PyNum)
                 (time_in_force : string) (reduce_only : bool)
| Cmd_stop_market (symbol side : string) (qty stop_price : PyNum) (close_position : bool).

Definition run_command (fuel : nat) (c : Command) : M X unit :=
  match c with
  | Cmd_market symbol side qty => market symbol side qty
  | Cmd_limit symbol side qty price => limit symbol side qty price
  | Cmd_open_orders symbol => open_orders_cmd symbol
  | Cmd_cancel_all symbol => cancel_all_cmd symbol
  | Cmd_cancel_order symbol i c => cancel_order_cmd symbol i c
  | Cmd_inspect_pos symbol => inspect_pos_cmd symbol
  | Cmd_filters symbol => filters_cmd symbol
  | Cmd_oco symbol side qty tp sl et ep wt detach =>
      oco fuel symbol side qty tp sl et ep wt detach
  | Cmd_auth_check => auth_check
  | Cmd_stop_limit symbol side qty sp pr tif ro =>
      stop_limit_cmd symbol side qty sp pr tif ro
  | Cmd_stop_market symbol side qty sp cp => stop_market_cmd symbol side qty sp cp
  end.

(** The [try] block of a command. *)
Definition try_block (fuel : nat) (c : Command) : M X unit :=
  match c with
  | Cmd_market symbol side qty => market_try symbol side qty
  | Cmd_limit symbol side qty price => limit_try symbol side qty price
  | Cmd_open_orders symbol => open_orders_try symbol
  | Cmd_cancel_all symbol => cancel_all_try symbol
  | Cmd_cancel_order symbol i c => cancel_order_try symbol i c
  | Cmd_inspect_pos symbol => inspect_pos_try symbol
  | Cmd_filters symbol => filters_try symbol
  | Cmd_oco symbol side qty tp sl et ep wt detach =>
      oco_try fuel symbol side qty tp sl et ep wt detach
  | Cmd_auth_check => auth_check_try
  | Cmd_stop_limit symbol side qty sp pr tif ro =>
      stop_limit_try symbol side qty sp pr tif ro
  | Cmd_stop_market symbol side qty sp cp => stop_market_try symbol side qty sp cp
  end.

End Program.

(** The exit status of the process after a command: 0 when the function
    returns, the argument of [sys.exit], 1 for an exception nobody caught;
    none while the command has not finished. *)
Definition exit_status {A} (o : outcome A) : option Z :=
  match o with
  | Ret _ => Some 0
  | Exit code => Some code
  | Raise _ => Some 1
  | OutOfFuel => None
  end.

(** [cancel-order] without a usable order id or client order id. *)
Definition missing_ids (c : Command) : bool :=
  match c with
  | Cmd_cancel_order _ i c => (negb (truthy_int i) && negb (truthy_str c))%bool
  | _ => false
  end.

Definition outcome_of {X A} (r : outcome A * X * list Event) : outcome A := fst (fst r).
Definition trace_of {X A} (r : outcome A * X * list Event) : list Event := snd r.
Definition state_of {X A} (r : outcome A * X * list Event) : X := snd (fst r).

(** ** Reading a trace *)

(** The [place_order] calls, in order. *)
Definition place_calls (t : list Event) : list PlaceArgs :=
  flat_map (fun ev => match ev with EvCall (Call_place_order a) => [a] | _ => [] end) t.

(** The [cancel_order] calls, in order: symbol, orderId, clientOrderId. *)
Definition cancel_calls (t : list Event) : list (option string * option Z * option string) :=
  flat_map (fun ev => match ev with
                      | EvCall (Call_cancel_order s i c) => [(s, i, c)]
                      | _ => []
                      end) t.

(** The HTTP requests of a trace. *)
Definition is_request (ev : Event) : bool :=
  match ev with EvCall _ | EvSleep _ => false | _ => true end.
Definition requests (t : list Event) : list Event := filter is_request t.

(** The order placements sent to the exchange. *)
Definition posts (t : list Event) : list OrderParams :=
  flat_map (fun ev => match ev with EvPostOrder p _ => [p] | _ => [] end) t.

(** The responses to the order queries, and the orders among them. *)
Definition get_events (t : list Event) : list (result Order) :=
  flat_map (fun ev => match ev with EvGetOrder _ _ r => [r] | _ => [] end) t.
Definition oks (l : list (result Order)) : list Order :=
  flat_map (fun r => match r with Ok o => [o] | Err _ => [] end) l.
Definition get_oks (t : list Event) : list Order := oks (get_events t).

(** The first snapshot of an order that shows it FILLED. *)
Definition first_filled (t : list Event) : option Order := find is_filled (get_oks t).

(** The symbol descriptions the exchange returned, and the first of them. *)
Definition exchange_infos (t : list Event) : list SymbolInfo :=
  flat_map (fun ev => match ev with
                      | EvExchangeInfo _ (Ok (Some (s :: _))) => [s]
                      | _ => []
                      end) t.
Definition symbol_info_of (t : list Event) : option SymbolInfo :=
  hd_error (exchange_infos t).

(** Successive elements two by two: the observations (take-profit,
    stop-loss) of the monitoring loop. *)
Fixpoint pairs {A} (l : list A) : list (A * A) :=
  match l with
  | a :: b :: rest => (a, b) :: pairs rest
  | _ => []
  end.
Definition poll_pairs (t : list Event) : list (Order * Order) := pairs (get_oks t).

(** ** A scripted exchange for the examples

    Every endpoint answers from a script; order queries, placements and
    cancellations consume theirs one response per request.  Sleeping moves
    the clock. *)

Record Sim := mkSim {
  sim_clock : Z;
  sim_info : result ExchangeInfo;
  sim_account : result Account;
  sim_ticker : result Ticker;
  sim_open : result (list Order);
  sim_posts : list (result Order);
  sim_gets : list (result Order);
  sim_deletes : list (result Order)
}.

Definition no_response {A} : result A :=
  Err (Exception RequestException "no response").

Definition sim_post (p : OrderParams) (x : Sim) : result Order * Sim :=
  (hd no_response (sim_posts x),
   mkSim (sim_clock x) (sim_info x) (sim_account x) (sim_ticker x) (sim_open x)
         (tl (sim_posts x)) (sim_gets x) (sim_deletes x)).

Definition sim_get (symbol : string) (orderId : Z) (x : Sim) : result Order * Sim :=
  (hd no_response (sim_gets x),
   mkSim (sim_clock x) (sim_info x) (sim_account x) (sim_ticker x) (sim_open x)
         (sim_posts x) (tl (sim_gets x)) (sim_deletes x)).

Definition sim_delete (symbol : option string) (orderId : option Z)
  (origClientOrderId : option string) (x : Sim) : result Order * Sim :=
  (hd no_response (sim_deletes x),
   mkSim (sim_clock x) (sim_info x) (sim_account x) (sim_ticker x) (sim_open x)
         (sim_posts x) (sim_gets x) (tl (sim_deletes x))).

Definition sim_sleep (secs : Z) (x : Sim) : Sim :=
  mkSim (sim_clock x + secs) (sim_info x) (sim_account x) (sim_ticker x) (sim_open x)
        (sim_posts x) (sim_gets x) (sim_deletes x).

#[export] Instance sim_exchange : Exchange Sim := {
  x_time := fun x => (Ok (sim_clock x * 1000), x);
  x_exchange_info := fun _ x => (sim_info x, x);
  x_ticker_price := fun _ x => (sim_ticker x, x);
  x_post_order := sim_post;
  x_get_order := sim_get;
  x_delete_order := sim_delete;
  x_open_orders := fun _ x => (sim_open x, x);
  x_account := fun x => (sim_account x, x);
  x_clock := sim_clock;
  x_sleep := sim_sleep
}.

(** [str(float(d))] for a Decimal of at most 15 significant digits below
    1e16: the shortest digits, and [.0] after an integer. *)
Fixpoint strip_zeros (fuel : nat) (c e : Z) : Decimal :=
  match fuel with
  | O => mkDec c e
  | S f => if (negb (c =? 0) && (c mod 10 =? 0))%bool
           then strip_zeros f (c / 10) (e + 1) else mkDec c e
  end.

Definition short_float (d : Decimal) : PyFloat :=
  let s := strip_zeros (Z.to_nat (ndigits (coef d))) (coef d) (expo d) in
  if coef s =? 0 then mkDec 0 (-1)
  else if (0 <=? expo s) && (adjusted s <? 16)
       then mkDec (coef s * 10 ^ (expo s + 1)) (-1)
       else s.

(** ** binary64 arithmetic for the examples

    A positive double is a significand and an exponent, [m * 2 ^ e] with
    [m < 2 ^ 53] and [e >= -1074]. *)

(** [floor (log_b (p / q))] from the sizes [sp] and [sq] of [p] and [q]
    ([b ^ (sp - 1) <= p < b ^ sp], likewise for [q]). *)
Definition ratio_log (b p q sp sq : Z) : Z :=
  let t := sp - sq in
  if (if 0 <=? t then q * b ^ t <=? p else q <=? p * b ^ (- t)) then t else t - 1.

(** [p / q] over [b ^ k], as a fraction. *)
Definition ratio_scale (b p q k : Z) : Z * Z :=
  if 0 <=? k then (p, q * b ^ k) else (p * b ^ (- k), q).

(** The double nearest to the positive rational [p / q], ties to even.
    The range of the exponent is not cut off above. *)
Definition binary64_of_ratio (p q : Z) : Z * Z :=
  let l := ratio_log 2 p q (Z.log2 p + 1) (Z.log2 q + 1) in
  let e := Z.max (l - 52) (-1074) in
  let '(num, den) := ratio_scale 2 p q e in
  let m := num / den in
  let r := num mod den in
  let m' := if (den <? 2 * r) || ((2 * r =? den) && Z.odd m) then m + 1 else m in
  if m' =? 2 ^ 53 then (2 ^ 52, e + 1) else (m', e).

(** [float(d)] for a positive Decimal, and [float(n)] for a positive
    integer. *)
Definition binary64_of_decimal (c x : Z) : Z * Z :=
  if 0 <=? x then binary64_of_ratio (c * 10 ^ x) 1 else binary64_of_ratio c (10 ^ (- x)).

(** The decimals of [digits] digits next to the double [(m, e)] that read
    back as that double: the nearer one, the even one on a tie. *)
Definition shortest_at (m e digits : Z) : option Decimal :=
  let '(vp, vq) := ratio_scale 2 m 1 (- e) in
  let k := ratio_log 10 vp vq (ndigits vp) (ndigits vq) - digits + 1 in
  let '(num, den) := ratio_scale 10 vp vq k in
  let lo := num / den in
  let r := num mod den in
  let reads c := let '(m', e') := binary64_of_decimal c k in (m' =? m) && (e' =? e) in
  let lo_ok := (0 <? lo) && reads lo in
  let hi_ok := reads (lo + 1) in
  if lo_ok && hi_ok
  then if (den <? 2 * r) || ((2 * r =? den) && Z.odd lo)
       then Some (mkDec (lo + 1) k) else Some (mkDec lo k)
  else if lo_ok then Some (mkDec lo k)
  else if hi_ok then Some (mkDec (lo + 1) k)
  else None.

(** [repr]: the shortest decimal that reads back as the double. *)
Fixpoint shortest_from (fuel : nat) (m e digits : Z) : Decimal :=
  match fuel with
  | O => mkDec m e
  | S f =>
      match shortest_at m e digits with
      | Some d => d
      | None => shortest_from f m e (digits + 1)
      end
  end.
Definition shortest_decimal (m e : Z) : Decimal := shortest_from 17 m e 1.

(** [f / n] in binary64 for a positive float and a positive integer, as
    [str] prints the quotient. *)
Definition short_div (f : PyFloat) (n : Z) : PyFloat :=
  if (coef f <=? 0) || (n <=? 0) then mkDec 0 (-1)
  else
    let '(mf, ef) := binary64_of_decimal (coef f) (expo f) in
    let '(mn, en) := binary64_of_ratio n 1 in
    let '(p, q) := ratio_scale 2 mf mn (en - ef) in
    let '(m, e) := binary64_of_ratio p q in
    if m =? 0 then mkDec 0 (-1)
    else short_float (shortest_decimal m e).

Definition short_platform : Platform := {|
  to_float := short_float;
  float_div_int := short_div
|}.

(** BTCUSDT as the testnet describes it: tick 0.10, step and minimum
    quantity 0.001. *)
Definition btcusdt : SymbolInfo :=
  mkSymbolInfo
    [PRICE_FILTER (Some (mkDec 10 (-2))) (Some (mkDec 55660 (-2))) (Some (mkDec 4529764 0));
     LOT_SIZE (Some (mkDec 1 (-3))) (Some (mkDec 1 (-3)));
     MIN_NOTIONAL (Some (mkDec 100 0)) None].

Definition order (id : Z) (status : string) (executed orig : Decimal) : Order :=
  mkOrder (Some id) (Some "BTCUSDT") (Some status) (Some executed) (Some orig).

Definition flat_account : Account := mkAccount [mkPosition (Some "BTCUSDT") (Some (mkDec 0 (-3)))].
Definition long_account : Account := mkAccount [mkPosition (Some "BTCUSDT") (Some (mkDec 20 (-3)))].

Definition sim0 : Sim :=
  mkSim 0 (Ok (Some [btcusdt])) (Ok flat_account) (Ok (mkTicker (Some (mkDec 6000000 (-2)))))
        (Ok []) [] [] [].

Definition with_orders (x : Sim) (posts' gets' deletes' : list (result Order)) : Sim :=
  mkSim (sim_clock x) (sim_info x) (sim_account x) (sim_ticker x) (sim_open x)
        posts' gets' deletes'.

(** ** Reasoning about a run

    [wp m x Q]: the run of [m] from the state [x] ends with an outcome, a
    state and a trace that satisfy [Q]. *)
Definition wp {X A} (m : M X A) (x : X) (Q : outcome A -> X -> list Event -> Prop) : Prop :=
  Q (outcome_of (m x)) (state_of (m x)) (trace_of (m x)).

(** ** Statements about runs *)

(** A run that ended by returning or by raising. *)
Definition finished {A} (o : outcome A) : Prop :=
  match o with Ret _ | Raise _ => True | Exit _ | OutOfFuel => False end.

(** A run in which [sys.exit] was not called. *)
Definition no_exit {A} (o : outcome A) : Prop :=
  match o with Exit _ => False | _ => True end.

(** What a run of the poll leaves in the trace: queries only, every
    snapshot before the last one not FILLED. *)
Definition poll_post (poll_interval : Z) (o : outcome Order) (t : list Event) : Prop :=
  place_calls t = [] /\ cancel_calls t = [] /\ posts t = [] /\
  exists before,
    Forall (fun o => is_filled o = false) before /\
    match o with
    | Ret ent => get_events t = map Ok before ++ [Ok ent]
    | Raise e => get_events t = map Ok before ++ [Err e]
                 \/ (get_events t = map Ok before /\ poll_interval < 0)
    | Exit _ => False
    | OutOfFuel => get_events t = map Ok before
    end.

(** Neither leg of an observation is FILLED. *)
Definition unfilled_pair (p : Order * Order) : Prop :=
  is_filled (fst p) = false /\ is_filled (snd p) = false.

(** What the monitoring loop guarantees about its observations. *)
Definition race_post (symbol : string) (tp_id sl_id : option Z)
  (o : outcome (option (leg_role * Order))) (t : list Event) : Prop :=
  forall before tp_o sl_o after,
    poll_pairs t = before ++ (tp_o, sl_o) :: after ->
    Forall unfilled_pair before ->
    is_filled tp_o = true \/ is_filled sl_o = true ->
    after = [] /\
    o = Ret (Some (if is_filled tp_o then (TP, tp_o) else (SL, sl_o))) /\
    cancel_calls t = [(Some symbol, if is_filled tp_o then sl_id else tp_id, None)].

(** The outcome and the trace of an entry that is polled and never seen
    FILLED. *)
Definition entry_timeout_post (o : outcome OcoResult) (t : list Event) : Prop :=
  get_events t <> [] ->
  (forall g, In g (get_events t) -> exists ent, g = Ok ent /\ is_filled ent = false) ->
  o = Raise entry_not_filled /\
  List.length (place_calls t) = 1%nat /\ List.length (posts t) = 1%nat /\
  cancel_calls t = [].

Section LegStatement.
Context {PF : Platform}.

Definition is_leg (side : string) (quantity : Decimal) (p : OrderParams) : Prop :=
  p_quantity p = to_float quantity /\ p_side p = side /\ p_type p = "LIMIT".

(** What the exit legs of a run carry: every order sent after the first
    one, the entry, is a LIMIT order on the opposite side; its quantity is
    the requested quantity rounded to the step in detach mode, and otherwise
    the executed quantity of the first FILLED snapshot of the entry, rounded
    to the step. *)
Definition leg_quantity_post (side : string) (qty : PyNum) (detach : bool)
  (t : list Event) : Prop :=
  forall p, In p (tl (posts t)) ->
    exists side' qty_f s qty_dec,
      validate_side side = Ok side' /\
      validate_positive_number "qty" qty = Ok qty_f /\
      symbol_info_of t = Some s /\
      round_down_qty (to_float qty_f) (f_stepSize (parse_symbol_filters s)) = Ok qty_dec /\
      p_type p = "LIMIT" /\ p_side p = opposite_side side' /\
      if detach then p_quantity p = to_float qty_dec
      else exists entry_final leg_qty,
          first_filled t = Some entry_final /\
          round_down_qty (to_float (executed_or entry_final qty_dec))
                         (f_stepSize (parse_symbol_filters s)) = Ok leg_qty /\
          p_quantity p = to_float leg_qty.

End LegStatement.

(** ** Scripts for the examples *)

(** One order placement is answered. *)
Definition sim_one_post : Sim :=
  with_orders sim0 [Ok (order 7 "NEW" (mkDec 0 0) (mkDec 1 (-3)))] [] [].

(** One open order, whose cancellation the exchange refuses. *)
Definition sim_one_open : Sim :=
  mkSim 0 (Ok (Some [btcusdt])) (Ok flat_account) (Ok (mkTicker (Some (mkDec 6000000 (-2)))))
        (Ok [order 7 "NEW" (mkDec 0 0) (mkDec 20 (-3))]) [] []
        [Err (Exception HTTPError "500 Server Error: Internal Server Error")].

(** A cancellation answered 400. *)
Definition sim_unknown_order : Sim :=
  with_orders sim0 [] []
    [Err (Exception HTTPError "400 Client Error: Bad Request for url")].

(** Runs of the bracket on the scripted exchange. *)

Definition new_order (id : Z) : Order := order id "NEW" (mkDec 0 0) (mkDec 20 (-3)).

Definition filled_order (id : Z) : Order := order id "FILLED" (mkDec 20 (-3)) (mkDec 20 (-3)).

(** The entry fills on the second poll, the take-profit on the second round
    of the monitoring. *)
Definition sim_bracket : Sim :=
  with_orders (mkSim 0 (Ok (Some [btcusdt])) (Ok long_account)
                 (Ok (mkTicker (Some (mkDec 6000000 (-2))))) (Ok []) [] [] [])
    [Ok (new_order 7); Ok (new_order 8); Ok (new_order 9)]
    [Ok (new_order 7); Ok (filled_order 7);
     Ok (new_order 8); Ok (new_order 9); Ok (filled_order 8); Ok (new_order 9)]
    [Ok (order 9 "CANCELED" (mkDec 0 0) (mkDec 20 (-3)))].

(** The entry is answered half filled and the run is detached. *)
Definition sim_partial : Sim :=
  with_orders sim0
    [Ok (order 7 "PARTIALLY_FILLED" (mkDec 10 (-3)) (mkDec 20 (-3)));
     Ok (new_order 8); Ok (new_order 9)] [] [].

(** The entry never fills. *)
Definition sim_unfilled : Sim :=
  with_orders sim0 [Ok (new_order 7)]
    [Ok (new_order 7); Ok (new_order 7); Ok (new_order 7); Ok (new_order 7)] [].

Definition bracket_run (fuel : nat) (wait_timeout : Z) (detach : bool) (x : Sim) :=
  place_oco (PF := short_platform) fuel "BTCUSDT" "BUY" (Num (mkDec 2 (-2)))
    (Num (mkDec 65000 0)) (Num (mkDec 55000 0)) "MARKET" None wait_timeout 1 detach x.

Definition division_undefined : exn :=
  Exception InvalidOperation "[<class 'decimal.DivisionUndefined'>]".

(** The loop that brings an exact quotient as close to the ideal exponent
    as its trailing zeros allow. *)
Fixpoint strip_exact (fuel : nat) (coeff exp ideal_exp : Z) : Z * Z :=
  match fuel with
  | O => (coeff, exp)
  | S f =>
      if (exp <? ideal_exp) && (coeff mod 10 =? 0)
      then strip_exact f (coeff / 10) (exp + 1) ideal_exp
      else (coeff, exp)
  end.

(** [a / b]: the quotient to [prec + 1] digits or more, with a sticky last
    digit when it is not exact, then [_fix]. *)
Definition dec_div (a b : Decimal) : result Decimal :=
  if coef b =? 0 then
    if coef a =? 0 then Err division_undefined else Err division_by_zero
  else if coef a =? 0 then fix_context (mkDec 0 (expo a - expo b))
  else
    let shift := ndigits (coef b) - ndigits (coef a) + prec + 1 in
    let exp := expo a - expo b - shift in
    let num := if 0 <=? shift then Z.abs (coef a) * 10 ^ shift else Z.abs (coef a) in
    let den := if 0 <=? shift then Z.abs (coef b) else Z.abs (coef b) * 10 ^ (- shift) in
    let coeff := num / den in
    let remainder := num mod den in
    let sign := Z.sgn (coef a) * Z.sgn (coef b) in
    if negb (remainder =? 0) then
      fix_context (mkDec (sign * (if coeff mod 5 =? 0 then coeff + 1 else coeff)) exp)
    else
      let ce := strip_exact (Z.to_nat shift) coeff exp (expo a - expo b) in
      fix_context (mkDec (sign * fst ce) (snd ce)).

(** [Decimal._rescale(e, ROUND_HALF_EVEN)]. *)
Definition rescale_half_even (d : Decimal) (e : Z) : Decimal :=
  if e <=? expo d then mkDec (coef d * 10 ^ (expo d - e)) e
  else mkDec (round_half_even (coef d) (e - expo d)) e.

(** [d.quantize(ex)] with the rounding of the context, ROUND_HALF_EVEN. *)
Definition quantize_half_even (d ex : Decimal) : result Decimal :=
  if negb ((Etiny <=? expo ex) && (expo ex <=? Emax)) then Err invalid_operation
  else if coef d =? 0 then Ok (mkDec 0 (expo ex))
  else if Emax <? adjusted d then Err invalid_operation
  else if prec <? adjusted d - expo ex + 1 then Err invalid_operation
  else
    let ans := rescale_half_even d (expo ex) in
    if Emax <? adjusted ans then Err invalid_operation
    else if prec <? ndigits (coef ans) then Err invalid_operation
    else Ok ans.

Definition qty_for_min_notional (price min_notional step : Decimal) : result Decimal :=
  if dec_is_zero price then Ok dec_zero
  else
    match dec_div min_notional price with
    | Err e => Err e
    | Ok d =>
        let required := quantize_half_even d step in
        required
    end.

(** [d] is within half a unit of its last place of the quotient of [a] by
    [b]: |a - d * b| <= |b| * 10 ^ expo d / 2, counted at a common
    exponent. *)
Definition quotient_error (a b d : Decimal) : Prop :=
  let m := Z.min (expo a - expo b) (expo d) in
  2 * Z.abs (coef a * 10 ^ (expo a - expo b - m) - coef d * coef b * 10 ^ (expo d - m))
  <= Z.abs (coef b) * 10 ^ (expo d - m).

(** [r] is within half a unit of its last place of [d]:
    |r - d| <= 10 ^ expo r / 2. *)
Definition rounding_error (d r : Decimal) : Prop :=
  let m := Z.min (expo d) (expo r) in
  2 * Z.abs (scaled r m - scaled d m) <= 10 ^ (expo r - m).

(** ** Statements about filters *)

(** The kinds of filter that [parse_symbol_filters] reads. *)
Definition is_price_filter (f : Filter) : bool :=
  match f with PRICE_FILTER _ _ _ => true | _ => false end.
Definition is_lot_size (f : Filter) : bool :=
  match f with LOT_SIZE _ _ => true | _ => false end.
Definition is_min_notional (f : Filter) : bool :=
  match f with MIN_NOTIONAL _ _ => true | _ => false end.

(** ** Statements about the orders sent *)

Definition is_err {A} (r : result A) : bool :=
  match r with Err _ => true | Ok _ => false end.

(** A call refused with a ValueError before anything happened: no event,
    and the exchange as it was. *)
Definition rejected {X A} (run : outcome A * X * list Event) (x : X) : Prop :=
  exists msg, run = (Raise (Exception ValueError msg), x, []).

(** An order without stop price and without flags. *)
Definition plain_order (p : OrderParams) : Prop :=
  p_stopPrice p = None /\ p_reduceOnly p = false /\ p_closePosition p = false /\
  p_workingType p = None.

(** The requests that place or cancel an order. *)
Definition touches_orders (ev : Event) : bool :=
  match ev with EvPostOrder _ _ | EvDeleteOrder _ _ _ _ => true | _ => false end.
Definition order_requests (t : list Event) : list Event := filter touches_orders t.

(** What the guard on the exchange information ensures: a run in which no
    symbol description arrived has placed nothing and has raised, with the
    RuntimeError [msg] when the exchange did answer. *)
Definition needs_symbol_info {A} (msg : string) (o : outcome A) (t : list Event) : Prop :=
  symbol_info_of t = None ->
  place_calls t = [] /\ posts t = [] /\ (exists e, o = Raise e) /\
  (forall sym info, In (EvExchangeInfo sym (Ok info)) t -> o = Raise (could_not_fetch msg)).

(** ** More scripts for the examples *)

(** The exchange answers the request for the symbol without a symbol. *)
Definition sim_no_symbol : Sim :=
  mkSim 0 (Ok None) (Ok flat_account) (Ok (mkTicker (Some (mkDec 6000000 (-2)))))
        (Ok []) [] [] [].

(** ** Statements about stop orders *)

(** The tick the stop functions work with:
    [filters["tickSize"] or Decimal("0.0001")]. *)
Definition stop_tick (s : SymbolInfo) : Decimal :=
  if negb (dec_is_zero (f_tickSize (parse_symbol_filters s)))
  then f_tickSize (parse_symbol_filters s) else fallback_tick.

(** A stop price on the far side of the market: above the current price
    plus one tick for BUY, below the current price minus one tick
    otherwise, the bound being computed in the Decimal context. *)
Definition beyond_market (side : string) (current tick stop : Decimal) : Prop :=
  if String.eqb side "BUY"
  then exists bound, dec_add current tick = Ok bound /\ dec_lt bound stop
  else exists bound, dec_sub current tick = Ok bound /\ dec_lt stop bound.

(** The stop price of an order that was sent: the validated stop price
    rounded to the tick, which the ticker price read in the same run puts
    beyond the market. *)
Definition stop_checked {PF : Platform} (symbol : string) (stop_price : PyNum)
  (p : OrderParams) (t : list Event) : Prop :=
  exists s tk stop_f stop_dec,
    symbol_info_of t = Some s /\
    In (EvTickerPrice symbol (Ok tk)) t /\
    validate_positive_number "stop_price" stop_price = Ok stop_f /\
    round_price_to_tick stop_f (stop_tick s) = Ok stop_dec /\
    p_stopPrice p = Some (to_float stop_dec) /\
    beyond_market (p_side p) (or_zero (tk_price tk)) (stop_tick s) stop_dec.

(** ** More readings of a trace *)

(** The order placements with their answers, and the sleeps. *)
Definition post_events (t : list Event) : list (OrderParams * result Order) :=
  flat_map (fun ev => match ev with EvPostOrder p r => [(p, r)] | _ => [] end) t.
Definition sleeps (t : list Event) : list Z :=
  flat_map (fun ev => match ev with EvSleep d => [d] | _ => [] end) t.

(** The cancellations sent to the exchange: symbol, orderId,
    origClientOrderId. *)
Definition deletes (t : list Event) : list (option string * option Z * option string) :=
  flat_map (fun ev => match ev with
                      | EvDeleteOrder s i c _ => [(s, i, c)]
                      | _ => []
                      end) t.

(** ** Statements about the monitoring loop *)

(** What a run of the monitoring loop is like as long as no observation
    shows a FILLED leg: nothing is cancelled; it returns no winner, and only
    once [wait_timeout] is over; what it raises is the failure of a query,
    the TypeError of a leg without order id, or the ValueError of a negative
    sleep. *)
Definition gives_up {X} {EX : Exchange X} (tp_id sl_id : option Z)
  (wait_timeout poll_interval start : Z)
  (o : outcome (option (leg_role * Order))) (x' : X) (t : list Event) : Prop :=
  Forall unfilled_pair (poll_pairs t) ->
  cancel_calls t = [] /\
  match o with
  | Ret w => w = None /\ wait_timeout < x_clock x' - start
  | Raise e => In (Err e) (get_events t) \/ tp_id = None \/ sl_id = None \/ poll_interval < 0
  | Exit _ => False
  | OutOfFuel => True
  end.

(** ** Statements about the exit legs *)

(** The amount of the first position of the account listed for [symbol],
    0 when there is none or it has no amount: what [_get_position_amount]
    computes from the account. *)
Definition position_amount (symbol : string) (acct : Account) : Decimal :=
  match find (fun p => match pos_symbol p with
                       | Some s => String.eqb s symbol
                       | None => false
                       end) (acct_positions acct) with
  | Some p => or_zero (pos_positionAmt p)
  | None => dec_zero
  end.

(** A position in the direction of the entry: long after BUY, short after
    SELL. *)
Definition position_with_entry (side : string) (pos : Decimal) : Prop :=
  (side = "BUY" /\ dec_lt dec_zero pos) \/ (side = "SELL" /\ dec_lt pos dec_zero).

(** What every exit leg of a run carries besides its quantity: it is a
    LIMIT order at one of the two prices, rounded to the tick of the symbol,
    good till cancelled; and
    the reduce-only flag only when the account read in the run shows a
    position in the direction of the entry. *)
Definition leg_details_post {PF : Platform} (symbol side : string)
  (tp_price sl_price : PyNum) (t : list Event) : Prop :=
  forall p, In p (tl (posts t)) ->
    exists side' s tp_f sl_f tp_dec sl_dec,
      validate_side side = Ok side' /\
      symbol_info_of t = Some s /\
      validate_positive_number "tp_price" tp_price = Ok tp_f /\
      validate_positive_number "sl_price" sl_price = Ok sl_f /\
      round_price_to_tick tp_f (f_tickSize (parse_symbol_filters s)) = Ok tp_dec /\
      round_price_to_tick sl_f (f_tickSize (parse_symbol_filters s)) = Ok sl_dec /\
      p_type p = "LIMIT" /\
      (p_price p = Some (to_float tp_dec) \/ p_price p = Some (to_float sl_dec)) /\
      p_timeInForce p = Some "GTC" /\ p_symbol p = symbol /\
      (p_reduceOnly p = true ->
       exists acct, In (EvAccount (Ok acct)) t /\
                    position_with_entry side' (position_amount symbol acct)).

(** Neither leg fills while the monitoring lasts. *)
Definition sim_no_fill : Sim :=
  with_orders sim0 []
    [Ok (new_order 8); Ok (new_order 9); Ok (new_order 8); Ok (new_order 9)] [].

(** ** Statements about the commands *)

(** What [cancel-all] passes to [cancel_order] for an open order. *)
Definition cancel_key (o : Order) : option string * option Z * option string :=
  (o_symbol o, o_orderId o, None).

(** A run that neither places nor cancels an order. *)
Definition touches_no_order (t : list Event) : Prop :=
  place_calls t = [] /\ cancel_calls t = [] /\ order_requests t = [].

(** ** Statements about the arguments *)

(** A string of ASCII characters, the strings on which [upper] is
    [str.upper]. *)
Fixpoint is_ascii (s : string) : bool :=
  match s with
  | EmptyString => true
  | String c s' => Nat.ltb (nat_of_ascii c) 128 && is_ascii s'
  end.

Definition lower_ascii (c : ascii) : ascii :=
  let n := nat_of_ascii c in
  if (Nat.leb 65 n && Nat.leb n 90)%bool then ascii_of_nat (n + 32)%nat else c.

(** The spellings of a word in upper and lower case letters: each
    character as it is or in lower case. *)
Fixpoint spellings (word : string) : list string :=
  match word with
  | EmptyString => [EmptyString]
  | String c rest =>
      flat_map (fun v => [String c v; String (lower_ascii c) v]) (spellings rest)
  end.

(** A side that [validate_side] refuses: an ASCII string that spells
    neither BUY nor SELL. *)
Definition bad_side (side : string) : Prop :=
  is_ascii side = true /\ ~ In side (spellings "BUY") /\ ~ In side (spellings "SELL").

(** A number that [validate_positive_number] refuses: a value that
    [float] does not convert, or a finite float that is not above 0. *)
Definition not_positive (v : PyNum) : Prop :=
  v = NotNumber \/ exists f, v = Num f /\ dec_le f dec_zero.

(** The integers from which on the conversion to float raises
    OverflowError: they round to 2^1024 or more. *)
Definition float_overflow : Z := 2 ^ 1024 - 2 ^ 970.

(** ** Statements about the race of the two legs *)

(** The answers to the status queries that follow the first FILLED
    snapshot.  In a run of [place_oco] that waits, that snapshot is the
    entry's and ends the entry poll: the answers after it are those of the
    monitoring loop, the take-profit's and the stop-loss's in turn. *)
Fixpoint after_first_filled (l : list (result Order)) : list (result Order) :=
  match l with
  | [] => []
  | Ok o :: rest => if is_filled o then rest else after_first_filled rest
  | Err _ :: rest => after_first_filled rest
  end.
Definition monitor_queries (t : list Event) : list (result Order) :=
  after_first_filled (get_events t).

(** The rounds of the monitoring in which both queries were answered. *)
Definition monitor_rounds (t : list Event) : list (Order * Order) :=
  pairs (oks (monitor_queries t)).

(** The orders the exchange accepted, as it answered the placements. *)
Definition accepted_orders (t : list Event) : list Order :=
  flat_map (fun ev => match ev with EvPostOrder _ (Ok o) => [o] | _ => [] end) t.

(** What a run of [place_oco] that waits guarantees about the race: the
    first round with a FILLED leg decides it, and a query that fails ends
    the run with that failure. *)
Definition first_fill_post (symbol : string) (o : outcome OcoResult) (t : list Event)
  : Prop :=
  (forall before tp_o sl_o after,
     monitor_rounds t = before ++ (tp_o, sl_o) :: after ->
     Forall unfilled_pair before ->
     is_filled tp_o = true \/ is_filled sl_o = true ->
     after = [] /\
     exists res entry_resp,
       o = Ret res /\
       oco_winner res = Some (if is_filled tp_o then (TP, tp_o) else (SL, sl_o)) /\
       accepted_orders t = [entry_resp; oco_tp res; oco_sl res] /\
       cancel_calls t
       = [(Some symbol,
           o_orderId (if is_filled tp_o then oco_sl res else oco_tp res), None)]) /\
  (forall e, In (Err e) (monitor_queries t) -> o = Raise e /\ cancel_calls t = []).

(** The entry fills on the second poll; on the second round of the
    monitoring both legs show FILLED, and the cancellation is refused. *)
Definition sim_bracket_tie : Sim :=
  with_orders sim0
    [Ok (new_order 7); Ok (new_order 8); Ok (new_order 9)]
    [Ok (new_order 7); Ok (filled_order 7);
     Ok (new_order 8); Ok (new_order 9); Ok (filled_order 8); Ok (filled_order 9)]
    [Err (Exception HTTPError "400 Client Error: Bad Request")].

(** The entry fills at once; the take-profit shows FILLED on the first
    round of the monitoring and the query of the stop-loss fails. *)
Definition sim_bracket_lost_query : Sim :=
  with_orders sim0
    [Ok (new_order 7); Ok (new_order 8); Ok (new_order 9)]
    [Ok (filled_order 7); Ok (filled_order 8);
     Err (Exception HTTPError "502 Server Error: Bad Gateway")]
    [].

(** * Properties *)

(** ** Digits *)

Lemma pow10_pos (k : Z) : 0 <= k -> 0 < 10 ^ k.
Proof. intros; apply Z.pow_pos_nonneg; lia. Qed.

Lemma pow10_succ (k : Z) : 0 <= k -> 10 ^ (k + 1) = 10 * 10 ^ k.
Proof. intros; rewrite Z.pow_add_r by lia; change (10 ^ 1) with 10; lia. Qed.

Lemma ndigits_pos_spec (fuel : nat) :
  forall n, 0 < n -> n < 2 ^ (Z.of_nat fuel + 1) ->
    1 <= ndigits_pos fuel n /\
    10 ^ (ndigits_pos fuel n - 1) <= n < 10 ^ ndigits_pos fuel n.
Proof.
  induction fuel as [|f IH]; intros n Hpos Hlt.
  - simpl in *. change (2 ^ 1) with 2 in Hlt. assert (n = 1) by lia. subst.
    split; [lia|]. simpl. lia.
  - cbn [ndigits_pos]. destruct (n <? 10) eqn:E.
    + apply Z.ltb_lt in E. split; [lia|]. simpl. lia.
    + apply Z.ltb_ge in E.
      assert (H10 : 0 < n / 10) by (apply Z.div_str_pos; lia).
      assert (Hlt' : n / 10 < 2 ^ (Z.of_nat f + 1)).
      { apply Z.div_lt_upper_bound; [lia|].
        replace (Z.of_nat (S f) + 1) with (Z.of_nat f + 1 + 1) in Hlt by lia.
        rewrite Z.pow_add_r in Hlt by lia. change (2 ^ 1) with 2 in Hlt.
        assert (0 < 2 ^ (Z.of_nat f + 1)) by (apply Z.pow_pos_nonneg; lia). lia. }
      destruct (IH _ H10 Hlt') as [H1 [Hlo Hhi]].
      set (k := ndigits_pos f (n / 10)) in *.
      split; [lia|].
      replace (1 + k - 1) with (k - 1 + 1) by lia.
      replace (1 + k) with (k + 1) by lia.
      rewrite !pow10_succ by lia.
      pose proof (Z.div_mod n 10 ltac:(lia)) as Hdm.
      pose proof (Z.mod_pos_bound n 10 ltac:(lia)).
      lia.
Qed.

Lemma ndigits_spec (n : Z) :
  n <> 0 -> 1 <= ndigits n /\ 10 ^ (ndigits n - 1) <= Z.abs n < 10 ^ ndigits n.
Proof.
  intros Hn. unfold ndigits. apply ndigits_pos_spec; [lia|].
  rewrite Z2Nat.id by apply Z.log2_nonneg.
  pose proof (Z.log2_spec (Z.abs n) ltac:(lia)) as [_ H].
  replace (Z.log2 (Z.abs n) + 1) with (Z.succ (Z.log2 (Z.abs n))) by lia. exact H.
Qed.

Lemma ndigits_ge1 (n : Z) : 1 <= ndigits n.
Proof.
  destruct (Z.eq_dec n 0) as [->|H]; [reflexivity|]. apply ndigits_spec; assumption.
Qed.

Lemma pow10_lt_inv (a b : Z) : 0 <= a -> 0 <= b -> 10 ^ a < 10 ^ b -> a < b.
Proof. intros Ha Hb H. apply (Z.pow_lt_mono_r_iff 10); lia. Qed.

(** A number below [10 ^ k] has at most [k] digits. *)
Lemma ndigits_le (n k : Z) : n <> 0 -> Z.abs n < 10 ^ k -> ndigits n <= k.
Proof.
  intros Hn Hlt. destruct (ndigits_spec n Hn) as [H1 [Hlo _]].
  destruct (Z_lt_le_dec k 0) as [Hk|Hk].
  - rewrite Z.pow_neg_r in Hlt by lia. lia.
  - assert (ndigits n - 1 < k); [|lia].
    apply pow10_lt_inv; lia.
Qed.

(** A number with at most [k] digits is below [10 ^ k]. *)
Lemma ndigits_bound (n k : Z) : ndigits n <= k -> Z.abs n < 10 ^ k.
Proof.
  intros Hk. destruct (Z.eq_dec n 0) as [->|Hn].
  - pose proof (ndigits_ge1 0). simpl. apply pow10_pos; lia.
  - destruct (ndigits_spec n Hn) as [H1 [_ Hhi]].
    eapply Z.lt_le_trans; [exact Hhi|]. apply Z.pow_le_mono_r; lia.
Qed.

Lemma ndigits_mul_pow10 (n k : Z) :
  n <> 0 -> 0 <= k -> ndigits (n * 10 ^ k) = ndigits n + k.
Proof.
  intros Hn Hk.
  assert (Hp : 0 < 10 ^ k) by (apply pow10_pos; lia).
  assert (Hnz : n * 10 ^ k <> 0) by nia.
  destruct (ndigits_spec n Hn) as [H1 [Hlo Hhi]].
  destruct (ndigits_spec _ Hnz) as [H1' [Hlo' Hhi']].
  rewrite Z.abs_mul, (Z.abs_eq (10 ^ k)) in Hlo', Hhi' by lia.
  assert (A : Z.abs n * 10 ^ k < 10 ^ (ndigits n + k)).
  { rewrite Z.pow_add_r by lia. nia. }
  assert (B : 10 ^ (ndigits n - 1 + k) <= Z.abs n * 10 ^ k).
  { rewrite Z.pow_add_r by lia. nia. }
  assert (ndigits (n * 10 ^ k) - 1 < ndigits n + k) by (apply pow10_lt_inv; lia).
  assert (ndigits n - 1 + k < ndigits (n * 10 ^ k)) by (apply pow10_lt_inv; lia).
  lia.
Qed.

(** ** Results that fit the context *)

Lemma fix_context_exact (d : Decimal) :
  Z.abs (coef d) < 10 ^ prec -> Etiny <= expo d <= Etop -> fix_context d = Ok d.
Proof.
  intros Hc [Hlo Hhi]. unfold fix_context.
  assert (HE : Etop <= Emax) by (unfold Etop, Emax, prec; lia).
  destruct (coef d =? 0) eqn:E0.
  - apply Z.eqb_eq in E0. destruct d as [c e]; simpl in *. subst c.
    rewrite Z.max_l, Z.min_l by lia. reflexivity.
  - apply Z.eqb_neq in E0.
    pose proof (ndigits_le _ _ E0 Hc) as Hn.
    replace (Etop <? ndigits (coef d) + expo d - prec) with false
      by (symmetry; apply Z.ltb_ge; lia).
    replace (expo d <? Z.max (ndigits (coef d) + expo d - prec) Etiny) with false
      by (symmetry; apply Z.ltb_ge; lia).
    reflexivity.
Qed.

Lemma dec_eqb_refl (a : Decimal) : dec_eqb a a = true.
Proof. unfold dec_eqb, dec_compare. rewrite Z.compare_refl. reflexivity. Qed.

Lemma scaled_pos (a : Decimal) (m : Z) : 0 < coef a -> m <= expo a -> 0 < scaled a m.
Proof.
  intros Hc Hm. unfold scaled.
  assert (0 < 10 ^ (expo a - m)) by (apply pow10_pos; lia). nia.
Qed.

Lemma dec_leb_scaled (a b : Decimal) :
  dec_leb a b = true <->
  scaled a (Z.min (expo a) (expo b)) <= scaled b (Z.min (expo a) (expo b)).
Proof.
  unfold dec_leb, dec_compare.
  destruct (Z.compare_spec (scaled a (Z.min (expo a) (expo b)))
                           (scaled b (Z.min (expo a) (expo b))));
    split; intros; try lia; try reflexivity; discriminate.
Qed.

Lemma dec_ltb_scaled (a b : Decimal) :
  dec_ltb a b = true <->
  scaled a (Z.min (expo a) (expo b)) < scaled b (Z.min (expo a) (expo b)).
Proof.
  unfold dec_ltb, dec_compare.
  destruct (Z.compare_spec (scaled a (Z.min (expo a) (expo b)))
                           (scaled b (Z.min (expo a) (expo b))));
    split; intros; try lia; try reflexivity; discriminate.
Qed.

Lemma dec_eqb_scaled (a b : Decimal) :
  dec_eqb a b = true <->
  scaled a (Z.min (expo a) (expo b)) = scaled b (Z.min (expo a) (expo b)).
Proof.
  unfold dec_eqb, dec_compare.
  destruct (Z.compare_spec (scaled a (Z.min (expo a) (expo b)))
                           (scaled b (Z.min (expo a) (expo b))));
    split; intros; try lia; try reflexivity; discriminate.
Qed.

(** ** src/utils.py: round_price_to_tick *)

(** C7, as the code has it: without a tick the price is returned unchanged;
    for a positive price and tick whose product of quotient and tick
    coefficient fits the 28 digits of the context, the result is
    price - (price mod tick), at most the price and a multiple of the
    tick. *)
Theorem round_price_to_tick_floor (p tick : Decimal) :
  (coef tick = 0 -> round_price_to_tick p tick = Ok p) /\
  (0 < coef p -> 0 < coef tick -> Etiny <= expo tick <= Etop ->
   int_quotient p tick * coef tick < 10 ^ prec ->
   exists r,
     round_price_to_tick p tick = Ok r /\
     dec_le r p /\
     multiple_of r tick /\
     let m := Z.min (expo p) (expo tick) in
     scaled r m = scaled p m - scaled p m mod scaled tick m).
Proof.
  split.
  - intros H0. unfold round_price_to_tick, dec_is_zero. rewrite H0. reflexivity.
  - intros Hp Ht He Hfit.
    set (m := Z.min (expo p) (expo tick)).
    assert (HP : 0 < scaled p m) by (apply scaled_pos; lia).
    assert (HT : 0 < scaled tick m) by (apply scaled_pos; lia).
    assert (Hq : int_quotient p tick = scaled p m / scaled tick m).
    { unfold int_quotient. fold m. apply Z.quot_div_nonneg; lia. }
    assert (Hq0 : 0 <= int_quotient p tick).
    { rewrite Hq. apply Z.div_pos; lia. }
    set (q := int_quotient p tick) in *.
    exists (mkDec (q * coef tick) (expo tick)).
    assert (Hscaled : scaled (mkDec (q * coef tick) (expo tick)) m = q * scaled tick m).
    { unfold scaled; simpl. ring. }
    split; [|split; [|split]].
    + unfold round_price_to_tick, dec_is_zero.
      replace (coef tick =? 0) with false by (symmetry; apply Z.eqb_neq; lia).
      unfold dec_floordiv.
      replace (coef tick =? 0) with false by (symmetry; apply Z.eqb_neq; lia).
      fold q.
      replace (Z.abs q <? 10 ^ prec) with true by (symmetry; apply Z.ltb_lt; nia).
      unfold dec_mul. simpl. apply fix_context_exact; simpl; [|lia].
      rewrite Z.abs_eq by nia. exact Hfit.
    + apply dec_leb_scaled. simpl expo. rewrite Z.min_comm. fold m.
      rewrite Hscaled, Hq.
      pose proof (Z.mul_div_le (scaled p m) (scaled tick m) HT). lia.
    + exists q. apply dec_eqb_refl.
    + cbv zeta. fold m. rewrite Hscaled, Hq.
      pose proof (Z.div_mod (scaled p m) (scaled tick m) ltac:(lia)). lia.
Qed.

Lemma round_price_to_tick_floor_witness :
  exists r,
    round_price_to_tick (mkDec 650005 (-1)) (mkDec 10 (-2)) = Ok r /\
    dec_le r (mkDec 650005 (-1)) /\
    multiple_of r (mkDec 10 (-2)) /\
    scaled r (-2) = 6500050 - 6500050 mod 10.
Proof.
  apply (proj2 (round_price_to_tick_floor (mkDec 650005 (-1)) (mkDec 10 (-2)))).
  - simpl; lia.
  - simpl; lia.
  - vm_compute. split; discriminate.
  - vm_compute. reflexivity.
Defined.

(** C7 as the spec states it fails where the context rounds the product:
    8e27 floored to a tick of 0.9 is not a multiple of 0.9, and 1e30 with a
    tick of 0.01 raises. *)
Lemma round_price_to_tick_counterexample :
  0 < coef (mkDec 8 27) /\ 0 < coef (mkDec 9 (-1)) /\
  round_price_to_tick (mkDec 8 27) (mkDec 9 (-1))
    = Ok (mkDec 7999999999999999999999999999 0) /\
  ~ multiple_of (mkDec 7999999999999999999999999999 0) (mkDec 9 (-1)) /\
  round_price_to_tick (mkDec 1 30) (mkDec 1 (-2)) = Err division_impossible.
Proof.
  split; [reflexivity|]. split; [reflexivity|]. split; [vm_compute; reflexivity|].
  split; [|vm_compute; reflexivity].
  intros [n Hn]. apply dec_eqb_scaled in Hn. unfold scaled in Hn. simpl in Hn. lia.
Qed.

(** ** src/utils.py: round_down_qty *)

Lemma rescale_down_le (q : Decimal) (e : Z) :
  0 < coef q -> dec_le (rescale_down q e) q.
Proof.
  intros Hq. apply dec_leb_scaled. unfold rescale_down.
  destruct (e <=? expo q) eqn:E.
  - apply Z.leb_le in E. simpl. rewrite Z.min_l by lia.
    unfold scaled; simpl. rewrite Z.sub_diag. simpl. lia.
  - apply Z.leb_gt in E. simpl. rewrite Z.min_r by lia.
    unfold scaled; simpl. rewrite Z.sub_diag.
    assert (Hp : 0 < 10 ^ (e - expo q)) by (apply pow10_pos; lia).
    rewrite Z.quot_div_nonneg by lia.
    pose proof (Z.mul_div_le (coef q) (10 ^ (e - expo q)) Hp).
    change (10 ^ 0) with 1. lia.
Qed.

Lemma rescale_down_expo (q : Decimal) (e : Z) : expo (rescale_down q e) = e.
Proof. unfold rescale_down. destruct (e <=? expo q); reflexivity. Qed.

Lemma rescale_down_nonneg (q : Decimal) (e : Z) :
  0 < coef q -> 0 <= coef (rescale_down q e).
Proof.
  intros Hq. unfold rescale_down. destruct (e <=? expo q) eqn:E; simpl.
  - apply Z.leb_le in E.
    assert (0 < 10 ^ (expo q - e)) by (apply pow10_pos; lia). nia.
  - apply Z.leb_gt in E.
    assert (0 < 10 ^ (e - expo q)) by (apply pow10_pos; lia).
    apply Z.quot_pos; lia.
Qed.

(** Truncation loses less than one unit of the new last place. *)
Lemma rescale_down_loss (q : Decimal) (e : Z) :
  0 < coef q ->
  scaled q (Z.min (expo q) e) - scaled (rescale_down q e) (Z.min (expo q) e)
  < 10 ^ (e - Z.min (expo q) e).
Proof.
  intros Hq. unfold rescale_down. destruct (e <=? expo q) eqn:E.
  - apply Z.leb_le in E. rewrite Z.min_r by lia.
    unfold scaled; cbn [coef expo]. rewrite !Z.sub_diag. change (10 ^ 0) with 1. lia.
  - apply Z.leb_gt in E. rewrite Z.min_l by lia.
    unfold scaled; cbn [coef expo]. rewrite Z.sub_diag. change (10 ^ 0) with 1.
    assert (Hp : 0 < 10 ^ (e - expo q)) by (apply pow10_pos; lia).
    rewrite Z.quot_div_nonneg by lia.
    pose proof (Z.div_mod (coef q) (10 ^ (e - expo q)) ltac:(lia)).
    pose proof (Z.mod_pos_bound (coef q) (10 ^ (e - expo q)) Hp). lia.
Qed.

(** Truncation does not move the leading digit up. *)
Lemma rescale_down_adjusted (q : Decimal) (e : Z) :
  0 < coef q -> coef (rescale_down q e) <> 0 ->
  adjusted (rescale_down q e) <= adjusted q.
Proof.
  intros Hq Hnz. unfold adjusted. rewrite rescale_down_expo.
  unfold rescale_down in *. destruct (e <=? expo q) eqn:E; simpl in *.
  - apply Z.leb_le in E. rewrite ndigits_mul_pow10 by lia. lia.
  - apply Z.leb_gt in E.
    assert (Hp : 0 < 10 ^ (e - expo q)) by (apply pow10_pos; lia).
    rewrite Z.quot_div_nonneg in * by lia.
    assert (Hr : 0 < coef q / 10 ^ (e - expo q)).
    { pose proof (Z.div_pos (coef q) _ ltac:(lia) Hp). lia. }
    destruct (ndigits_spec (coef q) ltac:(lia)) as [H1 [_ Hhi]].
    rewrite Z.abs_eq in Hhi by lia.
    assert (Hge : 10 ^ (e - expo q) <= coef q).
    { destruct (Z_lt_le_dec (coef q) (10 ^ (e - expo q))); [|assumption].
      rewrite Z.div_small in Hr by lia. lia. }
    assert (Hk : e - expo q < ndigits (coef q)).
    { apply pow10_lt_inv; lia. }
    cut (ndigits (coef q / 10 ^ (e - expo q)) <= ndigits (coef q) - (e - expo q)); [lia|].
    apply ndigits_le; [lia|]. rewrite Z.abs_eq by lia.
    apply Z.div_lt_upper_bound; [lia|].
    rewrite <- Z.pow_add_r by lia.
    replace (e - expo q + (ndigits (coef q) - (e - expo q))) with (ndigits (coef q)) by lia.
    exact Hhi.
Qed.

(** C4, as the code has it by design: without a step the quantity is
    returned unchanged; for a step that is a power of ten written with the
    coefficient 1, a positive quantity whose leading digit is fewer than 28
    places above the exponent of the step is rounded down to the step: the
    result is a multiple of the step, at most the quantity and less than
    one step below it, and rounding it again changes nothing. *)
Theorem round_down_qty_truncates (q step : Decimal) :
  (coef step = 0 -> round_down_qty q step = Ok q) /\
  (0 < coef q -> coef step = 1 -> Etiny <= expo step <= Emax ->
   adjusted q <= Emax -> adjusted q - expo step + 1 <= prec ->
   exists r,
     round_down_qty q step = Ok r /\
     multiple_of r step /\
     dec_le r q /\
     (let m := Z.min (expo q) (expo step) in
      scaled q m - scaled r m < scaled step m) /\
     round_down_qty r step = Ok r /\
     expo r = expo step).
Proof.
  split.
  - intros H0. unfold round_down_qty, dec_is_zero. rewrite H0. reflexivity.
  - intros Hq Hs He Hadj Hprec.
    exists (rescale_down q (expo step)).
    assert (Hstep : dec_is_zero step = false) by (apply Z.eqb_neq; lia).
    assert (Hrange : negb ((Etiny <=? expo step) && (expo step <=? Emax)) = false).
    { apply negb_false_iff, andb_true_iff; split; apply Z.leb_le; lia. }
    split; [|split; [|split; [|split; [|split]]]].
    + unfold round_down_qty, quantize_down. rewrite Hstep, Hrange.
      replace (coef q =? 0) with false by (symmetry; apply Z.eqb_neq; lia).
      replace (Emax <? adjusted q) with false by (symmetry; apply Z.ltb_ge; lia).
      replace (prec <? adjusted q - expo step + 1) with false
        by (symmetry; apply Z.ltb_ge; lia).
      reflexivity.
    + exists (coef (rescale_down q (expo step))).
      rewrite Hs, Z.mul_1_r. rewrite <- (rescale_down_expo q (expo step)) at 3.
      destruct (rescale_down q (expo step)); apply dec_eqb_refl.
    + apply rescale_down_le; assumption.
    + cbv zeta. unfold scaled at 3. rewrite Hs, Z.mul_1_l.
      apply rescale_down_loss; assumption.
    + unfold round_down_qty, quantize_down. rewrite Hstep, Hrange.
      destruct (coef (rescale_down q (expo step)) =? 0) eqn:E0.
      * apply Z.eqb_eq in E0. f_equal.
        pose proof (rescale_down_expo q (expo step)) as Hx.
        destruct (rescale_down q (expo step)) as [c e]; simpl in *. congruence.
      * apply Z.eqb_neq in E0.
        pose proof (rescale_down_adjusted q (expo step) Hq E0) as Hle.
        replace (Emax <? adjusted (rescale_down q (expo step))) with false
          by (symmetry; apply Z.ltb_ge; lia).
        replace (prec <? adjusted (rescale_down q (expo step)) - expo step + 1) with false
          by (symmetry; apply Z.ltb_ge; lia).
        f_equal. pose proof (rescale_down_expo q (expo step)) as Hx.
        destruct (rescale_down q (expo step)) as [c e]; simpl in *. subst e.
        unfold rescale_down; simpl. rewrite Z.leb_refl, Z.sub_diag.
        change (10 ^ 0) with 1. f_equal. lia.
    + apply rescale_down_expo.
Qed.

Lemma round_down_qty_truncates_witness :
  exists r,
    round_down_qty (mkDec 20567 (-6)) (mkDec 1 (-3)) = Ok r /\
    multiple_of r (mkDec 1 (-3)) /\
    dec_le r (mkDec 20567 (-6)) /\
    20567 - scaled r (-6) < 1000 /\
    round_down_qty r (mkDec 1 (-3)) = Ok r /\
    expo r = -3.
Proof.
  apply (proj2 (round_down_qty_truncates (mkDec 20567 (-6)) (mkDec 1 (-3)))).
  - simpl; lia.
  - reflexivity.
  - vm_compute. split; discriminate.
  - vm_compute. discriminate.
  - vm_compute. discriminate.
Defined.

(** C4 as the spec states it fails at the precision of the context: a
    quantity of 1e30 with a step of 0.001 would need 34 digits, and
    [round_down_qty] raises InvalidOperation instead of returning a
    multiple of the step. *)
Lemma round_down_qty_counterexample :
  0 < coef (mkDec 1 30) /\ 0 < coef (mkDec 1 (-3)) /\
  round_down_qty (mkDec 1 30) (mkDec 1 (-3)) = Err invalid_operation.
Proof.
  split; [reflexivity|]. split; [reflexivity|]. vm_compute. reflexivity.
Qed.

Section Rules.
Context {X : Type} {EX : Exchange X} {PF : Platform}.

Lemma wp_intro {A} (m : M X A) (x : X) (Q : outcome A -> X -> list Event -> Prop) :
  wp m x Q -> Q (outcome_of (m x)) (state_of (m x)) (trace_of (m x)).
Proof. exact (fun H => H). Qed.

Lemma wp_conseq {A} (m : M X A) (x : X) (Q Q' : outcome A -> X -> list Event -> Prop) :
  wp m x Q -> (forall o x' t, Q o x' t -> Q' o x' t) -> wp m x Q'.
Proof. unfold wp; auto. Qed.

Lemma wp_and {A} (m : M X A) (x : X) (Q Q' : outcome A -> X -> list Event -> Prop) :
  wp m x Q -> wp m x Q' -> wp m x (fun o x' t => Q o x' t /\ Q' o x' t).
Proof. unfold wp; auto. Qed.

Lemma wp_ret {A} (a : A) (x : X) Q : Q (Ret a) x [] -> wp (ret a) x Q.
Proof. exact (fun H => H). Qed.

Lemma wp_raise {A} (e : exn) (x : X) (Q : outcome A -> X -> list Event -> Prop) :
  Q (Raise e) x [] -> wp (raise e) x Q.
Proof. exact (fun H => H). Qed.

Lemma wp_sys_exit {A} (c : Z) (x : X) (Q : outcome A -> X -> list Event -> Prop) :
  Q (Exit c) x [] -> wp (sys_exit c) x Q.
Proof. exact (fun H => H). Qed.

Lemma wp_out_of_fuel {A} (x : X) (Q : outcome A -> X -> list Event -> Prop) :
  Q OutOfFuel x [] -> wp out_of_fuel x Q.
Proof. exact (fun H => H). Qed.

Lemma wp_emit (ev : Event) (x : X) Q : Q (Ret tt) x [ev] -> wp (emit ev) x Q.
Proof. exact (fun H => H). Qed.

Lemma wp_bind {A B} (m : M X A) (f : A -> M X B) (x : X) Q :
  wp m x (fun o x1 t1 =>
            match o with
            | Ret a => wp (f a) x1 (fun o2 x2 t2 => Q o2 x2 (t1 ++ t2))
            | Raise e => Q (Raise e) x1 t1
            | Exit c => Q (Exit c) x1 t1
            | OutOfFuel => Q OutOfFuel x1 t1
            end) ->
  wp (bind m f) x Q.
Proof.
  unfold wp, bind, outcome_of, state_of, trace_of.
  destruct (m x) as [[o x1] t1]; simpl. destruct o; simpl; auto.
  destruct (f a x1) as [[o2 x2] t2]; simpl; auto.
Qed.

Lemma wp_try_except {A} (body : M X A) (handler : exn -> M X A) (x : X) Q :
  wp body x (fun o x1 t1 =>
               match o with
               | Raise e => wp (handler e) x1 (fun o2 x2 t2 => Q o2 x2 (t1 ++ t2))
               | _ => Q o x1 t1
               end) ->
  wp (try_except body handler) x Q.
Proof.
  unfold wp, try_except, outcome_of, state_of, trace_of.
  destruct (body x) as [[o x1] t1]; simpl. destruct o; simpl; auto.
  destruct (handler e x1) as [[o2 x2] t2]; simpl; auto.
Qed.

Lemma wp_lift {A} (r : result A) (x : X) Q :
  Q (of_result r) x [] -> wp (lift r) x Q.
Proof. destruct r; exact (fun H => H). Qed.

Lemma wp_time_time (x : X) Q : Q (Ret (x_clock x)) x [] -> wp time_time x Q.
Proof. exact (fun H => H). Qed.

Lemma wp_time_sleep (secs : Z) (x : X) Q :
  (secs < 0 -> Q (Raise (Exception ValueError "sleep length must be non-negative")) x []) ->
  (0 <= secs -> Q (Ret tt) (x_sleep secs x) [EvSleep secs]) ->
  wp (time_sleep secs) x Q.
Proof.
  intros H1 H2. unfold time_sleep. destruct (secs <? 0) eqn:E.
  - apply Z.ltb_lt in E. apply wp_raise; auto.
  - apply Z.ltb_ge in E. apply H2; assumption.
Qed.

Lemma wp_request_time (x : X) Q :
  (forall r x', x_time x = (r, x') -> Q (of_result r) x' [EvTime r]) ->
  wp request_time x Q.
Proof.
  intros H. unfold wp, request_time. destruct (x_time x) as [r x'] eqn:E.
  apply H; reflexivity.
Qed.

Lemma wp_request_exchange_info (s : option string) (x : X) Q :
  (forall r x', x_exchange_info s x = (r, x') -> Q (of_result r) x' [EvExchangeInfo s r]) ->
  wp (request_exchange_info s) x Q.
Proof.
  intros H. unfold wp, request_exchange_info. destruct (x_exchange_info s x) as [r x'] eqn:E.
  apply H; reflexivity.
Qed.

Lemma wp_request_ticker_price (s : string) (x : X) Q :
  (forall r x', x_ticker_price s x = (r, x') -> Q (of_result r) x' [EvTickerPrice s r]) ->
  wp (request_ticker_price s) x Q.
Proof.
  intros H. unfold wp, request_ticker_price. destruct (x_ticker_price s x) as [r x'] eqn:E.
  apply H; reflexivity.
Qed.

Lemma wp_request_post_order (p : OrderParams) (x : X) Q :
  (forall r x', x_post_order p x = (r, x') -> Q (of_result r) x' [EvPostOrder p r]) ->
  wp (request_post_order p) x Q.
Proof.
  intros H. unfold wp, request_post_order. destruct (x_post_order p x) as [r x'] eqn:E.
  apply H; reflexivity.
Qed.

Lemma wp_request_get_order (s : string) (n : Z) (x : X) Q :
  (forall r x', x_get_order s n x = (r, x') -> Q (of_result r) x' [EvGetOrder s n r]) ->
  wp (request_get_order s n) x Q.
Proof.
  intros H. unfold wp, request_get_order. destruct (x_get_order s n x) as [r x'] eqn:E.
  apply H; reflexivity.
Qed.

Lemma wp_request_delete_order (s : option string) (i : option Z) (c : option string)
  (x : X) Q :
  (forall r x', x_delete_order s i c x = (r, x') ->
                Q (of_result r) x' [EvDeleteOrder s i c r]) ->
  wp (request_delete_order s i c) x Q.
Proof.
  intros H. unfold wp, request_delete_order.
  destruct (x_delete_order s i c x) as [r x'] eqn:E. apply H; reflexivity.
Qed.

Lemma wp_request_open_orders (s : option string) (x : X) Q :
  (forall r x', x_open_orders s x = (r, x') -> Q (of_result r) x' [EvOpenOrders s r]) ->
  wp (request_open_orders s) x Q.
Proof.
  intros H. unfold wp, request_open_orders. destruct (x_open_orders s x) as [r x'] eqn:E.
  apply H; reflexivity.
Qed.

Lemma wp_request_account (x : X) Q :
  (forall r x', x_account x = (r, x') -> Q (of_result r) x' [EvAccount r]) ->
  wp request_account x Q.
Proof.
  intros H. unfold wp, request_account. destruct (x_account x) as [r x'] eqn:E.
  apply H; reflexivity.
Qed.

(** The constructor returns whatever the time request does. *)
Lemma wp_client (x : X) Q :
  (forall r x', x_time x = (r, x') -> Q (Ret tt) x' [EvTime r]) ->
  wp (BinanceFuturesClient true) x Q.
Proof.
  intros H. unfold BinanceFuturesClient.
  apply wp_try_except, wp_bind, wp_request_time. intros r x' Hr.
  destruct r; simpl; apply wp_ret; simpl; apply H; assumption.
Qed.

Lemma wp_place_order (a : PlaceArgs) (x : X) Q :
  (needs_price (pa_order_type a) = true /\ pa_price a = None ->
   Q (Raise (Exception ValueError "price is required for LIMIT/STOP (stop-limit) orders"))
     x [EvCall (Call_place_order a)]) ->
  (forall r x', x_post_order (order_params a) x = (r, x') ->
     Q (of_result r) x' [EvCall (Call_place_order a); EvPostOrder (order_params a) r]) ->
  wp (place_order a) x Q.
Proof.
  intros H1 H2. unfold place_order. apply wp_bind, wp_emit.
  destruct (needs_price (pa_order_type a)) eqn:En; cbn [andb].
  - destruct (pa_price a) eqn:Ep.
    + apply wp_request_post_order. intros r x' Hr. apply (H2 r x' Hr).
    + apply wp_raise. apply H1; auto.
  - apply wp_request_post_order. intros r x' Hr. apply (H2 r x' Hr).
Qed.

End Rules.

Section Client.
Context {X : Type} {EX : Exchange X}.

(** ** src/client_wrapper.py: cancel_order *)

(** C10: without a truthy orderId and a truthy clientOrderId the call raises
    ValueError, sends nothing and leaves the exchange as it was; an orderId
    of 0 is handled as a missing one. *)
Theorem cancel_order_requires_id (symbol : option string) (orderId : option Z)
  (clientOrderId : option string) (x : X) :
  (truthy_int orderId = false -> truthy_str clientOrderId = false ->
   cancel_order symbol orderId clientOrderId x
   = (Raise (Exception ValueError "orderId or clientOrderId required"), x,
      [EvCall (Call_cancel_order symbol orderId clientOrderId)])
   /\ requests (trace_of (cancel_order symbol orderId clientOrderId x)) = []) /\
  outcome_of (cancel_order symbol (Some 0) clientOrderId x)
  = outcome_of (cancel_order symbol None clientOrderId x) /\
  state_of (cancel_order symbol (Some 0) clientOrderId x)
  = state_of (cancel_order symbol None clientOrderId x) /\
  requests (trace_of (cancel_order symbol (Some 0) clientOrderId x))
  = requests (trace_of (cancel_order symbol None clientOrderId x)).
Proof.
  split.
  - intros Hi Hc.
    assert (E : cancel_order symbol orderId clientOrderId x
                = (Raise (Exception ValueError "orderId or clientOrderId required"), x,
                   [EvCall (Call_cancel_order symbol orderId clientOrderId)])).
    { unfold cancel_order, bind, emit. rewrite Hi, Hc. reflexivity. }
    split; [exact E|]. rewrite E. reflexivity.
  - unfold cancel_order, bind, emit. simpl.
    destruct (truthy_str clientOrderId).
    + unfold request_delete_order.
      destruct (x_delete_order symbol None clientOrderId x) as [r x']. auto.
    + simpl. auto.
Qed.

End Client.

Lemma cancel_order_requires_id_witness :
  cancel_order (Some "BTCUSDT") (Some 0) None sim0
  = (Raise (Exception ValueError "orderId or clientOrderId required"), sim0,
     [EvCall (Call_cancel_order (Some "BTCUSDT") (Some 0) None)])
  /\ requests (trace_of (cancel_order (Some "BTCUSDT") (Some 0) None sim0)) = [].
Proof.
  apply (proj1 (cancel_order_requires_id (Some "BTCUSDT") (Some 0) None sim0));
    reflexivity.
Defined.

(** Symbolic execution of a computation, one construct at a time. *)
Ltac wp_auto :=
  repeat (cbv beta iota;
    lazymatch goal with
    | |- wp (bind _ _) _ _ => apply wp_bind
    | |- wp (ret _) _ _ => apply wp_ret
    | |- wp (raise _) _ _ => apply wp_raise
    | |- wp (sys_exit _) _ _ => apply wp_sys_exit
    | |- wp out_of_fuel _ _ => apply wp_out_of_fuel
    | |- wp (emit _) _ _ => apply wp_emit
    | |- wp (lift (Ok _)) _ _ => apply wp_lift; cbn [of_result]
    | |- wp (lift (Err _)) _ _ => apply wp_lift; cbn [of_result]
    | |- wp (lift ?r) _ _ => apply wp_lift; destruct r eqn:?; cbn [of_result]
    | |- wp (try_except _ _) _ _ => apply wp_try_except
    | |- wp time_time _ _ => apply wp_time_time
    | |- wp (request_post_order _) _ _ =>
        apply wp_request_post_order; intros [?|?] ? ?; cbn [of_result]
    | |- wp (request_get_order _ _) _ _ =>
        apply wp_request_get_order; intros [?|?] ? ?; cbn [of_result]
    | |- wp (request_delete_order _ _ _) _ _ =>
        apply wp_request_delete_order; intros [?|?] ? ?; cbn [of_result]
    | |- wp (request_exchange_info _) _ _ =>
        apply wp_request_exchange_info; intros [?|?] ? ?; cbn [of_result]
    | |- wp (request_ticker_price _) _ _ =>
        apply wp_request_ticker_price; intros [?|?] ? ?; cbn [of_result]
    | |- wp (request_open_orders _) _ _ =>
        apply wp_request_open_orders; intros [?|?] ? ?; cbn [of_result]
    | |- wp request_account _ _ =>
        apply wp_request_account; intros [?|?] ? ?; cbn [of_result]
    | |- wp (BinanceFuturesClient true) _ _ => apply wp_client; intros ? ? _
    | |- wp (get_exchange_info _) _ _ => unfold get_exchange_info
    | |- wp (get_ticker_price _) _ _ => unfold get_ticker_price
    | |- wp (place_order _) _ _ => apply wp_place_order; [intros ?|intros [?|?] ? ?; cbn [of_result]]
    | |- wp (get_order _ _) _ _ => unfold get_order
    | |- wp (cancel_order _ _ _) _ _ => unfold cancel_order
    | |- wp (get_open_orders _) _ _ => unfold get_open_orders
    | |- wp get_account _ _ => unfold get_account
    | |- wp (first_symbol _ _) _ _ => unfold first_symbol
    | |- wp (_get_position_amount _) _ _ => unfold _get_position_amount
    | |- wp (_get_current_price _) _ _ => unfold _get_current_price
    | |- wp (if ?b then _ else _) _ _ => destruct b eqn:?
    | |- wp (match ?v with _ => _ end) _ _ => destruct v eqn:?
    | |- wp (let _ := _ in _) _ _ => cbv zeta
    end).

Section Twap.
Context {X : Type} {EX : Exchange X} {PF : Platform}.

(** ** src/advanced/twap.py *)

(** The keyword [type] is no parameter of [place_order]. *)
Lemma twap_slice_call_rejected (symbol side : string) (slice_qty : PyFloat) :
  bind_place_order
    [("symbol", VStr symbol); ("side", VStr side);
     ("type", VStr "MARKET"); ("quantity", VFloat slice_qty)]
  = Err (Exception TypeError
           "BinanceFuturesClient.place_order() got an unexpected keyword argument 'type'").
Proof. reflexivity. Qed.

Lemma execute_twap_loop_skips (indices : list Z) (symbol side : string)
  (slice_qty : PyFloat) (parts interval : Z) :
  forall (results : list Order) (x : X),
    execute_twap_loop indices symbol side slice_qty parts interval results x
    = (Ret results, x, []).
Proof.
  induction indices as [|i rest IH]; intros results x; [reflexivity|].
  cbn [execute_twap_loop]. unfold bind at 1. unfold try_except.
  unfold place_order_kw. unfold bind at 1. rewrite twap_slice_call_rejected.
  cbn [lift raise ret bind app]. rewrite IH. reflexivity.
Qed.

(** C5, what the code does: every slice is rejected when the call is bound
    (TypeError, caught by the loop), so no order is placed or sent, nothing
    sleeps, and the summary reports 0 executed slices out of [parts]. *)
Theorem execute_twap_places_no_order (symbol side : string) (total_qty : PyFloat)
  (parts interval : Z) (x : X) :
  1 <= parts -> 1 <= interval ->
  outcome_of (execute_twap symbol side total_qty parts interval x)
  = Ret (mkTwapResult 0 parts (float_div_int total_qty parts) []) /\
  place_calls (trace_of (execute_twap symbol side total_qty parts interval x)) = [] /\
  posts (trace_of (execute_twap symbol side total_qty parts interval x)) = [] /\
  (exists r, trace_of (execute_twap symbol side total_qty parts interval x) = [EvTime r]).
Proof.
  intros Hp Hi. unfold execute_twap.
  replace (parts <? 1) with false by (symmetry; apply Z.ltb_ge; lia).
  replace (interval <? 1) with false by (symmetry; apply Z.ltb_ge; lia).
  apply (wp_intro _ x (fun o _ t =>
     o = Ret (mkTwapResult 0 parts (float_div_int total_qty parts) []) /\
     place_calls t = [] /\ posts t = [] /\ exists r, t = [EvTime r])).
  wp_auto. unfold wp. rewrite execute_twap_loop_skips.
  cbn. repeat split; eauto.
Qed.

End Twap.

Lemma execute_twap_places_no_order_witness :
  outcome_of (execute_twap (PF := short_platform) "BTCUSDT" "BUY" (mkDec 2 (-2)) 10 5 sim0)
  = Ret (mkTwapResult 0 10 (mkDec 2 (-3)) []) /\
  place_calls (trace_of (execute_twap (PF := short_platform) "BTCUSDT" "BUY" (mkDec 2 (-2)) 10 5 sim0)) = [] /\
  posts (trace_of (execute_twap (PF := short_platform) "BTCUSDT" "BUY" (mkDec 2 (-2)) 10 5 sim0)) = [] /\
  (exists r, trace_of (execute_twap (PF := short_platform) "BTCUSDT" "BUY" (mkDec 2 (-2)) 10 5 sim0) = [EvTime r]).
Proof.
  apply (execute_twap_places_no_order (PF := short_platform)
           "BTCUSDT" "BUY" (mkDec 2 (-2)) 10 5 sim0); lia.
Defined.

Section Orders.
Context {X : Type} {EX : Exchange X} {PF : Platform}.

(** The quantity sent by [place_market_order]: the request, or minQty when
    the request is below it, rounded down to the step. *)
Lemma place_market_order_quantity (symbol side : string) (qty : PyNum) (x : X)
  (qf : PyFloat) :
  validate_positive_number "qty" qty = Ok qf ->
  wp (place_market_order symbol side qty) x (fun _ _ t =>
    forall s p, symbol_info_of t = Some s -> In p (posts t) ->
      let f := parse_symbol_filters s in
      exists q,
        round_down_qty (to_float (if dec_ltb qf (f_minQty f) then f_minQty f else qf))
                       (f_stepSize f) = Ok q /\
        p_quantity p = to_float q).
Proof.
  intros Hq. unfold place_market_order. rewrite Hq.
  wp_auto.
  all: cbn; intros s0 p Hs Hp; try contradiction.
  all: injection Hs as <-; destruct Hp as [<-|[]]; exists a1; split; [assumption|reflexivity].
Qed.

(** The same for [place_limit_order]. *)
Lemma place_limit_order_quantity (symbol side : string) (qty price : PyNum) (x : X)
  (qf : PyFloat) :
  validate_positive_number "qty" qty = Ok qf ->
  wp (place_limit_order symbol side qty price) x (fun _ _ t =>
    forall s p, symbol_info_of t = Some s -> In p (posts t) ->
      let f := parse_symbol_filters s in
      exists q,
        round_down_qty (to_float (if dec_ltb qf (f_minQty f) then f_minQty f else qf))
                       (f_stepSize f) = Ok q /\
        p_quantity p = to_float q).
Proof.
  intros Hq. unfold place_limit_order. rewrite Hq.
  wp_auto.
  all: cbn; intros s0 p Hs Hp; try contradiction.
  all: injection Hs as <-; destruct Hp as [<-|[]]; exists a2; split; [assumption|reflexivity].
Qed.

End Orders.

(** ** src/market_orders.py, src/limit_orders.py: the minimum quantity *)

(** C9: a validated quantity below the symbol's minQty is replaced by
    minQty, which is then rounded down to the step and submitted, by
    [place_market_order] and by [place_limit_order]; on BTCUSDT a request
    for 0.0005 is submitted as 0.001. *)
Theorem small_quantity_raised_to_min_qty :
  (forall (X : Type) (EX : Exchange X) (PF : Platform) (symbol side : string)
          (qty price : PyNum) (x : X) (qf : PyFloat) (s : SymbolInfo),
     validate_positive_number "qty" qty = Ok qf ->
     dec_lt qf (f_minQty (parse_symbol_filters s)) ->
     (symbol_info_of (trace_of (place_market_order symbol side qty x)) = Some s ->
      forall p, In p (posts (trace_of (place_market_order symbol side qty x))) ->
        exists q,
          round_down_qty (to_float (f_minQty (parse_symbol_filters s)))
                         (f_stepSize (parse_symbol_filters s)) = Ok q /\
          p_quantity p = to_float q) /\
     (symbol_info_of (trace_of (place_limit_order symbol side qty price x)) = Some s ->
      forall p, In p (posts (trace_of (place_limit_order symbol side qty price x))) ->
        exists q,
          round_down_qty (to_float (f_minQty (parse_symbol_filters s)))
                         (f_stepSize (parse_symbol_filters s)) = Ok q /\
          p_quantity p = to_float q)) /\
  (exists p,
     posts (trace_of (place_market_order (PF := short_platform) "BTCUSDT" "BUY"
                        (Num (mkDec 5 (-4))) sim_one_post)) = [p] /\
     dec_lt (mkDec 5 (-4)) (p_quantity p)) /\
  (exists p,
     posts (trace_of (place_limit_order (PF := short_platform) "BTCUSDT" "BUY"
                        (Num (mkDec 5 (-4))) (Num (mkDec 60000 0)) sim_one_post)) = [p] /\
     dec_lt (mkDec 5 (-4)) (p_quantity p)).
Proof.
  split; [|split].
  - intros X EX PF symbol side qty price x qf s Hq Hlt. split.
    + intros Hs p Hp.
      pose proof (wp_intro _ _ _ (place_market_order_quantity symbol side qty x qf Hq)
                    s p Hs Hp) as H.
      cbv zeta in H. unfold dec_lt in Hlt. rewrite Hlt in H. exact H.
    + intros Hs p Hp.
      pose proof (wp_intro _ _ _ (place_limit_order_quantity symbol side qty price x qf Hq)
                    s p Hs Hp) as H.
      cbv zeta in H. unfold dec_lt in Hlt. rewrite Hlt in H. exact H.
  - eexists. split; [vm_compute; reflexivity|vm_compute; reflexivity].
  - eexists. split; [vm_compute; reflexivity|vm_compute; reflexivity].
Qed.

Lemma small_quantity_raised_to_min_qty_witness :
  exists q,
    round_down_qty (@to_float short_platform (f_minQty (parse_symbol_filters btcusdt)))
                   (f_stepSize (parse_symbol_filters btcusdt)) = Ok q /\
    p_quantity (order_params (market_args "BTCUSDT" "BUY" (mkDec 1 (-3))))
    = @to_float short_platform q.
Proof.
  refine (proj1 (proj1 small_quantity_raised_to_min_qty Sim sim_exchange short_platform
            "BTCUSDT" "BUY" (Num (mkDec 5 (-4))) (Num (mkDec 60000 0)) sim_one_post
            (mkDec 5 (-4)) btcusdt _ _) _
            (order_params (market_args "BTCUSDT" "BUY" (mkDec 1 (-3)))) _).
  - reflexivity.
  - vm_compute. reflexivity.
  - vm_compute. reflexivity.
  - vm_compute. left. reflexivity.
Defined.

(** ** src/advanced/stop_orders.py: the stop validator *)

Section StopValidator.
Context {X : Type} {EX : Exchange X}.

Lemma validate_stop_run (symbol side : string) (stop tick : Decimal) (x x' : X)
  (tk : Ticker) :
  x_ticker_price symbol x = (Ok tk, x') ->
  outcome_of (_validate_stop_vs_market symbol side stop tick x)
  = let current := or_zero (tk_price tk) in
    let buffer := if negb (dec_is_zero tick) then tick else fallback_tick in
    if String.eqb side "BUY" then
      match dec_add current buffer with
      | Ok bound => if negb (dec_gtb stop bound) then Raise invalid_stop_buy else Ret tt
      | Err e => Raise e
      end
    else
      match dec_sub current buffer with
      | Ok bound => if negb (dec_ltb stop bound) then Raise invalid_stop_sell else Ret tt
      | Err e => Raise e
      end.
Proof.
  intros Hx. unfold _validate_stop_vs_market, _get_current_price, get_ticker_price,
    request_ticker_price, bind, emit, outcome_of. rewrite Hx. cbn.
  destruct (String.eqb side "BUY").
  - destruct (dec_add _ _); cbn; [|reflexivity].
    destruct (dec_gtb stop a); reflexivity.
  - destruct (dec_sub _ _); cbn; [|reflexivity].
    destruct (dec_ltb stop a); reflexivity.
Qed.

Lemma exact_sum_fits (a b : Decimal) :
  Etiny <= Z.min (expo a) (expo b) <= Etop ->
  Z.abs (scaled a (Z.min (expo a) (expo b))) + Z.abs (scaled b (Z.min (expo a) (expo b)))
    < 10 ^ prec ->
  dec_add a b = Ok (exact_sum a b).
Proof.
  intros He Hfit. unfold dec_add. apply fix_context_exact.
  - unfold exact_sum. cbn [coef]. lia.
  - unfold exact_sum. cbn [expo]. exact He.
Qed.

Lemma scaled_neg (a : Decimal) (m : Z) : scaled (dec_neg a) m = - scaled a m.
Proof. unfold scaled, dec_neg; simpl. ring. Qed.

(** C6, as the code has it, where the price plus and minus the buffer are
    exact in the 28 digits of the context: BUY passes exactly when the stop
    is above price + buffer, SELL exactly when it is below price - buffer;
    the buffer is the tick, or 0.0001 without one.  A stop at the price
    fails on both sides; a stop two ticks above passes for BUY, two ticks
    below for SELL. *)
Theorem stop_validator_exact (symbol : string) (stop tick : Decimal) (x x' : X)
  (tk : Ticker) :
  x_ticker_price symbol x = (Ok tk, x') ->
  let current := or_zero (tk_price tk) in
  let buffer := if dec_is_zero tick then fallback_tick else tick in
  let m := Z.min (expo current) (expo buffer) in
  let two_ticks := mkDec (2 * coef tick) (expo tick) in
  0 <= coef tick ->
  Etiny <= m <= Etop ->
  Z.abs (scaled current m) + scaled buffer m < 10 ^ prec ->
  outcome_of (_validate_stop_vs_market symbol "BUY" stop tick x)
    = (if dec_ltb (exact_sum current buffer) stop then Ret tt else Raise invalid_stop_buy) /\
  outcome_of (_validate_stop_vs_market symbol "SELL" stop tick x)
    = (if dec_ltb stop (exact_diff current buffer) then Ret tt else Raise invalid_stop_sell) /\
  outcome_of (_validate_stop_vs_market symbol "BUY" current tick x) = Raise invalid_stop_buy /\
  outcome_of (_validate_stop_vs_market symbol "SELL" current tick x) = Raise invalid_stop_sell /\
  (0 < coef tick ->
   outcome_of (_validate_stop_vs_market symbol "BUY" (exact_sum current two_ticks) tick x)
     = Ret tt /\
   outcome_of (_validate_stop_vs_market symbol "SELL" (exact_diff current two_ticks) tick x)
     = Ret tt).
Proof.
  intros Hx current buffer m two_ticks Htick Hm Hfit.
  assert (Hbuf : (if negb (dec_is_zero tick) then tick else fallback_tick) = buffer).
  { unfold buffer. destruct (dec_is_zero tick); reflexivity. }
  assert (Hbpos : 0 < coef buffer).
  { unfold buffer, dec_is_zero. destruct (coef tick =? 0) eqn:E; [reflexivity|].
    apply Z.eqb_neq in E. lia. }
  assert (Hsb : 0 < scaled buffer m) by (apply scaled_pos; [assumption|unfold m; lia]).
  assert (Hadd : dec_add current buffer = Ok (exact_sum current buffer)).
  { apply exact_sum_fits; fold m; [assumption|]. rewrite (Z.abs_eq (scaled buffer m)); lia. }
  assert (Hsub : dec_sub current buffer = Ok (exact_diff current buffer)).
  { unfold dec_sub, exact_diff. apply exact_sum_fits; cbn [dec_neg expo]; fold m;
      [assumption|]. rewrite scaled_neg, Z.abs_opp, (Z.abs_eq (scaled buffer m)); lia. }
  assert (Hbuy : forall s, outcome_of (_validate_stop_vs_market symbol "BUY" s tick x)
                 = (if dec_ltb (exact_sum current buffer) s then Ret tt
                    else Raise invalid_stop_buy)).
  { intros s. rewrite (validate_stop_run _ _ _ _ _ _ _ Hx). cbv zeta. rewrite Hbuf.
    fold current. cbn [String.eqb Ascii.eqb Bool.eqb andb]. rewrite Hadd.
    unfold dec_gtb. destruct (dec_ltb (exact_sum current buffer) s); reflexivity. }
  assert (Hsell : forall s, outcome_of (_validate_stop_vs_market symbol "SELL" s tick x)
                  = (if dec_ltb s (exact_diff current buffer) then Ret tt
                     else Raise invalid_stop_sell)).
  { intros s. rewrite (validate_stop_run _ _ _ _ _ _ _ Hx). cbv zeta. rewrite Hbuf.
    fold current. cbn [String.eqb Ascii.eqb Bool.eqb andb]. rewrite Hsub.
    destruct (dec_ltb s (exact_diff current buffer)); reflexivity. }
  assert (Hm1 : Z.min m (expo current) = m) by (unfold m; lia).
  assert (Hm2 : Z.min (expo current) m = m) by (unfold m; lia).
  split; [apply Hbuy|]. split; [apply Hsell|]. split; [|split].
  - rewrite Hbuy.
    replace (dec_ltb (exact_sum current buffer) current) with false; [reflexivity|].
    symmetry. apply not_true_is_false. intros H. apply dec_ltb_scaled in H.
    unfold exact_sum in H. cbn [expo] in H. fold m in H. rewrite Hm1 in H.
    unfold scaled at 1 in H. cbn [coef expo] in H. rewrite Z.sub_diag in H.
    change (10 ^ 0) with 1 in H. lia.
  - rewrite Hsell.
    replace (dec_ltb current (exact_diff current buffer)) with false; [reflexivity|].
    symmetry. apply not_true_is_false. intros H. apply dec_ltb_scaled in H.
    unfold exact_diff, exact_sum in H. cbn [expo dec_neg] in H. fold m in H.
    rewrite Hm2 in H.
    unfold scaled at 2 in H. cbn [coef expo] in H. rewrite Z.sub_diag in H.
    change (10 ^ 0) with 1 in H. rewrite scaled_neg in H. lia.
  - intros Ht.
    assert (Hbt : buffer = tick).
    { unfold buffer, dec_is_zero. destruct (coef tick =? 0) eqn:E; [|reflexivity].
      apply Z.eqb_eq in E. lia. }
    assert (H2 : scaled two_ticks m = 2 * scaled buffer m).
    { rewrite Hbt. unfold scaled, two_ticks. cbn [coef expo]. ring. }
    assert (He2 : Z.min (expo current) (expo two_ticks) = m).
    { unfold m, two_ticks. rewrite Hbt. reflexivity. }
    split.
    + rewrite Hbuy.
      replace (dec_ltb (exact_sum current buffer) (exact_sum current two_ticks)) with true;
        [reflexivity|].
      symmetry. apply dec_ltb_scaled.
      unfold exact_sum. cbn [expo]. rewrite He2. fold m. rewrite Z.min_id.
      unfold scaled at 1 4. cbn [coef expo]. rewrite Z.sub_diag.
      change (10 ^ 0) with 1. lia.
    + rewrite Hsell.
      replace (dec_ltb (exact_diff current two_ticks) (exact_diff current buffer)) with true;
        [reflexivity|].
      symmetry. apply dec_ltb_scaled.
      unfold exact_diff, exact_sum. cbn [expo dec_neg]. rewrite He2. fold m.
      rewrite Z.min_id.
      unfold scaled at 1 4. cbn [coef expo]. rewrite Z.sub_diag.
      change (10 ^ 0) with 1. rewrite !scaled_neg. lia.
Qed.

End StopValidator.

Lemma stop_validator_exact_witness :
  outcome_of (_validate_stop_vs_market "BTCUSDT" "BUY" (mkDec 6000020 (-2)) (mkDec 10 (-2)) sim0)
  = Ret tt /\
  outcome_of (_validate_stop_vs_market "BTCUSDT" "BUY" (mkDec 6000000 (-2)) (mkDec 10 (-2)) sim0)
  = Raise invalid_stop_buy.
Proof.
  pose proof (stop_validator_exact "BTCUSDT" (mkDec 6000020 (-2)) (mkDec 10 (-2)) sim0 sim0
                (mkTicker (Some (mkDec 6000000 (-2)))) eq_refl) as H.
  cbv zeta in H.
  specialize (H ltac:(simpl; lia) ltac:(vm_compute; split; discriminate)
                ltac:(vm_compute; reflexivity)).
  destruct H as [Hb [_ [Hc _]]]. split; [exact Hb|exact Hc].
Defined.

(** C6 as the spec states it fails where the context rounds the sum: with a
    price of 1e29 + 1 and no tick, price + 0.0001 is rounded to 1e29 and a
    BUY stop at the price passes; with a price of 1e28 + 5 and a tick of 1,
    price + tick is rounded to 1e28 + 10 and a BUY stop two ticks above the
    price fails. *)
Lemma stop_validator_counterexample :
  let price1 := mkDec (10 ^ 29 + 1) 0 in
  let x1 := mkSim 0 (Ok (Some [btcusdt])) (Ok flat_account) (Ok (mkTicker (Some price1)))
                  (Ok []) [] [] [] in
  let price2 := mkDec (10 ^ 28 + 5) 0 in
  let x2 := mkSim 0 (Ok (Some [btcusdt])) (Ok flat_account) (Ok (mkTicker (Some price2)))
                  (Ok []) [] [] [] in
  outcome_of (_validate_stop_vs_market "BTCUSDT" "BUY" price1 dec_zero x1) = Ret tt /\
  outcome_of (_validate_stop_vs_market "BTCUSDT" "BUY" (mkDec (10 ^ 28 + 7) 0) (mkDec 1 0) x2)
  = Raise invalid_stop_buy.
Proof. vm_compute. split; reflexivity. Qed.

(** ** Traces *)

Lemma place_calls_app (t1 t2 : list Event) :
  place_calls (t1 ++ t2) = place_calls t1 ++ place_calls t2.
Proof. apply flat_map_app. Qed.

Lemma cancel_calls_app (t1 t2 : list Event) :
  cancel_calls (t1 ++ t2) = cancel_calls t1 ++ cancel_calls t2.
Proof. apply flat_map_app. Qed.

Lemma posts_app (t1 t2 : list Event) : posts (t1 ++ t2) = posts t1 ++ posts t2.
Proof. apply flat_map_app. Qed.

Lemma get_events_app (t1 t2 : list Event) :
  get_events (t1 ++ t2) = get_events t1 ++ get_events t2.
Proof. apply flat_map_app. Qed.

Lemma oks_app (l1 l2 : list (result Order)) : oks (l1 ++ l2) = oks l1 ++ oks l2.
Proof. apply flat_map_app. Qed.

Lemma oks_map_Ok (l : list Order) : oks (map Ok l) = l.
Proof. induction l as [|o l IH]; [reflexivity|]. cbn. unfold oks in IH. rewrite IH. reflexivity. Qed.

Lemma get_oks_app (t1 t2 : list Event) : get_oks (t1 ++ t2) = get_oks t1 ++ get_oks t2.
Proof. unfold get_oks. rewrite get_events_app. apply oks_app. Qed.

Lemma find_unfilled_app (before rest : list Order) :
  Forall (fun o => is_filled o = false) before ->
  find is_filled (before ++ rest) = find is_filled rest.
Proof.
  induction 1 as [|o l Ho _ IH]; [reflexivity|]. cbn. rewrite Ho. exact IH.
Qed.

Ltac trace_app :=
  rewrite ?place_calls_app, ?cancel_calls_app, ?posts_app, ?get_events_app.

Section Oco.
Context {X : Type} {EX : Exchange X} {PF : Platform}.

(** ** src/advanced/oco.py: the entry poll *)

Lemma poll_post_cons (poll_interval : Z) (o0 : Order) (o : outcome Order)
  (pre t : list Event) :
  is_filled o0 = false ->
  place_calls pre = [] -> cancel_calls pre = [] -> posts pre = [] ->
  get_events pre = [Ok o0] ->
  poll_post poll_interval o t -> poll_post poll_interval o (pre ++ t).
Proof.
  intros Hf H1 H2 H3 H4 (P1 & P2 & P3 & before & Hb & Ho).
  unfold poll_post. trace_app. rewrite H1, H2, H3, H4, P1, P2, P3.
  repeat split; try reflexivity.
  exists (o0 :: before). split; [constructor; assumption|].
  destruct o; cbn [map app]; try (rewrite Ho; reflexivity); try assumption.
  destruct Ho as [Ho|[Ho Hn]]; [left|right; split; [|assumption]]; rewrite Ho; reflexivity.
Qed.

Lemma _poll_order_filled_loop_post (symbol : string) (n timeout poll_interval started : Z)
  (fuel : nat) :
  forall x,
    wp (_poll_order_filled_loop fuel symbol (Some n) timeout poll_interval started) x
       (fun o _ t => poll_post poll_interval o t).
Proof.
  induction fuel as [|fuel IH]; intros x.
  - cbn. unfold wp; cbn. repeat split; try reflexivity. exists []. split; [constructor|reflexivity].
  - cbn [_poll_order_filled_loop]. wp_auto.
    + (* FILLED *)
      cbn. repeat split; try reflexivity. exists []. split; [constructor|reflexivity].
    + (* the wait is over *)
      cbn. repeat split; try reflexivity. exists []. split; [constructor|reflexivity].
    + (* sleep and poll again *)
      apply wp_time_sleep; intros Hs.
      * cbn. repeat split; try reflexivity. exists [a]. split; [repeat constructor; assumption|].
        right. split; [reflexivity|assumption].
      * eapply wp_conseq; [apply IH|]. cbv beta. intros o ? t Hpost.
        cbn [app].
        apply (poll_post_cons poll_interval a o [_; _; _] t); auto.
    + (* the query fails *)
      cbn. repeat split; try reflexivity. exists []. split; [constructor|]. left. reflexivity.
Qed.

(** The poll ends when the clock moves: a query never turns it back and a
    sleep lasts at least as long as asked. *)
Lemma _poll_order_filled_loop_terminates
  (clock_get_order : forall s n x, x_clock x <= x_clock (snd (x_get_order s n x)))
  (clock_sleep : forall d x, 0 <= d -> x_clock x + d <= x_clock (x_sleep d x))
  (symbol : string) (order_id : option Z) (timeout poll_interval started : Z) (fuel : nat) :
  1 <= poll_interval ->
  forall x,
    Z.max (timeout - (x_clock x - started) + 1) 0 + 1 <= Z.of_nat fuel ->
    wp (_poll_order_filled_loop fuel symbol order_id timeout poll_interval started) x
       (fun o _ _ => o <> OutOfFuel).
Proof.
  intros Hpi. induction fuel as [|fuel IH]; intros x Hfuel; [simpl in Hfuel; lia|].
  cbn [_poll_order_filled_loop]. wp_auto; try discriminate.
  apply wp_time_sleep; intros Hs; [discriminate|].
  eapply wp_conseq; [apply IH|auto].
  match goal with H : x_get_order _ _ _ = _ |- _ =>
    pose proof (clock_get_order symbol z x) as Hc; rewrite H in Hc; cbn [snd] in Hc end.
  match goal with H : (_ <? _) = false |- _ => apply Z.ltb_ge in H end.
  pose proof (clock_sleep poll_interval x' Hs). lia.
Qed.

(** ** src/advanced/oco.py: placing a leg *)

Lemma _place_limit_leg_with_reduce_fallback_post (symbol side : string)
  (quantity price : Decimal) (time_in_force : string) (prefer : bool) (x : X) :
  wp (_place_limit_leg_with_reduce_fallback symbol side quantity price time_in_force prefer) x
     (fun _ _ t =>
        Forall (fun p => p_quantity p = to_float quantity /\ p_side p = side /\
                         p_type p = "LIMIT" /\ p_price p = Some (to_float price))
               (posts t) /\
        get_events t = [] /\ cancel_calls t = []).
Proof.
  unfold _place_limit_leg_with_reduce_fallback. wp_auto.
  all: cbn; repeat split; repeat constructor.
  all: try match goal with H : _ /\ _ |- _ => destruct H; discriminate end.
Qed.

(** ** src/advanced/oco.py: the monitoring loop *)

Lemma place_oco_monitor_places_nothing (symbol : string) (tp_id sl_id : option Z)
  (wait_timeout poll_interval start : Z) (fuel : nat) :
  forall x,
    wp (place_oco_monitor fuel symbol tp_id sl_id wait_timeout poll_interval start) x
       (fun _ _ t => posts t = [] /\ place_calls t = []).
Proof.
  induction fuel as [|fuel IH]; intros x; [split; reflexivity|].
  cbn [place_oco_monitor]. wp_auto.
  all: try (cbn; split; reflexivity).
  all: apply wp_time_sleep; intros Hs; [cbn; split; reflexivity|].
  all: eapply wp_conseq; [apply IH|]; cbv beta; intros o ? t [H1 H2].
  all: trace_app; rewrite H1, H2; cbn; split; reflexivity.
Qed.

Lemma _poll_order_filled_post (fuel : nat) (symbol : string) (n timeout poll_interval : Z)
  (x : X) :
  wp (_poll_order_filled fuel symbol (Some n) timeout poll_interval) x
     (fun o _ t => poll_post poll_interval o t).
Proof.
  unfold _poll_order_filled. wp_auto.
  eapply wp_conseq; [apply _poll_order_filled_loop_post|]. auto.
Qed.

Lemma _poll_order_filled_terminates
  (clock_get_order : forall s n x, x_clock x <= x_clock (snd (x_get_order s n x)))
  (clock_sleep : forall d x, 0 <= d -> x_clock x + d <= x_clock (x_sleep d x))
  (fuel : nat) (symbol : string) (order_id : option Z) (timeout poll_interval : Z) (x : X) :
  1 <= poll_interval ->
  Z.max (timeout + 1) 0 + 1 <= Z.of_nat fuel ->
  wp (_poll_order_filled fuel symbol order_id timeout poll_interval) x
     (fun o _ _ => o <> OutOfFuel).
Proof.
  intros Hpi Hfuel. unfold _poll_order_filled. wp_auto.
  eapply wp_conseq;
    [apply _poll_order_filled_loop_terminates; try assumption|auto].
  replace (timeout - (x_clock x - x_clock x) + 1) with (timeout + 1) by lia. assumption.
Qed.

Lemma wp_any {A} (m : M X A) (x : X) (Q : outcome A -> X -> list Event -> Prop) :
  (forall o x' t, Q o x' t) -> wp m x Q.
Proof. intros H. apply H. Qed.

Lemma truthy_int_some (v : option Z) :
  negb (truthy_int v) = false -> exists n, v = Some n.
Proof. destruct v; [eauto|discriminate]. Qed.

End Oco.

Section Race.
Context {X : Type} {EX : Exchange X}.

Lemma race_post_no_pair symbol tp_id sl_id o t :
  poll_pairs t = [] -> race_post symbol tp_id sl_id o t.
Proof.
  intros H before tp_o sl_o after Hp. rewrite H in Hp.
  destruct before; discriminate.
Qed.

Lemma race_post_step symbol tp_id sl_id o (pre t : list Event) (a a0 : Order) :
  get_events pre = [Ok a; Ok a0] -> cancel_calls pre = [] ->
  is_filled a = false -> is_filled a0 = false ->
  race_post symbol tp_id sl_id o t -> race_post symbol tp_id sl_id o (pre ++ t).
Proof.
  intros Hg Hc Ha Ha0 Ht before tp_o sl_o after Hp Hb Hf.
  unfold poll_pairs in Hp. rewrite get_oks_app in Hp. unfold get_oks at 1 in Hp.
  rewrite Hg in Hp. cbn in Hp.
  destruct before as [|b before'].
  - cbn in Hp. injection Hp as <- <- _. destruct Hf; congruence.
  - cbn in Hp. injection Hp as <- Hp.
    inversion Hb; subst.
    destruct (Ht before' tp_o sl_o after Hp ltac:(assumption) Hf) as (H1' & H2' & H3').
    repeat split; try assumption. rewrite cancel_calls_app, Hc, H3'. reflexivity.
Qed.

Lemma race_post_won symbol tp_id sl_id (t : list Event) (a a0 : Order) :
  get_events t = [Ok a; Ok a0] ->
  is_filled a = true \/ is_filled a0 = true ->
  cancel_calls t = [(Some symbol, if is_filled a then sl_id else tp_id, None)] ->
  race_post symbol tp_id sl_id
    (Ret (Some (if is_filled a then (TP, a) else (SL, a0)))) t.
Proof.
  intros Hg Hw Hc before tp_o sl_o after Hp Hb Hf.
  unfold poll_pairs, get_oks in Hp. rewrite Hg in Hp. cbn in Hp.
  destruct before as [|b before'].
  - cbn in Hp. injection Hp as <- <- <-. auto.
  - cbn in Hp. injection Hp as <- Hp. destruct before'; discriminate.
Qed.

(** The monitoring loop: the first round with a FILLED leg ends it. *)
Lemma place_oco_monitor_race (symbol : string) (tp_id sl_id : option Z)
  (wait_timeout poll_interval start : Z) (fuel : nat) :
  forall x,
    wp (place_oco_monitor fuel symbol tp_id sl_id wait_timeout poll_interval start) x
       (fun o _ t => race_post symbol tp_id sl_id o t).
Proof.
  induction fuel as [|fuel IH]; intros x.
  - apply race_post_no_pair. reflexivity.
  - cbn [place_oco_monitor]. wp_auto.
    all: try (apply race_post_no_pair; reflexivity).
    all: try match goal with H : truthy_str None = true |- _ => discriminate H end.
    all: try (apply wp_time_sleep; intros Hs;
              [|eapply wp_conseq; [apply IH|]; cbv beta; intros o ? t Ht]).
    all: cbn [app].
    all: try match goal with
      | Ha : is_filled ?a = true
        |- race_post _ _ _ (Ret (Some (TP, ?a))) ?t =>
          pose proof (race_post_won symbol (Some z) (Some z0) t a a0) as Hw;
          rewrite Ha in Hw; apply Hw; [reflexivity|left; reflexivity|reflexivity]
      | Ha : is_filled ?a = false, Ha0 : is_filled ?a0 = true
        |- race_post _ _ _ (Ret (Some (SL, ?a0))) ?t =>
          pose proof (race_post_won symbol (Some z) (Some z0) t a a0) as Hw;
          rewrite Ha in Hw; apply Hw; [reflexivity|right; assumption|reflexivity]
      end.
    + apply (race_post_step symbol (Some z) (Some z0) _ [_; _; _; _] [] a a0); auto.
      apply race_post_no_pair; reflexivity.
    + apply (race_post_step symbol (Some z) (Some z0) _ [_; _; _; _] [] a a0); auto.
      apply race_post_no_pair; reflexivity.
    + apply (race_post_step symbol (Some z) (Some z0) _ [_; _; _; _; _] t a a0); auto.
Qed.

End Race.

Lemma accepted_orders_app (t1 t2 : list Event) :
  accepted_orders (t1 ++ t2) = accepted_orders t1 ++ accepted_orders t2.
Proof. apply flat_map_app. Qed.

Lemma accepted_orders_no_post (t : list Event) : posts t = [] -> accepted_orders t = [].
Proof.
  induction t as [|ev t IH]; [reflexivity|].
  destruct ev; cbn; try exact IH. discriminate.
Qed.

Lemma after_first_filled_unfilled (before : list Order) (last : list (result Order)) :
  Forall (fun o => is_filled o = false) before ->
  after_first_filled last = [] ->
  after_first_filled (map Ok before ++ last) = [].
Proof.
  intros Hb Hl. induction Hb as [|o l Ho _ IH]; [exact Hl|].
  cbn. rewrite Ho. exact IH.
Qed.

Lemma after_first_filled_entry (before : list Order) (ent : Order)
  (rest : list (result Order)) :
  Forall (fun o => is_filled o = false) before -> is_filled ent = true ->
  after_first_filled ((map Ok before ++ [Ok ent]) ++ rest) = rest.
Proof.
  intros Hb He. rewrite <- app_assoc. induction Hb as [|o l Ho _ IH].
  - cbn. rewrite He. reflexivity.
  - cbn. rewrite Ho. exact IH.
Qed.

Section Winner.
Context {X : Type} {EX : Exchange X} {PF : Platform}.

(** A query of the monitoring that fails ends the loop with that failure,
    before anything is cancelled. *)
Lemma place_oco_monitor_failed_query (symbol : string) (tp_id sl_id : option Z)
  (wait_timeout poll_interval start : Z) (fuel : nat) :
  forall x,
    wp (place_oco_monitor fuel symbol tp_id sl_id wait_timeout poll_interval start) x
       (fun o _ t =>
          forall e, In (Err e) (get_events t) -> o = Raise e /\ cancel_calls t = []).
Proof.
  induction fuel as [|fuel IH]; intros x.
  - intros e He. contradiction.
  - cbn [place_oco_monitor]. wp_auto.
    all: try (apply wp_time_sleep; intros Hs;
              [|eapply wp_conseq; [apply IH|]; cbv beta; intros o ? t Ht]).
    all: cbn [app]; intros err He; trace_app; cbn in He |- *.
    all: repeat match goal with
                | H : _ \/ _ |- _ => destruct H as [H|H]
                | H : Ok _ = Err _ |- _ => discriminate H
                | H : False |- _ => contradiction
                | H : Err _ = Err _ |- _ => injection H as <-
                end.
    all: try (split; reflexivity).
    all: try (apply Ht; assumption).
Qed.

(** A leg leaves no query and no cancellation, and one accepted order, the
    one it returns. *)
Lemma leg_accepted (symbol side : string) (quantity price : Decimal) (prefer : bool)
  (x : X) :
  wp (_place_limit_leg_with_reduce_fallback symbol side quantity price "GTC" prefer) x
     (fun o _ t =>
        get_events t = [] /\ cancel_calls t = [] /\
        match o with
        | Ret (resp, _) => accepted_orders t = [resp]
        | _ => True
        end).
Proof.
  unfold _place_limit_leg_with_reduce_fallback. wp_auto.
  all: cbn; repeat split.
Qed.

Lemma first_fill_no_query (symbol : string) (o : outcome OcoResult) (t : list Event) :
  monitor_queries t = [] -> first_fill_post symbol o t.
Proof.
  intros H. split.
  - intros before tp_o sl_o after Hp. unfold monitor_rounds in Hp. rewrite H in Hp.
    destruct before; discriminate.
  - intros e He. rewrite H in He. contradiction.
Qed.

Lemma monitor_queries_entry (pre t1 rest : list Event) (before : list Order)
  (ent : Order) :
  get_events pre = [] ->
  get_events t1 = map Ok before ++ [Ok ent] ->
  Forall (fun o => is_filled o = false) before -> is_filled ent = true ->
  monitor_queries (pre ++ t1 ++ rest) = get_events rest.
Proof.
  intros Hpre Hg Hb He. unfold monitor_queries.
  rewrite !get_events_app, Hpre, Hg. cbn [app].
  apply after_first_filled_entry; assumption.
Qed.

Lemma monitor_queries_unfilled (pre t1 : list Event) (before : list Order)
  (last : list (result Order)) :
  get_events pre = [] ->
  get_events t1 = map Ok before ++ last ->
  Forall (fun o => is_filled o = false) before ->
  after_first_filled last = [] ->
  monitor_queries (pre ++ t1) = [].
Proof.
  intros Hpre Hg Hb Hl. unfold monitor_queries.
  rewrite !get_events_app, Hpre, Hg. cbn [app].
  apply after_first_filled_unfilled; assumption.
Qed.

Ltac entry_poll :=
  match goal with H : negb (truthy_int _) = false |- _ =>
    let n := fresh "n" in let E := fresh "E" in
    destruct (truthy_int_some _ H) as [n E]; rewrite E in *
  end;
  eapply wp_conseq; [apply _poll_order_filled_post|]; cbv beta;
  intros [ent|err|c|] ? t1 (Hp1 & Hc1 & Hs1 & before & Hb & Hg);
  cbv beta iota in Hg.

Ltac entry_lost :=
  apply first_fill_no_query; rewrite ?app_nil_r;
  match goal with
  | Hg : False |- _ => contradiction
  | Hg : _ \/ _ |- _ =>
      destruct Hg as [Hg|[Hg _]];
      eapply (monitor_queries_unfilled [_; _; _; _; _]);
      [reflexivity|exact Hg|assumption|reflexivity
      |reflexivity|rewrite Hg; symmetry; apply app_nil_r|assumption|reflexivity]
  | Hg : get_events _ = map Ok _ |- _ =>
      eapply (monitor_queries_unfilled [_; _; _; _; _]);
      [reflexivity|rewrite Hg; symmetry; apply app_nil_r|assumption|reflexivity]
  | Hg : get_events _ = map Ok _ ++ [Ok ?ent], Hf : negb (is_filled ?ent) = true |- _ =>
      eapply (monitor_queries_unfilled [_; _; _; _; _]);
      [reflexivity|exact Hg|assumption
      |cbn; apply negb_true_iff in Hf; rewrite Hf; reflexivity]
  end.

Lemma place_oco_monitor_outcome (symbol : string) (tp_id sl_id : option Z)
  (wait_timeout poll_interval start : Z) (fuel : nat) (x : X) :
  wp (place_oco_monitor fuel symbol tp_id sl_id wait_timeout poll_interval start) x
     (fun o _ t =>
        race_post symbol tp_id sl_id o t /\
        (forall e, In (Err e) (get_events t) -> o = Raise e /\ cancel_calls t = []) /\
        posts t = []).
Proof.
  apply wp_and; [apply place_oco_monitor_race|].
  apply wp_and; [apply place_oco_monitor_failed_query|].
  eapply wp_conseq; [apply place_oco_monitor_places_nothing|].
  cbv beta. intros ? ? ? [H _]. exact H.
Qed.

Ltac entry_won :=
  match goal with
  | Hg : get_events ?t1 = map Ok ?before ++ [Ok ?ent],
    Hf : negb (is_filled ?ent) = false,
    Hb : Forall _ ?before
    |- context [?e1 :: ?e2 :: ?e3 :: ?e4 :: ?e5 :: ?t1 ++ ?rest] =>
      let Hm := fresh "Hm" in
      pose proof (monitor_queries_entry [e1; e2; e3; e4; e5] t1 rest before ent
                    eq_refl Hg Hb (proj1 (negb_false_iff _) Hf)) as Hm;
      cbn [app] in Hm
  end.

Ltac no_monitoring :=
  apply first_fill_no_query; entry_won;
  match goal with Hm : monitor_queries _ = _ |- _ => rewrite Hm end;
  trace_app; unfold get_events in *; cbn [flat_map app];
  rewrite ?flat_map_app;
  repeat match goal with H : flat_map _ _ = [] |- _ => rewrite H end;
  reflexivity.

Ltac exit_leg :=
  eapply wp_conseq; [apply leg_accepted|]; cbv beta;
  intros [[? ?]|?|?|] ? ? (? & ? & ?); cbv beta iota in *.

(** The run as a whole: the events before the entry poll, the entry poll,
    the reading of the account, the two legs, the monitoring. *)
Lemma race_of_run (symbol : string) (pre t1 mid t2 t3 tm : list Event)
  (before : list Order) (ent entry_resp tp_resp sl_resp : Order)
  (om : outcome (option (leg_role * Order))) :
  get_events pre = [] -> cancel_calls pre = [] -> accepted_orders pre = [entry_resp] ->
  get_events t1 = map Ok before ++ [Ok ent] -> cancel_calls t1 = [] -> posts t1 = [] ->
  Forall (fun o => is_filled o = false) before -> is_filled ent = true ->
  get_events mid = [] -> cancel_calls mid = [] -> accepted_orders mid = [] ->
  get_events t2 = [] -> cancel_calls t2 = [] -> accepted_orders t2 = [tp_resp] ->
  get_events t3 = [] -> cancel_calls t3 = [] -> accepted_orders t3 = [sl_resp] ->
  race_post symbol (o_orderId tp_resp) (o_orderId sl_resp) om tm ->
  (forall e, In (Err e) (get_events tm) -> om = Raise e /\ cancel_calls tm = []) ->
  posts tm = [] ->
  first_fill_post symbol
    (match om with
     | Ret w => Ret (mkOcoResult ent tp_resp sl_resp w false)
     | Raise e => Raise e
     | Exit c => Exit c
     | OutOfFuel => OutOfFuel
     end)
    (pre ++ t1 ++ mid ++ t2 ++ t3 ++ tm).
Proof.
  intros Gp Cp Ap G1 C1 P1 Hb He Gm Cm Am G2 C2 A2 G3 C3 A3 Hrace Hfail Pm.
  assert (Hq : monitor_queries (pre ++ t1 ++ mid ++ t2 ++ t3 ++ tm) = get_events tm).
  { rewrite (monitor_queries_entry pre t1 _ before ent Gp G1 Hb He).
    rewrite !get_events_app, Gm, G2, G3. reflexivity. }
  assert (Hc : cancel_calls (pre ++ t1 ++ mid ++ t2 ++ t3 ++ tm) = cancel_calls tm).
  { rewrite !cancel_calls_app, Cp, C1, Cm, C2, C3. reflexivity. }
  assert (Ha : accepted_orders (pre ++ t1 ++ mid ++ t2 ++ t3 ++ tm)
               = [entry_resp; tp_resp; sl_resp]).
  { rewrite !accepted_orders_app, Ap, Am, A2, A3.
    rewrite (accepted_orders_no_post t1 P1), (accepted_orders_no_post tm Pm).
    reflexivity. }
  split.
  - intros before' tp_o sl_o after Hr Hb' Hf.
    unfold monitor_rounds in Hr. rewrite Hq in Hr.
    destruct (Hrace before' tp_o sl_o after Hr Hb' Hf) as (H1 & H2 & H3).
    split; [exact H1|]. subst om.
    eexists. exists entry_resp. split; [reflexivity|]. cbn [oco_winner oco_tp oco_sl].
    split; [reflexivity|]. split; [exact Ha|].
    rewrite Hc, H3. destruct (is_filled tp_o); reflexivity.
  - intros e Hin. rewrite Hq in Hin. destruct (Hfail e Hin) as [H1 H2].
    subst om. split; [reflexivity|]. rewrite Hc. exact H2.
Qed.

Lemma place_oco_race (fuel : nat) (symbol side : string)
  (qty tp_price sl_price : PyNum) (entry_type : string) (entry_price : option PyNum)
  (wait_timeout poll_interval : Z) (x : X) :
  wp (place_oco fuel symbol side qty tp_price sl_price entry_type entry_price
        wait_timeout poll_interval false) x
     (fun o _ t => first_fill_post symbol o t).
Proof.
  unfold place_oco. wp_auto.
  all: try (apply first_fill_no_query; reflexivity).
  all: entry_poll.
  all: cbn [app].
  all: try entry_lost.
  all: wp_auto.
  all: cbn [app].
  all: try entry_lost.
  all: try no_monitoring.
  all: exit_leg; wp_auto; cbn [app]; try no_monitoring.
  all: exit_leg; wp_auto; cbn [app]; try no_monitoring.
  all: eapply wp_conseq; [apply place_oco_monitor_outcome|]; cbv beta;
    intros [w|err|c|] ? tm (Hrace & Hfail & Hposts); wp_auto; cbn [app];
    rewrite ?app_nil_r.
  all: match goal with
       | Hg : get_events ?t1 = map Ok ?before ++ [Ok ?ent],
         H2 : accepted_orders ?t2 = [?tp],
         H3 : accepted_orders ?t3 = [?sl],
         Hr : race_post _ _ _ ?om ?tm
         |- first_fill_post _ _ (_ :: _ :: _ :: _ :: EvPostOrder _ (Ok ?entry) :: _) =>
           apply (race_of_run symbol [_; _; _; _; _] t1 [_; _] t2 t3 tm before ent entry
                    tp sl om)
       end.
  all: try reflexivity; try assumption.
  all: try (apply negb_false_iff; assumption).
Qed.

(** C2, as the code has it, for every run of [place_oco] that waits, on any
    exchange.  Of the rounds of the monitoring in which both status queries
    were answered, the first that shows a FILLED leg ends the polling:
    [place_oco] returns, the winner of its result is that leg (the
    take-profit when both are FILLED), and [cancel_order] has been called
    once in the run, for the order id under which the exchange accepted the
    other leg and whatever that call raised.  A status query of the
    monitoring that fails ends the run with that failure and without a
    cancellation. *)
Theorem place_oco_first_fill_wins (fuel : nat) (symbol side : string)
  (qty tp_price sl_price : PyNum) (entry_type : string) (entry_price : option PyNum)
  (wait_timeout poll_interval : Z) (x : X) :
  let run := place_oco fuel symbol side qty tp_price sl_price entry_type entry_price
               wait_timeout poll_interval false x in
  (forall before tp_o sl_o after,
     monitor_rounds (trace_of run) = before ++ (tp_o, sl_o) :: after ->
     Forall unfilled_pair before ->
     is_filled tp_o = true \/ is_filled sl_o = true ->
     after = [] /\
     exists res entry_resp,
       outcome_of run = Ret res /\
       oco_winner res = Some (if is_filled tp_o then (TP, tp_o) else (SL, sl_o)) /\
       accepted_orders (trace_of run) = [entry_resp; oco_tp res; oco_sl res] /\
       cancel_calls (trace_of run)
       = [(Some symbol,
           o_orderId (if is_filled tp_o then oco_sl res else oco_tp res), None)]) /\
  (forall e, In (Err e) (monitor_queries (trace_of run)) ->
             outcome_of run = Raise e /\ cancel_calls (trace_of run) = []).
Proof.
  intros run.
  exact (wp_intro _ _ _ (place_oco_race fuel symbol side qty tp_price sl_price entry_type
                           entry_price wait_timeout poll_interval x)).
Qed.

End Winner.

Lemma place_oco_first_fill_wins_witness :
  @nil (Order * Order) = [] /\
  exists res entry_resp,
    outcome_of (bracket_run 5 30 false sim_bracket_tie) = Ret res /\
    oco_winner res = Some (TP, filled_order 8) /\
    accepted_orders (trace_of (bracket_run 5 30 false sim_bracket_tie))
    = [entry_resp; oco_tp res; oco_sl res] /\
    cancel_calls (trace_of (bracket_run 5 30 false sim_bracket_tie))
    = [(Some "BTCUSDT", o_orderId (oco_sl res), None)].
Proof.
  apply (proj1 (place_oco_first_fill_wins (PF := short_platform) 5 "BTCUSDT" "BUY"
                  (Num (mkDec 2 (-2))) (Num (mkDec 65000 0)) (Num (mkDec 55000 0))
                  "MARKET" None 30 1 sim_bracket_tie)
           [(new_order 8, new_order 9)] (filled_order 8) (filled_order 9) []).
  - vm_compute. reflexivity.
  - repeat constructor.
  - left. reflexivity.
Defined.

(** C2 as the spec states it fails when a status query fails: on the first
    round of the monitoring the take-profit is observed FILLED and the query
    of the stop-loss fails; [place_oco] raises that failure, so that no
    winner is reported, and nothing is cancelled. *)
Lemma place_oco_lost_query_counterexample :
  monitor_queries (trace_of (bracket_run 5 30 false sim_bracket_lost_query))
  = [Ok (filled_order 8); Err (Exception HTTPError "502 Server Error: Bad Gateway")] /\
  is_filled (filled_order 8) = true /\
  outcome_of (bracket_run 5 30 false sim_bracket_lost_query)
  = Raise (Exception HTTPError "502 Server Error: Bad Gateway") /\
  cancel_calls (trace_of (bracket_run 5 30 false sim_bracket_lost_query)) = [].
Proof. repeat split; vm_compute; reflexivity. Qed.

Section Bracket.
Context {X : Type} {EX : Exchange X} {PF : Platform}.

Lemma entry_timeout_post_no_query (o : outcome OcoResult) (t : list Event) :
  get_events t = [] -> entry_timeout_post o t.
Proof. intros H Hne. contradiction. Qed.

Lemma entry_timeout_post_bad_query (o : outcome OcoResult) (t : list Event)
  (g : result Order) :
  In g (get_events t) ->
  (forall ent, g = Ok ent -> is_filled ent = true) ->
  entry_timeout_post o t.
Proof.
  intros Hin Hg _ Hall. destruct (Hall g Hin) as (ent & -> & Hf).
  rewrite (Hg ent eq_refl) in Hf. discriminate.
Qed.

(** The rest of [place_oco] after the entry has been placed with a usable
    order id, when the entry is polled and never seen FILLED. *)
Lemma entry_poll_timeout
  (clock_get_order : forall s n x, x_clock x <= x_clock (snd (x_get_order s n x)))
  (clock_sleep : forall d x, 0 <= d -> x_clock x + d <= x_clock (x_sleep d x))
  (fuel : nat) (symbol : string) (n wait_timeout poll_interval : Z) (x : X)
  (pre : list Event) (k : Order -> M X OcoResult) :
  1 <= poll_interval ->
  Z.max (wait_timeout + 1) 0 + 1 <= Z.of_nat fuel ->
  get_events pre = [] -> cancel_calls pre = [] ->
  List.length (place_calls pre) = 1%nat -> List.length (posts pre) = 1%nat ->
  wp (_poll_order_filled fuel symbol (Some n) wait_timeout poll_interval) x
    (fun o x1 t1 =>
       match o with
       | Ret ent =>
           wp (if negb (is_filled ent) then raise entry_not_filled else k ent) x1
              (fun o2 _ t2 => entry_timeout_post o2 (pre ++ t1 ++ t2))
       | Raise e => entry_timeout_post (Raise e) (pre ++ t1)
       | Exit c => entry_timeout_post (Exit c) (pre ++ t1)
       | OutOfFuel => entry_timeout_post OutOfFuel (pre ++ t1)
       end).
Proof.
  intros Hpi Hfuel Hg Hc Hp Hs.
  eapply wp_conseq;
    [apply wp_and;
       [apply _poll_order_filled_post
       |apply (_poll_order_filled_terminates clock_get_order clock_sleep); eassumption]|].
  cbv beta. intros o x1 t1 [(P1 & P2 & P3 & before & Hb & Ho) Hterm].
  destruct o as [ent|e|c|]; try contradiction.
  - destruct (is_filled ent) eqn:Hf; cbn [negb].
    + apply wp_any. intros o2 _ t2.
      apply (entry_timeout_post_bad_query _ _ (Ok ent)).
      * rewrite !get_events_app, Ho. rewrite !in_app_iff. right. left. right. left. reflexivity.
      * intros ent' [= <-]. assumption.
    + apply wp_raise. intros _ _. rewrite app_nil_r.
      rewrite place_calls_app, posts_app, cancel_calls_app, P1, P2, P3, Hc, !app_nil_r.
      auto.
  - destruct Ho as [Ho|[_ Hneg]]; [|lia].
    apply (entry_timeout_post_bad_query _ _ (Err e)).
    + rewrite get_events_app, Ho, !in_app_iff. right. right. left. reflexivity.
    + discriminate.
Qed.

(** C3: in a non-detached run whose clock moves (a query never turns it
    back, a sleep lasts as long as asked) and that has fuel for the wait, if
    the entry is polled and no snapshot shows it FILLED, [place_oco] raises
    the entry-not-filled error; the trace holds one order placement, the
    entry, and no cancellation. *)
Theorem place_oco_entry_timeout
  (clock_get_order : forall s n x, x_clock x <= x_clock (snd (x_get_order s n x)))
  (clock_sleep : forall d x, 0 <= d -> x_clock x + d <= x_clock (x_sleep d x))
  (fuel : nat) (symbol side : string) (qty tp_price sl_price : PyNum)
  (entry_type : string) (entry_price : option PyNum) (wait_timeout poll_interval : Z)
  (x : X) :
  1 <= poll_interval ->
  Z.max (wait_timeout + 1) 0 + 1 <= Z.of_nat fuel ->
  let run := place_oco fuel symbol side qty tp_price sl_price entry_type entry_price
               wait_timeout poll_interval false x in
  get_events (trace_of run) <> [] ->
  (forall g, In g (get_events (trace_of run)) ->
             exists ent, g = Ok ent /\ is_filled ent = false) ->
  outcome_of run = Raise entry_not_filled /\
  List.length (place_calls (trace_of run)) = 1%nat /\
  List.length (posts (trace_of run)) = 1%nat /\
  cancel_calls (trace_of run) = [].
Proof.
  intros Hpi Hfuel. cbv zeta.
  apply (wp_intro _ x (fun o _ t => entry_timeout_post o t)).
  unfold place_oco. wp_auto.
  all: try (apply entry_timeout_post_no_query; reflexivity).
  all: match goal with H : negb (truthy_int _) = false |- _ =>
         destruct (truthy_int_some _ H) as [n ->] end.
  all: cbn [app].
  all: match goal with |- wp _ _ (fun o x1 t1 => match o with
                                  | Ret a => wp _ _ (fun o2 _ t2 => _ (?e0 :: ?e1 :: ?e2 :: ?e3 :: ?e4 :: _))
                                  | _ => _ end) =>
         apply (entry_poll_timeout clock_get_order clock_sleep fuel symbol n
                  wait_timeout poll_interval _ [e0; e1; e2; e3; e4]); auto
       end.
Qed.

End Bracket.

Section Legs.
Context {X : Type} {EX : Exchange X} {PF : Platform}.

Lemma leg_post (symbol side : string) (quantity price : Decimal) (prefer : bool) (x : X) :
  wp (_place_limit_leg_with_reduce_fallback symbol side quantity price "GTC" prefer) x
     (fun _ _ t => Forall (is_leg side quantity) (posts t) /\ get_events t = []).
Proof.
  eapply wp_conseq; [apply _place_limit_leg_with_reduce_fallback_post|].
  cbv beta. intros _ _ t (H & Hg & _). split; [|assumption].
  eapply Forall_impl; [|exact H]. intros p (H1 & H2 & H3 & _). repeat split; assumption.
Qed.

Lemma leg_quantity_no_leg side qty detach (t : list Event) :
  tl (posts t) = [] -> leg_quantity_post side qty detach t.
Proof. intros H p Hp. rewrite H in Hp. contradiction. Qed.

Ltac use_leg :=
  eapply wp_conseq; [apply leg_post|]; cbv beta; intros [[? ?]|?|?|] ? ? [? ?].

Ltac split_in H :=
  rewrite ?in_app_iff in H; cbn [In] in H;
  repeat match type of H with
         | _ \/ _ => destruct H as [H|H]
         | False => contradiction
         end.

Ltac leg_facts p :=
  match goal with
  | Hp : In p (posts ?t), HF : Forall (is_leg _ _) (posts ?t) |- _ =>
      let Hq := fresh "Hq" in let Hs := fresh "Hs" in let Ht := fresh "Ht" in
      destruct (proj1 (Forall_forall _ _) HF p Hp) as (Hq & Hs & Ht)
  end.

Lemma find_filled_after (before : list Order) (ent : Order) (rest : list (result Order)) :
  Forall (fun o => is_filled o = false) before -> is_filled ent = true ->
  find is_filled (oks ((map Ok before ++ [Ok ent]) ++ rest)) = Some ent.
Proof.
  intros Hb Hf. rewrite !oks_app, oks_map_Ok, <- app_assoc.
  rewrite find_unfilled_app by assumption. cbn. rewrite Hf. reflexivity.
Qed.

Ltac use_poll :=
  match goal with H : negb (truthy_int _) = false |- _ =>
    let n := fresh "n" in let E := fresh "E" in
    destruct (truthy_int_some _ H) as [n E]; rewrite E in *
  end;
  eapply wp_conseq; [apply _poll_order_filled_post|]; cbv beta;
  intros [?|?|?|] ? ? (? & ? & ? & ? & ? & ?).

Ltac use_monitor :=
  eapply wp_conseq; [apply place_oco_monitor_places_nothing|]; cbv beta;
  intros [?|?|?|] ? ? [? ?].

Ltac no_leg :=
  apply leg_quantity_no_leg; rewrite ?posts_app;
  repeat match goal with H : posts _ = [] |- _ => rewrite H end; reflexivity.

Ltac leg_leaf :=
  let p := fresh "p" in let Hp := fresh "Hp" in
  intros p Hp; rewrite ?posts_app in Hp;
  repeat match goal with H : posts _ = [] |- _ => rewrite H in Hp end;
  cbn in Hp; split_in Hp; leg_facts p;
  match goal with
  | Hside : validate_side _ = Ok ?a,
    Hqty : validate_positive_number "qty" _ = Ok ?a0,
    Hrd : round_down_qty (to_float ?a0) (f_stepSize (parse_symbol_filters ?s)) = Ok ?a4
    |- _ =>
      exists a, a0, s, a4;
      split; [exact Hside|]; split; [exact Hqty|]; split; [cbn; reflexivity|];
      split; [exact Hrd|]; split; [assumption|]; split; [assumption|]
  end.

Ltac detach_legs :=
  use_leg; wp_auto; try use_leg; wp_auto; leg_leaf; assumption.

Ltac waited_legs :=
  use_poll; try no_leg; wp_auto; try no_leg;
  use_leg; wp_auto; try use_leg; wp_auto; try use_monitor;
  leg_leaf;
  match goal with
  | Hg : get_events ?t = map Ok ?before ++ [Ok ?ent],
    Hrd : round_down_qty (to_float (executed_or ?ent _)) _ = Ok ?lq |- _ =>
      exists ent, lq; split; [|split; [exact Hrd|assumption]];
      unfold first_filled, get_oks; rewrite !get_events_app, Hg;
      cbn [get_events flat_map app];
      apply find_filled_after; [assumption|]
  end;
  match goal with H : negb (is_filled _) = false |- _ =>
    apply negb_false_iff in H; exact H end.

Lemma place_oco_legs (fuel : nat) (symbol side : string)
  (qty tp_price sl_price : PyNum) (entry_type : string) (entry_price : option PyNum)
  (wait_timeout poll_interval : Z) (detach : bool) (x : X) :
  wp (place_oco fuel symbol side qty tp_price sl_price entry_type entry_price
        wait_timeout poll_interval detach) x
     (fun _ _ t => leg_quantity_post side qty detach t).
Proof.
  unfold place_oco. wp_auto.
  all: try (apply leg_quantity_no_leg; reflexivity).
  - detach_legs.
  - waited_legs.
  - detach_legs.
  - waited_legs.
Qed.

(** C1, as the code has it.  Of the orders a run of [place_oco] sends, each
    after the first (the entry) is an exit leg: a LIMIT order on the
    opposite side.  In a run that waits for the entry, its quantity is the
    executed quantity of the entry's FILLED snapshot (origQty, then the
    rounded request, when executedQty is missing), rounded down to the step
    by [round_down_qty]; in detach mode it is the requested quantity rounded
    down to the step. *)
Theorem place_oco_leg_quantity (fuel : nat) (symbol side : string)
  (qty tp_price sl_price : PyNum) (entry_type : string) (entry_price : option PyNum)
  (wait_timeout poll_interval : Z) (detach : bool) (x : X) (p : OrderParams) :
  let run := place_oco fuel symbol side qty tp_price sl_price entry_type entry_price
               wait_timeout poll_interval detach x in
  In p (tl (posts (trace_of run))) ->
  exists side' qty_f s qty_dec,
    validate_side side = Ok side' /\
    validate_positive_number "qty" qty = Ok qty_f /\
    symbol_info_of (trace_of run) = Some s /\
    round_down_qty (to_float qty_f) (f_stepSize (parse_symbol_filters s)) = Ok qty_dec /\
    p_type p = "LIMIT" /\ p_side p = opposite_side side' /\
    if detach then p_quantity p = to_float qty_dec
    else exists entry_final leg_qty,
        first_filled (trace_of run) = Some entry_final /\
        round_down_qty (to_float (executed_or entry_final qty_dec))
                       (f_stepSize (parse_symbol_filters s)) = Ok leg_qty /\
        p_quantity p = to_float leg_qty.
Proof.
  intros run. apply (wp_intro _ _ _ (place_oco_legs fuel symbol side qty tp_price sl_price
                       entry_type entry_price wait_timeout poll_interval detach x)).
Qed.

End Legs.

(** ** src/cli.py: exit status *)

Section Cli.
Context {X : Type} {EX : Exchange X} {PF : Platform}.

Lemma place_market_order_finished symbol side qty (x : X) :
  wp (place_market_order symbol side qty) x (fun o _ _ => finished o).
Proof. unfold place_market_order. wp_auto. all: exact I. Qed.

Lemma place_limit_order_finished symbol side qty price (x : X) :
  wp (place_limit_order symbol side qty price) x (fun o _ _ => finished o).
Proof. unfold place_limit_order. wp_auto. all: exact I. Qed.

Lemma place_stop_limit_finished symbol side qty sp pr tif ro (x : X) :
  wp (place_stop_limit symbol side qty sp pr tif ro) x (fun o _ _ => finished o).
Proof.
  unfold place_stop_limit, _validate_stop_vs_market. wp_auto. all: exact I.
Qed.

Lemma place_stop_market_finished symbol side qty sp cp (x : X) :
  wp (place_stop_market symbol side qty sp cp) x (fun o _ _ => finished o).
Proof.
  unfold place_stop_market, _validate_stop_vs_market. wp_auto. all: exact I.
Qed.

(** Whatever the cancellations raise, the loop of [cancel-all] returns its
    two counters. *)
Lemma cancel_all_loop_returns (orders : list Order) :
  forall (cancelled failed : Z) (x : X),
    wp (cancel_all_loop orders cancelled failed) x
       (fun o _ _ => exists c f,
            o = Ret (c, f) /\ c + f = cancelled + failed + Z.of_nat (List.length orders)).
Proof.
  induction orders as [|o rest IH]; intros cancelled failed x.
  - cbn. exists cancelled, failed. split; [reflexivity|]. cbn. lia.
  - cbn [cancel_all_loop]. wp_auto.
    all: try (eapply wp_conseq; [apply IH|]; cbv beta;
              intros ? ? ? (c & f & -> & Hs); exists c, f; split; [reflexivity|];
              cbn [List.length]; lia).
Qed.

Lemma leg_no_exit symbol side q p tif prefer (x : X) :
  wp (_place_limit_leg_with_reduce_fallback symbol side q p tif prefer) x
     (fun o _ _ => no_exit o).
Proof. unfold _place_limit_leg_with_reduce_fallback. wp_auto. all: exact I. Qed.

Lemma place_oco_monitor_no_exit symbol tp_id sl_id wt pi start (fuel : nat) :
  forall x : X,
    wp (place_oco_monitor fuel symbol tp_id sl_id wt pi start) x (fun o _ _ => no_exit o).
Proof.
  induction fuel as [|fuel IH]; intros x; [exact I|].
  cbn [place_oco_monitor]. wp_auto.
  all: try exact I.
  all: apply wp_time_sleep; intros Hs; [exact I|].
  all: eapply wp_conseq; [apply IH|auto].
Qed.

Lemma place_oco_no_exit fuel symbol side qty tp sl et ep wt pi detach (x : X) :
  wp (place_oco fuel symbol side qty tp sl et ep wt pi detach) x (fun o _ _ => no_exit o).
Proof.
  unfold place_oco. wp_auto.
  all: try exact I.
  all: try (match goal with H : negb (truthy_int _) = false |- _ =>
              destruct (truthy_int_some _ H) as [n E]; rewrite E in * end;
            eapply wp_conseq; [apply _poll_order_filled_post|]; cbv beta;
            intros [?|?|?|] ? ? (? & ? & ? & ? & ? & ?); try exact I; try contradiction;
            wp_auto; try exact I).
  all: eapply wp_conseq; [apply leg_no_exit|]; cbv beta; intros [[? ?]|?|?|] ? ? ?;
       try exact I; try contradiction; wp_auto.
  all: eapply wp_conseq; [apply leg_no_exit|]; cbv beta; intros [[? ?]|?|?|] ? ? ?;
       try exact I; try contradiction; wp_auto; try exact I.
  all: eapply wp_conseq; [apply place_oco_monitor_no_exit|]; cbv beta;
       intros [?|?|?|] ? ? ?; try exact I; try contradiction; wp_auto; exact I.
Qed.

Lemma try_except_exit_1 (body : M X unit) (x : X) :
  outcome_of (try_except body (fun _ => sys_exit 1) x)
  = match outcome_of (body x) with Raise _ => Exit 1 | o => o end.
Proof.
  unfold try_except, outcome_of. destruct (body x) as [[o x1] t1]. destruct o; reflexivity.
Qed.

Ltac block_with lemma :=
  wp_auto;
  try lazymatch goal with
      | |- wp _ _ _ =>
          eapply wp_conseq; [apply lemma|]; cbv beta;
          intros [?|?|?|] ? ? ?; try contradiction; wp_auto
      end.

(** No [try] block calls [sys.exit], and only the block of [oco] can be
    short of fuel. *)
Lemma try_block_outcome (fuel : nat) (c : Command) (x : X) :
  wp (try_block fuel c) x
     (fun o _ _ =>
        no_exit o /\
        ((forall s sd q tp sl et ep wt d, c <> Cmd_oco s sd q tp sl et ep wt d) ->
         finished o)).
Proof.
  destruct c; cbn [try_block].
  - unfold market_try. block_with place_market_order_finished. all: cbn; auto.
  - unfold limit_try. block_with place_limit_order_finished. all: cbn; auto.
  - unfold open_orders_try. wp_auto. all: cbn; auto.
  - unfold cancel_all_try. wp_auto. all: try (cbn; solve [auto]).
    eapply wp_conseq; [apply cancel_all_loop_returns|]. cbv beta.
    intros ? ? ? (c & f & -> & _). wp_auto. cbn. auto.
  - unfold cancel_order_try. wp_auto. all: cbn; auto.
  - unfold inspect_pos_try. wp_auto. all: cbn; auto.
  - unfold filters_try. wp_auto. all: cbn; auto.
  - unfold oco_try. block_with place_oco_no_exit.
    all: cbn; split; auto; intros Hc; exfalso; eapply Hc; reflexivity.
  - unfold auth_check_try. wp_auto. all: cbn; auto.
  - unfold stop_limit_try. block_with place_stop_limit_finished. all: cbn; auto.
  - unfold stop_market_try. block_with place_stop_market_finished. all: cbn; auto.
Qed.

(** Once the open orders are listed, cancel-all exits with 0 whatever the
    cancellations do. *)
Lemma cancel_all_cmd_status (symbol : option string) (x : X) :
  wp (cancel_all_cmd symbol) x
     (fun o _ t => forall s orders, In (EvOpenOrders s (Ok orders)) t ->
                                    exit_status o = Some 0).
Proof.
  unfold cancel_all_cmd, cancel_all_try. wp_auto.
  all: try (cbn; intros s0 orders0 Hin; reflexivity).
  - eapply wp_conseq; [apply cancel_all_loop_returns|]. cbv beta.
    intros ? ? ? (c & f & -> & _). wp_auto. intros; reflexivity.
  - cbn. intros s0 orders0 Hin.
    repeat (destruct Hin as [Hin|Hin]; [discriminate|]). contradiction.
Qed.

(** cancel-order exits with 0 when the cancellation fails with a message
    that names an unknown order. *)
Lemma cancel_order_cmd_status (symbol : string) (order_id : option Z)
  (client_order_id : option string) (x : X) :
  wp (cancel_order_cmd symbol order_id client_order_id) x
     (fun o _ t => forall s i c e, In (EvDeleteOrder s i c (Err e)) t ->
                                   unknown_order (exn_msg e) = true ->
                                   exit_status o = Some 0).
Proof.
  unfold cancel_order_cmd, cancel_order_try. wp_auto.
  all: try (cbn; intros; reflexivity).
  all: cbn; intros s0 i0 c0 e0 Hin Hu.
  all: repeat (destruct Hin as [Hin|Hin]; [try discriminate|]); try contradiction.
  all: injection Hin as <- <- <- <-; congruence.
Qed.

(** C8, as the code has it, for the ten subcommands other than auth-check:
    cancel-order exits with 2 when it has neither a usable order id nor a
    usable client order id; otherwise a command exits with 0 when its [try]
    block returns and with 1 when the block raises.  The block never calls
    [sys.exit], and only oco, which waits, can be unfinished.  Failures
    handled inside the block leave the status at 0: cancel-all exits with 0
    once the open orders are listed, and cancel-order exits with 0 when the
    cancellation fails with a message that names an unknown order. *)
Theorem cli_exit_status (fuel : nat) (c : Command) (x : X) :
  c <> Cmd_auth_check ->
  exit_status (outcome_of (run_command fuel c x))
  = (if missing_ids c then Some 2
     else match outcome_of (try_block fuel c x) with
          | Ret _ => Some 0
          | Raise _ => Some 1
          | Exit n => Some n
          | OutOfFuel => None
          end) /\
  no_exit (outcome_of (try_block fuel c x)) /\
  ((forall s sd q tp sl et ep wt d, c <> Cmd_oco s sd q tp sl et ep wt d) ->
   finished (outcome_of (try_block fuel c x))) /\
  (forall symbol s orders,
     c = Cmd_cancel_all symbol ->
     In (EvOpenOrders s (Ok orders)) (trace_of (run_command fuel c x)) ->
     exit_status (outcome_of (run_command fuel c x)) = Some 0) /\
  (forall symbol order_id client_order_id s i c' e,
     c = Cmd_cancel_order symbol order_id client_order_id ->
     In (EvDeleteOrder s i c' (Err e)) (trace_of (run_command fuel c x)) ->
     unknown_order (exn_msg e) = true ->
     exit_status (outcome_of (run_command fuel c x)) = Some 0).
Proof.
  intros Hc. split; [|split; [|split; [|split]]].
  2, 3: exact (proj1 (wp_intro _ _ _ (try_block_outcome fuel c x))) ||
        exact (proj2 (wp_intro _ _ _ (try_block_outcome fuel c x))).
  - destruct c; cbn [run_command try_block missing_ids]; try contradiction.
    1: unfold market. 2: unfold limit. 3: unfold open_orders_cmd. 4: unfold cancel_all_cmd.
    6: unfold inspect_pos_cmd. 7: unfold filters_cmd. 8: unfold oco.
    9: unfold stop_limit_cmd. 10: unfold stop_market_cmd.
    5: { unfold cancel_order_cmd.
         destruct (negb (truthy_int order_id) && negb (truthy_str client_order_id))%bool;
           [reflexivity|].
         rewrite try_except_exit_1.
         destruct (outcome_of (cancel_order_try symbol order_id client_order_id x));
           reflexivity. }
    all: rewrite try_except_exit_1;
      match goal with |- context [outcome_of ?r] => destruct (outcome_of r) end; reflexivity.
  - intros symbol s orders -> Hin. cbn [run_command] in *.
    exact (wp_intro _ _ _ (cancel_all_cmd_status symbol x) s orders Hin).
  - intros symbol order_id client_order_id s i c' e -> Hin Hu. cbn [run_command] in *.
    exact (wp_intro _ _ _ (cancel_order_cmd_status symbol order_id client_order_id x)
             s i c' e Hin Hu).
Qed.

(** Whatever happens, auth-check returns. *)
Remark auth_check_returns (x : X) : exit_status (outcome_of (auth_check x)) = Some 0.
Proof.
  apply (wp_intro _ x (fun o _ _ => exit_status o = Some 0)).
  unfold auth_check, auth_check_try. wp_auto. all: reflexivity.
Qed.

End Cli.

Lemma cli_exit_status_witness :
  exit_status (outcome_of (run_command (PF := short_platform) 0
                             (Cmd_cancel_order "btcusdt" None None) sim0)) = Some 2.
Proof.
  apply (proj1 (cli_exit_status (PF := short_platform) 0
                  (Cmd_cancel_order "btcusdt" None None) sim0 ltac:(discriminate))).
Defined.

(** C8 as the spec states it fails where a failure is caught inside the
    command: cancel-all catches the failed cancellation of its one open
    order and exits with 0, and cancel-order exits with 0 after a failure
    whose message holds "400". *)
Lemma cli_exit_status_counterexample :
  (exists e, In (EvDeleteOrder (Some "BTCUSDT") (Some 7) None (Err e))
                (trace_of (cancel_all_cmd None sim_one_open)) /\
             unknown_order (exn_msg e) = false) /\
  exit_status (outcome_of (cancel_all_cmd None sim_one_open)) = Some 0 /\
  (exists e, In (EvDeleteOrder (Some "BTCUSDT") (Some 7) None (Err e))
                (trace_of (cancel_order_cmd "btcusdt" (Some 7) None sim_unknown_order))) /\
  exit_status (outcome_of (cancel_order_cmd "btcusdt" (Some 7) None sim_unknown_order))
  = Some 0.
Proof.
  split; [|split; [|split]].
  - eexists. split; [vm_compute; repeat (first [left; reflexivity|right])|].
    vm_compute. reflexivity.
  - vm_compute. reflexivity.
  - eexists. vm_compute. repeat (first [left; reflexivity|right]).
  - vm_compute. reflexivity.
Qed.

Lemma place_oco_leg_quantity_witness :
  exists side' qty_f s qty_dec,
    validate_side "BUY" = Ok side' /\
    validate_positive_number "qty" (Num (mkDec 2 (-2))) = Ok qty_f /\
    symbol_info_of (trace_of (bracket_run 5 30 false sim_bracket)) = Some s /\
    round_down_qty (short_float qty_f) (f_stepSize (parse_symbol_filters s)) = Ok qty_dec /\
    p_type (order_params (limit_args "BTCUSDT" "SELL" (mkDec 2 (-2)) (mkDec 650000 (-1))
                            "GTC" true)) = "LIMIT" /\
    p_side (order_params (limit_args "BTCUSDT" "SELL" (mkDec 2 (-2)) (mkDec 650000 (-1))
                            "GTC" true)) = opposite_side side' /\
    exists entry_final leg_qty,
      first_filled (trace_of (bracket_run 5 30 false sim_bracket)) = Some entry_final /\
      round_down_qty (short_float (executed_or entry_final qty_dec))
                     (f_stepSize (parse_symbol_filters s)) = Ok leg_qty /\
      p_quantity (order_params (limit_args "BTCUSDT" "SELL" (mkDec 2 (-2))
                                  (mkDec 650000 (-1)) "GTC" true))
      = short_float leg_qty.
Proof.
  apply (place_oco_leg_quantity (PF := short_platform) 5 "BTCUSDT" "BUY" (Num (mkDec 2 (-2)))
           (Num (mkDec 65000 0)) (Num (mkDec 55000 0)) "MARKET" None 30 1 false sim_bracket
           (order_params (limit_args "BTCUSDT" "SELL" (mkDec 2 (-2)) (mkDec 650000 (-1))
                            "GTC" true))).
  vm_compute. left. reflexivity.
Defined.

(** C1 as the spec states it fails in detach mode: the entry is answered
    with 0.010 executed of the 0.02 requested, and both legs are sent for
    0.02, not for the 0.01 that the executed quantity rounds to. *)
Lemma place_oco_detach_counterexample :
  (exists res,
      outcome_of (bracket_run 5 30 true sim_partial) = Ret res /\
      oco_detached res = true /\
      o_executedQty (oco_entry res) = Some (mkDec 10 (-3))) /\
  map p_quantity (tl (posts (trace_of (bracket_run 5 30 true sim_partial))))
  = [mkDec 2 (-2); mkDec 2 (-2)] /\
  (exists q, round_down_qty (short_float (mkDec 10 (-3))) (mkDec 1 (-3)) = Ok q /\
             short_float q = mkDec 1 (-2)) /\
  dec_lt (mkDec 1 (-2)) (mkDec 2 (-2)).
Proof.
  split; [|split; [|split]].
  - eexists. split; [vm_compute; reflexivity|]. split; reflexivity.
  - vm_compute. reflexivity.
  - eexists. split; vm_compute; reflexivity.
  - vm_compute. reflexivity.
Qed.

Lemma place_oco_entry_timeout_witness :
  outcome_of (bracket_run 4 2 false sim_unfilled) = Raise entry_not_filled /\
  List.length (place_calls (trace_of (bracket_run 4 2 false sim_unfilled))) = 1%nat /\
  List.length (posts (trace_of (bracket_run 4 2 false sim_unfilled))) = 1%nat /\
  cancel_calls (trace_of (bracket_run 4 2 false sim_unfilled)) = [].
Proof.
  refine (place_oco_entry_timeout (PF := short_platform) _ _
            4 "BTCUSDT" "BUY" (Num (mkDec 2 (-2))) (Num (mkDec 65000 0))
            (Num (mkDec 55000 0)) "MARKET" None 2 1 sim_unfilled _ _ _ _).
  - intros s n x. simpl. lia.
  - intros d x Hd. simpl. lia.
  - lia.
  - vm_compute. discriminate.
  - vm_compute. discriminate.
  - vm_compute. intros g Hg.
    repeat (destruct Hg as [<-|Hg]; [eexists; split; reflexivity|]). contradiction.
Defined.

(** ** src/utils.py: validate_side *)



Lemma upper_ascii_cases (c : ascii) :
  c = upper_ascii c \/ c = lower_ascii (upper_ascii c).
Proof. destruct c as [[] [] [] [] [] [] [] []]; vm_compute; auto. Qed.

(** Every string is a spelling of its capitalisation. *)
Lemma spellings_upper (s : string) : In s (spellings (upper s)).
Proof.
  induction s as [|c s IH]; [left; reflexivity|].
  cbn [upper spellings]. apply in_flat_map. exists s. split; [exact IH|].
  destruct (upper_ascii_cases c) as [H|H].
  - left. f_equal. symmetry. exact H.
  - right; left. f_equal. symmetry. exact H.
Qed.

Lemma validate_side_refuses (side : string) :
  ~ In side (spellings "BUY") -> ~ In side (spellings "SELL") ->
  validate_side side = Err (Exception ValueError "side must be BUY or SELL").
Proof.
  intros Hb Hs. unfold validate_side.
  destruct (String.eqb (upper side) "BUY") eqn:Eb.
  - apply String.eqb_eq in Eb. exfalso. apply Hb. rewrite <- Eb. apply spellings_upper.
  - destruct (String.eqb (upper side) "SELL") eqn:Es; [|reflexivity].
    apply String.eqb_eq in Es. exfalso. apply Hs. rewrite <- Es. apply spellings_upper.
Qed.

(** X1: [validate_side] accepts BUY and SELL in every spelling of upper
    and lower case letters, the eight of BUY and the sixteen of SELL, and
    returns the word in capitals; every other ASCII string is refused with
    the ValueError.  What it returns it accepts again, unchanged. *)
Theorem validate_side_ignores_case (side : string) :
  (In side (spellings "BUY") -> validate_side side = Ok "BUY") /\
  (In side (spellings "SELL") -> validate_side side = Ok "SELL") /\
  (is_ascii side = true ->
   ~ In side (spellings "BUY") -> ~ In side (spellings "SELL") ->
   validate_side side = Err (Exception ValueError "side must be BUY or SELL")) /\
  (forall s, validate_side side = Ok s -> validate_side s = Ok s).
Proof.
  split; [|split; [|split]].
  - intros H. cbn in H.
    repeat (destruct H as [<-|H]; [reflexivity|]). contradiction.
  - intros H. cbn in H.
    repeat (destruct H as [<-|H]; [reflexivity|]). contradiction.
  - intros _. apply validate_side_refuses.
  - intros s Hs. unfold validate_side in Hs.
    destruct (String.eqb (upper side) "BUY") eqn:Eb.
    + apply String.eqb_eq in Eb. rewrite Eb in Hs. injection Hs as <-. reflexivity.
    + destruct (String.eqb (upper side) "SELL") eqn:Es; [|discriminate].
      apply String.eqb_eq in Es. rewrite Es in Hs. injection Hs as <-. reflexivity.
Qed.

Lemma validate_side_ignores_case_witness :
  validate_side "Sell" = Ok "SELL" /\
  validate_side "HOLD" = Err (Exception ValueError "side must be BUY or SELL").
Proof.
  split.
  - apply (proj1 (proj2 (validate_side_ignores_case "Sell"))).
    vm_compute. repeat (first [left; reflexivity|right]).
  - apply (proj1 (proj2 (proj2 (validate_side_ignores_case "HOLD")))).
    + reflexivity.
    + vm_compute. intros H. repeat (destruct H as [H|H]; [discriminate H|]). exact H.
    + vm_compute. intros H. repeat (destruct H as [H|H]; [discriminate H|]). exact H.
Defined.

(** ** src/utils.py: parse_symbol_filters *)

(** Reading one more filter. *)
Lemma parse_symbol_filters_snoc (l : list Filter) (fil : Filter) :
  parse_symbol_filters (mkSymbolInfo (l ++ [fil]))
  = let f := parse_symbol_filters (mkSymbolInfo l) in
    match fil with
    | PRICE_FILTER t mn mx =>
        mkFilters (or_zero t) (f_stepSize f) (f_minQty f) (f_minNotional f)
                  (Some (or_zero mn)) (Some (or_zero mx))
    | LOT_SIZE st mq =>
        mkFilters (f_tickSize f) (or_zero st) (or_zero mq) (f_minNotional f)
                  (f_minPrice f) (f_maxPrice f)
    | MIN_NOTIONAL n mn =>
        mkFilters (f_tickSize f) (f_stepSize f) (f_minQty f)
                  (match n with Some x => x | None => or_zero mn end)
                  (f_minPrice f) (f_maxPrice f)
    | OTHER_FILTER => f
    end.
Proof.
  unfold parse_symbol_filters. cbn [si_filters]. rewrite fold_left_app. reflexivity.
Qed.

(** Filters of another kind leave the values read from a kind alone. *)
Lemma parse_symbol_filters_keeps (l after : list Filter) :
  let f := parse_symbol_filters (mkSymbolInfo l) in
  let g := parse_symbol_filters (mkSymbolInfo (l ++ after)) in
  (existsb is_price_filter after = false ->
   f_tickSize g = f_tickSize f /\ f_minPrice g = f_minPrice f /\
   f_maxPrice g = f_maxPrice f) /\
  (existsb is_lot_size after = false ->
   f_stepSize g = f_stepSize f /\ f_minQty g = f_minQty f) /\
  (existsb is_min_notional after = false -> f_minNotional g = f_minNotional f).
Proof.
  induction after as [|fil after IH] using rev_ind; cbv zeta.
  - rewrite app_nil_r. repeat split; reflexivity.
  - cbv zeta in IH. destruct IH as (IH1 & IH2 & IH3).
    rewrite app_assoc, parse_symbol_filters_snoc. cbv zeta.
    rewrite !existsb_app. cbn [existsb].
    destruct fil; cbn [is_price_filter is_lot_size is_min_notional f_tickSize f_stepSize
                       f_minQty f_minNotional f_minPrice f_maxPrice];
      rewrite ?orb_false_r, ?orb_true_r;
      (split; [|split]); intros H; try discriminate; auto.
Qed.

(** X2: The last filter of a kind is the one whose values are returned: the
    tick size and the price bounds of the last PRICE_FILTER, the step size
    and the minimum quantity of the last LOT_SIZE, and of the last
    MIN_NOTIONAL its notional, or its minNotional when it has no notional.
    A value the filter lacks is 0. *)
Theorem parse_symbol_filters_last_wins (before after : list Filter) :
  (forall t mn mx, existsb is_price_filter after = false ->
     let f := parse_symbol_filters (mkSymbolInfo (before ++ PRICE_FILTER t mn mx :: after)) in
     f_tickSize f = or_zero t /\ f_minPrice f = Some (or_zero mn) /\
     f_maxPrice f = Some (or_zero mx)) /\
  (forall st mq, existsb is_lot_size after = false ->
     let f := parse_symbol_filters (mkSymbolInfo (before ++ LOT_SIZE st mq :: after)) in
     f_stepSize f = or_zero st /\ f_minQty f = or_zero mq) /\
  (forall n mn, existsb is_min_notional after = false ->
     let f := parse_symbol_filters (mkSymbolInfo (before ++ MIN_NOTIONAL n mn :: after)) in
     f_minNotional f = match n with Some x => x | None => or_zero mn end).
Proof.
  split; [|split].
  - intros t mn mx Ha. cbv zeta.
    change (before ++ PRICE_FILTER t mn mx :: after)
      with (before ++ [PRICE_FILTER t mn mx] ++ after).
    rewrite app_assoc.
    destruct (proj1 (parse_symbol_filters_keeps (before ++ [PRICE_FILTER t mn mx]) after) Ha)
      as (H1 & H2 & H3).
    rewrite H1, H2, H3, parse_symbol_filters_snoc. repeat split; reflexivity.
  - intros st mq Ha. cbv zeta.
    change (before ++ LOT_SIZE st mq :: after) with (before ++ [LOT_SIZE st mq] ++ after).
    rewrite app_assoc.
    destruct (proj1 (proj2 (parse_symbol_filters_keeps (before ++ [LOT_SIZE st mq]) after)) Ha)
      as (H1 & H2).
    rewrite H1, H2, parse_symbol_filters_snoc. split; reflexivity.
  - intros n mn Ha. cbv zeta.
    change (before ++ MIN_NOTIONAL n mn :: after)
      with (before ++ [MIN_NOTIONAL n mn] ++ after).
    rewrite app_assoc.
    rewrite (proj2 (proj2 (parse_symbol_filters_keeps (before ++ [MIN_NOTIONAL n mn]) after)) Ha).
    rewrite parse_symbol_filters_snoc. reflexivity.
Qed.

Lemma parse_symbol_filters_last_wins_witness :
  f_tickSize (parse_symbol_filters btcusdt) = mkDec 10 (-2) /\
  f_minPrice (parse_symbol_filters btcusdt) = Some (mkDec 55660 (-2)) /\
  f_maxPrice (parse_symbol_filters btcusdt) = Some (mkDec 4529764 0).
Proof.
  apply (proj1 (parse_symbol_filters_last_wins []
                  [LOT_SIZE (Some (mkDec 1 (-3))) (Some (mkDec 1 (-3)));
                   MIN_NOTIONAL (Some (mkDec 100 0)) None])
           (Some (mkDec 10 (-2))) (Some (mkDec 55660 (-2))) (Some (mkDec 4529764 0))).
  reflexivity.
Defined.

(** X3: A symbol without a filter of a kind gets the defaults of that kind: a
    tick size of 0 and no price bounds, a step size and a minimum quantity
    of 0, a minimum notional of 0. *)
Theorem parse_symbol_filters_defaults (l : list Filter) :
  let f := parse_symbol_filters (mkSymbolInfo l) in
  (existsb is_price_filter l = false ->
   f_tickSize f = dec_zero /\ f_minPrice f = None /\ f_maxPrice f = None) /\
  (existsb is_lot_size l = false -> f_stepSize f = dec_zero /\ f_minQty f = dec_zero) /\
  (existsb is_min_notional l = false -> f_minNotional f = dec_zero).
Proof.
  exact (parse_symbol_filters_keeps [] l).
Qed.

Lemma parse_symbol_filters_defaults_witness :
  f_tickSize (parse_symbol_filters (mkSymbolInfo [LOT_SIZE (Some (mkDec 1 (-3))) None]))
  = dec_zero /\
  f_minPrice (parse_symbol_filters (mkSymbolInfo [LOT_SIZE (Some (mkDec 1 (-3))) None]))
  = None /\
  f_maxPrice (parse_symbol_filters (mkSymbolInfo [LOT_SIZE (Some (mkDec 1 (-3))) None]))
  = None.
Proof.
  apply (proj1 (parse_symbol_filters_defaults [LOT_SIZE (Some (mkDec 1 (-3))) None])).
  reflexivity.
Defined.

(** ** src/utils.py: rounding twice, rounding small values *)

(** X4: Rounding a rounded price again changes nothing, where the product of
    the quotient and the tick fits the context. *)
Theorem round_price_to_tick_idempotent (p tick r : Decimal) :
  0 < coef p -> 0 < coef tick -> Etiny <= expo tick <= Etop ->
  int_quotient p tick * coef tick < 10 ^ prec ->
  round_price_to_tick p tick = Ok r ->
  round_price_to_tick r tick = Ok r.
Proof.
  intros Hp Ht He Hfit Hr.
  set (m := Z.min (expo p) (expo tick)).
  assert (HP : 0 < scaled p m) by (apply scaled_pos; lia).
  assert (HT : 0 < scaled tick m) by (apply scaled_pos; lia).
  assert (Hq0 : 0 <= int_quotient p tick).
  { unfold int_quotient. fold m. rewrite Z.quot_div_nonneg by lia. apply Z.div_pos; lia. }
  set (q := int_quotient p tick) in *.
  assert (Hq28 : Z.abs q < 10 ^ prec) by nia.
  assert (Hround : forall a, int_quotient a tick = q ->
            round_price_to_tick a tick = Ok (mkDec (q * coef tick) (expo tick))).
  { intros a Ha. unfold round_price_to_tick, dec_is_zero, dec_floordiv.
    replace (coef tick =? 0) with false by (symmetry; apply Z.eqb_neq; lia).
    rewrite Ha.
    replace (Z.abs q <? 10 ^ prec) with true by (symmetry; apply Z.ltb_lt; exact Hq28).
    unfold dec_mul. simpl. apply fix_context_exact; simpl; [|lia].
    rewrite Z.abs_eq by nia. exact Hfit. }
  rewrite (Hround p eq_refl) in Hr. injection Hr as <-.
  apply Hround. unfold int_quotient, scaled. cbn [coef expo].
  rewrite Z.min_id, Z.sub_diag. change (10 ^ 0) with 1. rewrite !Z.mul_1_r.
  apply Z.quot_mul. lia.
Qed.

Lemma round_price_to_tick_idempotent_witness :
  round_price_to_tick (mkDec 6500050 (-2)) (mkDec 10 (-2)) = Ok (mkDec 6500050 (-2)).
Proof.
  apply (round_price_to_tick_idempotent (mkDec 650005 (-1)) (mkDec 10 (-2))).
  - simpl; lia.
  - simpl; lia.
  - vm_compute. split; discriminate.
  - vm_compute. reflexivity.
  - vm_compute. reflexivity.
Defined.

(** X5: Values below one unit round to zero: a positive price below the tick
    becomes 0, and so does a positive quantity below one unit of the last
    decimal place of the step. *)
Theorem rounding_small_values_to_zero (v unit : Decimal) :
  0 < coef v -> 0 < coef unit ->
  (Etiny <= expo unit <= Emax -> dec_lt v unit ->
   round_price_to_tick v unit = Ok (mkDec 0 (expo unit))) /\
  (Etiny <= expo unit <= Emax -> dec_lt v (mkDec 1 (expo unit)) ->
   round_down_qty v unit = Ok (mkDec 0 (expo unit))).
Proof.
  intros Hv Hu. split.
  - intros He Hlt. apply dec_ltb_scaled in Hlt.
    set (m := Z.min (expo v) (expo unit)) in *.
    assert (HV : 0 < scaled v m) by (apply scaled_pos; lia).
    unfold round_price_to_tick, dec_is_zero, dec_floordiv.
    replace (coef unit =? 0) with false by (symmetry; apply Z.eqb_neq; lia).
    unfold int_quotient. fold m. rewrite Z.quot_small by lia.
    change (Z.abs 0 <? 10 ^ prec) with true. cbv iota.
    unfold dec_mul, fix_context. cbn [coef expo]. rewrite Z.mul_0_l.
    change (0 =? 0) with true. cbv iota.
    rewrite Z.max_l, Z.min_l by lia. reflexivity.
  - intros He Hlt. apply dec_ltb_scaled in Hlt. unfold scaled in Hlt. cbn [coef expo] in Hlt.
    assert (Hexp : expo v < expo unit).
    { destruct (Z_lt_le_dec (expo v) (expo unit)) as [H|H]; [assumption|].
      rewrite Z.min_r in Hlt by lia. rewrite Z.sub_diag in Hlt.
      assert (0 < 10 ^ (expo v - expo unit)) by (apply pow10_pos; lia). nia. }
    rewrite Z.min_l in Hlt by lia. rewrite Z.sub_diag in Hlt.
    change (10 ^ 0) with 1 in Hlt.
    assert (Hd : ndigits (coef v) <= expo unit - expo v).
    { apply ndigits_le; [lia|]. rewrite Z.abs_eq by lia. lia. }
    unfold round_down_qty, dec_is_zero, quantize_down.
    replace (coef unit =? 0) with false by (symmetry; apply Z.eqb_neq; lia).
    replace (negb ((Etiny <=? expo unit) && (expo unit <=? Emax))) with false
      by (symmetry; apply negb_false_iff, andb_true_iff; split; apply Z.leb_le; lia).
    replace (coef v =? 0) with false by (symmetry; apply Z.eqb_neq; lia).
    unfold adjusted.
    replace (Emax <? expo v + ndigits (coef v) - 1) with false
      by (symmetry; apply Z.ltb_ge; lia).
    replace (prec <? expo v + ndigits (coef v) - 1 - expo unit + 1) with false
      by (symmetry; apply Z.ltb_ge; unfold prec; lia).
    unfold rescale_down.
    replace (expo unit <=? expo v) with false by (symmetry; apply Z.leb_gt; lia).
    rewrite Z.quot_small by lia. reflexivity.
Qed.

Lemma rounding_small_values_to_zero_witness :
  round_price_to_tick (mkDec 5 (-2)) (mkDec 10 (-2)) = Ok (mkDec 0 (-2)).
Proof.
  apply (proj1 (rounding_small_values_to_zero (mkDec 5 (-2)) (mkDec 10 (-2))
                  ltac:(simpl; lia) ltac:(simpl; lia))).
  - vm_compute. split; discriminate.
  - vm_compute. reflexivity.
Defined.

(** ** src/utils.py: rounding keeps the order *)

(** The coefficient at a lower exponent. *)
Lemma scaled_lower (d : Decimal) (m M : Z) :
  M <= m -> m <= expo d -> scaled d M = scaled d m * 10 ^ (m - M).
Proof.
  intros H1 H2. unfold scaled. rewrite <- Z.mul_assoc, <- Z.pow_add_r by lia.
  f_equal. f_equal. lia.
Qed.

(** Comparison may be made at any common lower exponent. *)
Lemma dec_le_at (a b : Decimal) (M : Z) :
  M <= expo a -> M <= expo b -> (dec_le a b <-> scaled a M <= scaled b M).
Proof.
  intros Ha Hb. unfold dec_le. rewrite dec_leb_scaled.
  set (m := Z.min (expo a) (expo b)).
  rewrite (scaled_lower a m M), (scaled_lower b m M) by lia.
  assert (0 < 10 ^ (m - M)) by (apply pow10_pos; lia). nia.
Qed.

Lemma int_quotient_at (p tick : Decimal) (M : Z) :
  0 < coef p -> 0 < coef tick -> M <= expo p -> M <= expo tick ->
  int_quotient p tick = scaled p M / scaled tick M.
Proof.
  intros Hp Ht H1 H2. unfold int_quotient.
  set (m := Z.min (expo p) (expo tick)).
  assert (HP : 0 < scaled p m) by (apply scaled_pos; lia).
  assert (HT : 0 < scaled tick m) by (apply scaled_pos; lia).
  rewrite Z.quot_div_nonneg by lia.
  rewrite (scaled_lower p m M), (scaled_lower tick m M) by lia.
  assert (0 < 10 ^ (m - M)) by (apply pow10_pos; lia).
  rewrite Z.div_mul_cancel_r by lia. reflexivity.
Qed.

Lemma rescale_down_at (q : Decimal) (e M : Z) :
  0 < coef q -> M <= expo q -> M <= e ->
  coef (rescale_down q e) = scaled q M / 10 ^ (e - M).
Proof.
  intros Hq H1 H2. unfold rescale_down, scaled.
  destruct (e <=? expo q) eqn:E; cbn [coef].
  - apply Z.leb_le in E.
    replace (expo q - M) with ((expo q - e) + (e - M)) by lia.
    rewrite Z.pow_add_r by lia.
    assert (0 < 10 ^ (e - M)) by (apply pow10_pos; lia).
    rewrite Z.mul_assoc, Z.div_mul by lia. reflexivity.
  - apply Z.leb_gt in E.
    assert (0 < 10 ^ (e - expo q)) by (apply pow10_pos; lia).
    assert (0 < 10 ^ (expo q - M)) by (apply pow10_pos; lia).
    rewrite Z.quot_div_nonneg by lia.
    replace (e - M) with ((e - expo q) + (expo q - M)) by lia.
    rewrite Z.pow_add_r by lia.
    rewrite Z.div_mul_cancel_r by lia. reflexivity.
Qed.

(** X6: Both roundings keep the order of the values they round: of two positive
    prices the lower one is rounded to the lower or the same price, and
    likewise for quantities. *)
Theorem rounding_is_monotone (v1 v2 unit r1 r2 : Decimal) :
  0 < coef v1 -> 0 < coef v2 -> 0 < coef unit -> dec_le v1 v2 ->
  (Etiny <= expo unit <= Etop ->
   int_quotient v2 unit * coef unit < 10 ^ prec ->
   round_price_to_tick v1 unit = Ok r1 -> round_price_to_tick v2 unit = Ok r2 ->
   dec_le r1 r2) /\
  (round_down_qty v1 unit = Ok r1 -> round_down_qty v2 unit = Ok r2 -> dec_le r1 r2).
Proof.
  intros H1 H2 Hu Hle.
  set (M := Z.min (Z.min (expo v1) (expo v2)) (expo unit)).
  assert (HS : scaled v1 M <= scaled v2 M).
  { apply (dec_le_at v1 v2 M); [unfold M; lia|unfold M; lia|exact Hle]. }
  assert (HP1 : 0 < scaled v1 M) by (apply scaled_pos; unfold M; lia).
  split.
  - intros He Hfit Hr1 Hr2.
    assert (HT : 0 < scaled unit M) by (apply scaled_pos; unfold M; lia).
    assert (Hq1 : int_quotient v1 unit = scaled v1 M / scaled unit M)
      by (apply int_quotient_at; unfold M; lia).
    assert (Hq2 : int_quotient v2 unit = scaled v2 M / scaled unit M)
      by (apply int_quotient_at; unfold M; lia).
    assert (Hq : 0 <= int_quotient v1 unit <= int_quotient v2 unit).
    { rewrite Hq1, Hq2. split; [apply Z.div_pos; lia|apply Z.div_le_mono; lia]. }
    assert (Hround : forall v, 0 <= int_quotient v unit <= int_quotient v2 unit ->
              round_price_to_tick v unit
              = Ok (mkDec (int_quotient v unit * coef unit) (expo unit))).
    { intros v Hv.
      assert (Hb : int_quotient v unit * coef unit < 10 ^ prec).
      { apply Z.le_lt_trans with (int_quotient v2 unit * coef unit); [|exact Hfit].
        apply Z.mul_le_mono_nonneg_r; lia. }
      unfold round_price_to_tick, dec_is_zero, dec_floordiv.
      replace (coef unit =? 0) with false by (symmetry; apply Z.eqb_neq; lia).
      replace (Z.abs (int_quotient v unit) <? 10 ^ prec) with true
        by (symmetry; apply Z.ltb_lt; rewrite Z.abs_eq by lia; nia).
      unfold dec_mul. simpl. apply fix_context_exact; simpl; [|lia].
      rewrite Z.abs_eq by nia. exact Hb. }
    rewrite (Hround v1 Hq) in Hr1. rewrite (Hround v2 ltac:(lia)) in Hr2.
    injection Hr1 as <-. injection Hr2 as <-.
    apply dec_leb_scaled. cbn [expo]. rewrite Z.min_id. unfold scaled. cbn [coef expo].
    rewrite Z.sub_diag. change (10 ^ 0) with 1. nia.
  - unfold round_down_qty, dec_is_zero.
    replace (coef unit =? 0) with false by (symmetry; apply Z.eqb_neq; lia).
    unfold quantize_down.
    replace (coef v1 =? 0) with false by (symmetry; apply Z.eqb_neq; lia).
    replace (coef v2 =? 0) with false by (symmetry; apply Z.eqb_neq; lia).
    destruct (negb ((Etiny <=? expo unit) && (expo unit <=? Emax))); [discriminate|].
    destruct (Emax <? adjusted v1); [discriminate|].
    destruct (prec <? adjusted v1 - expo unit + 1); [discriminate|].
    destruct (Emax <? adjusted v2); [discriminate|].
    destruct (prec <? adjusted v2 - expo unit + 1); [discriminate|].
    intros Hr1 Hr2. injection Hr1 as <-. injection Hr2 as <-.
    apply dec_leb_scaled. rewrite !rescale_down_expo, Z.min_id.
    unfold scaled. rewrite !rescale_down_expo, Z.sub_diag. change (10 ^ 0) with 1.
    rewrite !Z.mul_1_r.
    rewrite (rescale_down_at v1 (expo unit) M), (rescale_down_at v2 (expo unit) M)
      by (unfold M; lia).
    apply Z.div_le_mono; [apply pow10_pos; unfold M; lia|exact HS].
Qed.

Lemma rounding_is_monotone_witness :
  dec_le (mkDec 5500000 (-2)) (mkDec 6500050 (-2)).
Proof.
  apply (proj1 (rounding_is_monotone (mkDec 55000 0) (mkDec 650005 (-1)) (mkDec 10 (-2))
                  (mkDec 5500000 (-2)) (mkDec 6500050 (-2))
                  ltac:(simpl; lia) ltac:(simpl; lia) ltac:(simpl; lia)
                  ltac:(vm_compute; reflexivity))).
  - vm_compute. split; discriminate.
  - vm_compute. reflexivity.
  - vm_compute. reflexivity.
  - vm_compute. reflexivity.
Defined.

(** ** Rounding to nearest *)

(** Rounding half to even moves a coefficient by half a unit of the kept
    last place at most. *)
Lemma round_half_even_error (c k : Z) :
  0 <= k -> 2 * Z.abs (c - round_half_even c k * 10 ^ k) <= 10 ^ k.
Proof.
  intros Hk. unfold round_half_even.
  assert (Hp : 0 < 10 ^ k) by (apply pow10_pos; lia).
  set (p := 10 ^ k) in *.
  pose proof (Z.div_mod (Z.abs c) p ltac:(lia)) as Hdm.
  pose proof (Z.mod_pos_bound (Z.abs c) p Hp) as Hr.
  set (q := Z.abs c / p) in *. set (r := Z.abs c mod p) in *.
  assert (Hq : 0 <= q) by (apply Z.div_pos; lia).
  destruct ((p <? 2 * r) || ((2 * r =? p) && Z.odd q)) eqn:Eup.
  - assert (Hup : p <= 2 * r).
    { apply orb_true_iff in Eup. destruct Eup as [E|E].
      - apply Z.ltb_lt in E. lia.
      - apply andb_true_iff in E. destruct E as [E _]. apply Z.eqb_eq in E. lia. }
    destruct (Z.abs_spec c) as [[Hc Ha]|[Hc Ha]];
      destruct (Z.sgn_spec c) as [[? Hs]|[[? Hs]|[? Hs]]]; try lia; rewrite Hs; nia.
  - assert (Hdown : 2 * r <= p).
    { apply orb_false_iff in Eup. destruct Eup as [E _]. apply Z.ltb_ge in E. lia. }
    destruct (Z.abs_spec c) as [[Hc Ha]|[Hc Ha]];
      destruct (Z.sgn_spec c) as [[? Hs]|[[? Hs]|[? Hs]]]; try lia; rewrite Hs; nia.
Qed.

Lemma round_half_even_zero_digits (c : Z) : round_half_even c 0 = c.
Proof.
  unfold round_half_even. change (10 ^ 0) with 1.
  rewrite Z.div_1_r, Z.mod_1_r. cbn [Z.mul Z.ltb Z.compare orb Z.eqb andb].
  destruct (Z.abs_spec c) as [[Hc Ha]|[Hc Ha]];
    destruct (Z.sgn_spec c) as [[? Hs]|[[? Hs]|[? Hs]]]; try lia; rewrite Hs; lia.
Qed.

Lemma round_half_even_bound (c k n : Z) :
  0 <= k -> 0 <= n -> Z.abs c < 10 ^ (n + k) -> Z.abs (round_half_even c k) <= 10 ^ n.
Proof.
  intros Hk Hn Hc. unfold round_half_even.
  assert (Hp : 0 < 10 ^ k) by (apply pow10_pos; lia).
  assert (Hq : 0 <= Z.abs c / 10 ^ k < 10 ^ n).
  { split; [apply Z.div_pos; lia|].
    apply Z.div_lt_upper_bound; [lia|]. rewrite <- Z.pow_add_r by lia.
    replace (k + n) with (n + k) by lia. exact Hc. }
  destruct ((10 ^ k <? 2 * (Z.abs c mod 10 ^ k))
            || ((2 * (Z.abs c mod 10 ^ k) =? 10 ^ k) && Z.odd (Z.abs c / 10 ^ k)));
    destruct (Z.sgn_spec c) as [[? Hs]|[[? Hs]|[? Hs]]]; rewrite Hs; lia.
Qed.

(** What [_fix] does to a coefficient that is not zero: it drops [k]
    digits, rounding half to even. *)
Lemma fix_context_rounds (x d : Decimal) :
  coef x <> 0 -> fix_context x = Ok d ->
  exists k, 0 <= k /\ (prec < ndigits (coef x) -> 1 <= k) /\
            expo x + k <= expo d /\
            coef d * 10 ^ (expo d - expo x) = round_half_even (coef x) k * 10 ^ k.
Proof.
  intros Hx. unfold fix_context.
  replace (coef x =? 0) with false by (symmetry; apply Z.eqb_neq; assumption).
  destruct (Etop <? ndigits (coef x) + expo x - prec); [discriminate|].
  set (exp_min := Z.max (ndigits (coef x) + expo x - prec) Etiny).
  destruct (expo x <? exp_min) eqn:E.
  - apply Z.ltb_lt in E.
    set (k := exp_min - expo x).
    set (r := round_half_even (coef x) k).
    assert (Hr : Z.abs r <= 10 ^ prec).
    { apply round_half_even_bound; [lia|unfold prec; lia|].
      eapply Z.lt_le_trans; [apply (ndigits_bound (coef x) (ndigits (coef x))); lia|].
      apply Z.pow_le_mono_r; [lia|]. unfold k, exp_min. lia. }
    destruct (prec <? ndigits r) eqn:Ec.
    + apply Z.ltb_lt in Ec.
      destruct (Etop <? exp_min + 1); [discriminate|].
      intros H. injection H as <-. cbn [coef expo].
      exists k. split; [lia|]. split; [lia|]. split; [lia|].
      assert (Hge : 10 ^ prec <= Z.abs r).
      { destruct (Z_lt_le_dec (Z.abs r) (10 ^ prec)) as [Hlt|Hge]; [|assumption].
        assert (r <> 0).
        { intros ->. cbn in Ec. unfold prec in Ec. lia. }
        pose proof (ndigits_le r prec ltac:(assumption) Hlt). lia. }
      assert (Hr10 : Z.quot r 10 * 10 = r).
      { assert (Hcase : r = 10 ^ prec \/ r = - 10 ^ prec) by lia.
        destruct Hcase as [->| ->]; vm_compute; reflexivity. }
      replace (exp_min + 1 - expo x) with (k + 1) by (unfold k; lia).
      rewrite pow10_succ by lia.
      transitivity ((Z.quot r 10 * 10) * 10 ^ k); [ring|rewrite Hr10; reflexivity].
    + destruct (Etop <? exp_min); [discriminate|].
      intros H. injection H as <-. cbn [coef expo].
      exists k. split; [lia|]. split; [lia|]. split; [unfold k; lia|].
      replace (exp_min - expo x) with k by reflexivity. reflexivity.
  - apply Z.ltb_ge in E. intros H. injection H as <-.
    exists 0. split; [lia|]. split.
    + intros Hn. unfold exp_min in E. lia.
    + split; [lia|]. rewrite Z.sub_diag, round_half_even_zero_digits. reflexivity.
Qed.

(** The sticky digit.  When the quotient is not exact and its last digit is
    0 or 5, one is added before rounding, so that dropping one digit or
    more rounds the true quotient to nearest. *)
Lemma sticky_rounding (num den k : Z) :
  0 < den -> 0 <= num -> num mod den <> 0 -> 1 <= k ->
  let coeff := num / den in
  let c' := if coeff mod 5 =? 0 then coeff + 1 else coeff in
  0 < c' /\ 2 * Z.abs (num - round_half_even c' k * 10 ^ k * den) <= 10 ^ k * den.
Proof.
  intros Hden Hnum Hrem Hk. cbv zeta.
  pose proof (Z.div_mod num den ltac:(lia)) as Hdm.
  pose proof (Z.mod_pos_bound num den Hden) as Hr.
  assert (Hc0 : 0 <= num / den) by (apply Z.div_pos; lia).
  set (coeff := num / den) in *. set (rem := num mod den) in *.
  set (c' := if coeff mod 5 =? 0 then coeff + 1 else coeff).
  assert (Hc' : exists delta, (delta = 0 \/ delta = 1) /\ c' = coeff + delta /\
                              c' mod 5 <> 0).
  { unfold c'. destruct (coeff mod 5 =? 0) eqn:E5.
    - apply Z.eqb_eq in E5. exists 1. split; [right; reflexivity|]. split; [reflexivity|].
      rewrite Z.add_mod, E5 by lia. cbn. discriminate.
    - apply Z.eqb_neq in E5. exists 0. split; [left; reflexivity|].
      split; [lia|exact E5]. }
  destruct Hc' as (delta & Hdelta & Hcd & H5).
  assert (Hpos : 0 < c').
  { destruct (Z.eq_dec c' 0) as [E|E]; [rewrite E in H5; cbn in H5; congruence|lia]. }
  split; [exact Hpos|].
  assert (HP0 : 0 < 10 ^ (k - 1)) by (apply pow10_pos; lia).
  assert (HP : 10 ^ k = 10 * 10 ^ (k - 1)).
  { replace k with (k - 1 + 1) at 1 by lia. apply pow10_succ. lia. }
  unfold round_half_even. rewrite (Z.abs_eq c') by lia.
  rewrite (Z.sgn_pos c') by lia. rewrite Z.mul_1_l.
  set (P0 := 10 ^ (k - 1)) in *. rewrite HP.
  pose proof (Z.div_mod c' (10 * P0) ltac:(lia)) as Hdm'.
  pose proof (Z.mod_pos_bound c' (10 * P0) ltac:(lia)) as Hr'.
  set (q' := c' / (10 * P0)) in *. set (r' := c' mod (10 * P0)) in *.
  assert (Hr5 : r' mod 5 <> 0).
  { replace r' with (c' + (- (2 * P0 * q')) * 5) by lia.
    rewrite Z_mod_plus_full. exact H5. }
  assert (Hne : 2 * r' <> 10 * P0).
  { intros E. apply Hr5. replace r' with (P0 * 5) by lia. apply Z_mod_mult. }
  assert (Hr1 : 1 <= r').
  { destruct (Z.eq_dec r' 0) as [E|E]; [rewrite E in Hr5; cbn in Hr5; congruence|lia]. }
  replace (2 * r' =? 10 * P0) with false by (symmetry; apply Z.eqb_neq; exact Hne).
  cbn [andb]. rewrite orb_false_r.
  assert (Hnum' : num = den * (10 * P0 * q' + r' - delta) + rem) by (rewrite <- Hdm'; lia).
  destruct (10 * P0 <? 2 * r') eqn:Eup.
  - apply Z.ltb_lt in Eup.
    assert (Hv : num - (q' + 1) * (10 * P0) * den = - (den * (10 * P0 - r' + delta) - rem))
      by (rewrite Hnum'; ring).
    rewrite Hv, Z.abs_opp.
    assert (H1 : 0 <= den * (10 * P0 - r' + delta) - rem) by nia.
    rewrite Z.abs_eq by exact H1.
    assert (H2 : den * (2 * (10 * P0 - r' + delta)) <= den * (10 * P0))
      by (apply Z.mul_le_mono_nonneg_l; lia).
    lia.
  - apply Z.ltb_ge in Eup.
    assert (Hv : num - q' * (10 * P0) * den = den * (r' - delta) + rem)
      by (rewrite Hnum'; ring).
    rewrite Hv.
    assert (H1 : 0 <= den * (r' - delta)) by (apply Z.mul_nonneg_nonneg; lia).
    rewrite Z.abs_eq by lia.
    assert (H2 : den * (2 * (r' - delta)) <= den * (10 * P0 - 2))
      by (apply Z.mul_le_mono_nonneg_l; lia).
    lia.
Qed.

Lemma round_half_even_sign (s c k : Z) :
  s = 1 \/ s = -1 -> round_half_even (s * c) k = s * round_half_even c k.
Proof.
  intros Hs. unfold round_half_even.
  assert (Ha : Z.abs (s * c) = Z.abs c) by (destruct Hs as [-> | ->]; lia).
  assert (Hg : Z.sgn (s * c) = s * Z.sgn c).
  { rewrite Z.sgn_mul. destruct Hs as [-> | ->]; reflexivity. }
  rewrite Ha, Hg. ring.
Qed.

Lemma strip_exact_value (fuel : nat) (ideal_exp : Z) :
  forall coeff exp,
    exp <= snd (strip_exact fuel coeff exp ideal_exp) /\
    fst (strip_exact fuel coeff exp ideal_exp)
    * 10 ^ (snd (strip_exact fuel coeff exp ideal_exp) - exp) = coeff.
Proof.
  induction fuel as [|fuel IH]; intros coeff exp; cbn [strip_exact].
  - cbn [fst snd]. rewrite Z.sub_diag. change (10 ^ 0) with 1. lia.
  - destruct ((exp <? ideal_exp) && (coeff mod 10 =? 0)) eqn:E.
    + apply andb_true_iff in E. destruct E as [_ E]. apply Z.eqb_eq in E.
      destruct (IH (coeff / 10) (exp + 1)) as [H1 H2].
      set (ce := strip_exact fuel (coeff / 10) (exp + 1) ideal_exp) in *.
      split; [lia|].
      replace (snd ce - exp) with (snd ce - (exp + 1) + 1) by lia.
      rewrite pow10_succ by lia.
      pose proof (Z.div_mod coeff 10 ltac:(lia)) as Hdm.
      rewrite Z.mul_assoc, (Z.mul_comm (fst ce) 10), <- Z.mul_assoc, H2. lia.
    + cbn [fst snd]. rewrite Z.sub_diag. change (10 ^ 0) with 1. lia.
Qed.

(** The quotient carries more digits than the context keeps. *)
Lemma quotient_digits (A B : Z) :
  0 < A -> 0 < B ->
  let shift := ndigits B - ndigits A + prec + 1 in
  let num := if 0 <=? shift then A * 10 ^ shift else A in
  let den := if 0 <=? shift then B else B * 10 ^ (- shift) in
  0 < den /\ 0 < num /\ 10 ^ prec <= num / den.
Proof.
  intros HA HB. cbv zeta.
  destruct (ndigits_spec A ltac:(lia)) as [HA1 [HAlo HAhi]].
  destruct (ndigits_spec B ltac:(lia)) as [HB1 [HBlo HBhi]].
  rewrite Z.abs_eq in HAlo, HAhi, HBlo, HBhi by lia.
  set (shift := ndigits B - ndigits A + prec + 1).
  assert (Hprec : 0 <= prec) by (unfold prec; lia).
  assert (H28 : 0 < 10 ^ prec) by (apply pow10_pos; lia).
  destruct (0 <=? shift) eqn:E.
  - apply Z.leb_le in E.
    assert (Hs : 0 < 10 ^ shift) by (apply pow10_pos; lia).
    split; [lia|]. split; [nia|].
    apply Z.div_le_lower_bound; [lia|].
    assert (H1 : B * 10 ^ prec <= 10 ^ ndigits B * 10 ^ prec) by nia.
    assert (H2 : 10 ^ (ndigits A - 1) * 10 ^ shift <= A * 10 ^ shift) by nia.
    assert (H3 : 10 ^ ndigits B * 10 ^ prec = 10 ^ (ndigits A - 1) * 10 ^ shift).
    { rewrite <- !Z.pow_add_r by lia. f_equal. unfold shift. lia. }
    lia.
  - apply Z.leb_gt in E.
    assert (Hs : 0 < 10 ^ (- shift)) by (apply pow10_pos; lia).
    split; [nia|]. split; [lia|].
    apply Z.div_le_lower_bound; [nia|].
    assert (H1 : B * 10 ^ (- shift) * 10 ^ prec
                 <= 10 ^ ndigits B * 10 ^ (- shift) * 10 ^ prec) by nia.
    assert (H3 : 10 ^ ndigits B * 10 ^ (- shift) * 10 ^ prec = 10 ^ (ndigits A - 1)).
    { rewrite <- !Z.pow_add_r by lia. f_equal. unfold shift. lia. }
    lia.
Qed.

Lemma ndigits_abs (n : Z) : ndigits (Z.abs n) = ndigits n.
Proof. unfold ndigits. rewrite Z.abs_idemp. reflexivity. Qed.

(** The quotient of the context against the true quotient, both counted in
    units of the last place of the long quotient. *)
Lemma dec_div_core (a b d : Decimal) :
  coef a <> 0 -> coef b <> 0 -> dec_div a b = Ok d ->
  let shift := ndigits (coef b) - ndigits (coef a) + prec + 1 in
  let exp := expo a - expo b - shift in
  let num := if 0 <=? shift then Z.abs (coef a) * 10 ^ shift else Z.abs (coef a) in
  let den := if 0 <=? shift then Z.abs (coef b) else Z.abs (coef b) * 10 ^ (- shift) in
  let sign := Z.sgn (coef a) * Z.sgn (coef b) in
  exp <= expo d /\
  2 * Z.abs (sign * num - coef d * 10 ^ (expo d - exp) * den) <= 10 ^ (expo d - exp) * den.
Proof.
  intros Ha Hb. unfold dec_div.
  replace (coef b =? 0) with false by (symmetry; apply Z.eqb_neq; assumption).
  replace (coef a =? 0) with false by (symmetry; apply Z.eqb_neq; assumption).
  cbv zeta.
  destruct (quotient_digits (Z.abs (coef a)) (Z.abs (coef b)) ltac:(lia) ltac:(lia))
    as (Hden & Hnum & Hdig).
  cbv zeta in Hden, Hnum, Hdig.
  rewrite !ndigits_abs in Hden, Hnum, Hdig.
  set (shift := ndigits (coef b) - ndigits (coef a) + prec + 1) in *.
  set (exp := expo a - expo b - shift).
  set (num := if 0 <=? shift then Z.abs (coef a) * 10 ^ shift else Z.abs (coef a)) in *.
  set (den := if 0 <=? shift then Z.abs (coef b) else Z.abs (coef b) * 10 ^ (- shift)) in *.
  set (sign := Z.sgn (coef a) * Z.sgn (coef b)).
  assert (Hsign : sign = 1 \/ sign = -1).
  { unfold sign.
    destruct (Z.sgn_spec (coef a)) as [[? ->]|[[? ->]|[? ->]]];
      destruct (Z.sgn_spec (coef b)) as [[? ->]|[[? ->]|[? ->]]]; lia. }
  assert (H28 : 0 < 10 ^ prec) by (apply pow10_pos; unfold prec; lia).
  destruct (negb (num mod den =? 0)) eqn:Erem.
  - (* the quotient is not exact *)
    apply negb_true_iff, Z.eqb_neq in Erem.
    set (c' := if num / den mod 5 =? 0 then num / den + 1 else num / den).
    intros Hfix.
    assert (Hc'ge : num / den <= c') by (unfold c'; destruct (num / den mod 5 =? 0); lia).
    assert (Hnz : coef (mkDec (sign * c') exp) <> 0) by (cbn [coef]; nia).
    destruct (fix_context_rounds _ _ Hnz Hfix) as (k & Hk0 & Hk1 & Hke & Hval).
    cbn [coef expo] in Hk1, Hke, Hval.
    assert (Hk : 1 <= k).
    { apply Hk1.
      destruct (Z_lt_le_dec prec (ndigits (sign * c'))) as [H|H]; [exact H|].
      pose proof (ndigits_bound _ _ H) as Hb'.
      assert (Z.abs (sign * c') = c') by (destruct Hsign as [-> | ->]; lia). lia. }
    destruct (sticky_rounding num den k Hden ltac:(lia) Erem Hk) as [Hpos Hst].
    cbv zeta in Hst. fold c' in Hst, Hpos.
    split; [lia|].
    rewrite Hval, round_half_even_sign by exact Hsign.
    replace (sign * num - sign * round_half_even c' k * 10 ^ k * den)
      with (sign * (num - round_half_even c' k * 10 ^ k * den)) by ring.
    rewrite Z.abs_mul.
    replace (Z.abs sign) with 1 by (destruct Hsign as [-> | ->]; reflexivity).
    rewrite Z.mul_1_l.
    assert (Hmono : 10 ^ k <= 10 ^ (expo d - exp)) by (apply Z.pow_le_mono_r; lia).
    nia.
  - (* the quotient is exact *)
    apply negb_false_iff, Z.eqb_eq in Erem.
    destruct (strip_exact_value (Z.to_nat shift) (expo a - expo b) (num / den) exp)
      as [Hse Hsv].
    set (ce := strip_exact (Z.to_nat shift) (num / den) exp (expo a - expo b)) in *.
    intros Hfix.
    assert (Hquot : num = den * (num / den)).
    { pose proof (Z.div_mod num den ltac:(lia)). lia. }
    assert (Hcenz : fst ce <> 0).
    { intros E. rewrite E in Hsv. lia. }
    assert (Hnz : coef (mkDec (sign * fst ce) (snd ce)) <> 0) by (cbn [coef]; nia).
    destruct (fix_context_rounds _ _ Hnz Hfix) as (k & Hk0 & _ & Hke & Hval).
    cbn [coef expo] in Hke, Hval.
    split; [lia|].
    assert (Hd : coef d * 10 ^ (expo d - exp)
                 = round_half_even (sign * fst ce) k * 10 ^ k * 10 ^ (snd ce - exp)).
    { rewrite <- Hval.
      replace (expo d - exp) with ((expo d - snd ce) + (snd ce - exp)) by lia.
      rewrite Z.pow_add_r by lia. ring. }
    rewrite Hd.
    pose proof (round_half_even_error (sign * fst ce) k Hk0) as Herr.
    assert (Hs : 0 < 10 ^ (snd ce - exp)) by (apply pow10_pos; lia).
    assert (Hnum' : sign * num = den * 10 ^ (snd ce - exp) * (sign * fst ce)).
    { rewrite Hquot at 1. rewrite <- Hsv. ring. }
    rewrite Hnum'.
    replace (den * 10 ^ (snd ce - exp) * (sign * fst ce)
             - round_half_even (sign * fst ce) k * 10 ^ k * 10 ^ (snd ce - exp) * den)
      with (den * 10 ^ (snd ce - exp)
            * (sign * fst ce - round_half_even (sign * fst ce) k * 10 ^ k)) by ring.
    rewrite Z.abs_mul, (Z.abs_eq (den * 10 ^ (snd ce - exp))) by nia.
    assert (Hmono : 10 ^ (snd ce - exp) * 10 ^ k <= 10 ^ (expo d - exp)).
    { rewrite <- Z.pow_add_r by lia. apply Z.pow_le_mono_r; lia. }
    set (E := Z.abs (sign * fst ce - round_half_even (sign * fst ce) k * 10 ^ k)) in *.
    assert (0 <= E) by (unfold E; lia).
    assert (Hb1 : den * 10 ^ (snd ce - exp) * (2 * E)
                  <= den * 10 ^ (snd ce - exp) * 10 ^ k)
      by (apply Z.mul_le_mono_nonneg_l; nia).
    assert (Hb2 : den * (10 ^ (snd ce - exp) * 10 ^ k) <= den * 10 ^ (expo d - exp))
      by (apply Z.mul_le_mono_nonneg_l; lia).
    lia.
Qed.

(** ** decimal.Decimal: the quotient is rounded to nearest *)

Lemma dec_div_nearest (a b d : Decimal) :
  coef b <> 0 -> dec_div a b = Ok d -> quotient_error a b d.
Proof.
  intros Hb Hdiv. unfold quotient_error. cbv zeta.
  destruct (Z.eq_dec (coef a) 0) as [Ha|Ha].
  - unfold dec_div in Hdiv.
    replace (coef b =? 0) with false in Hdiv by (symmetry; apply Z.eqb_neq; assumption).
    rewrite Ha in Hdiv. cbn [Z.eqb] in Hdiv. unfold fix_context in Hdiv.
    cbn [coef Z.eqb] in Hdiv. injection Hdiv as <-. cbn [coef expo]. rewrite Ha.
    rewrite !Z.mul_0_l, Z.sub_diag. cbn [Z.abs].
    assert (0 < 10 ^ (Z.min (Z.max (expo a - expo b) Etiny) Emax
                      - Z.min (expo a - expo b) (Z.min (Z.max (expo a - expo b) Etiny) Emax)))
      by (apply pow10_pos; lia).
    nia.
  - destruct (dec_div_core a b d Ha Hb Hdiv) as [Hexp Hcore]. cbv zeta in Hexp, Hcore.
    set (shift := ndigits (coef b) - ndigits (coef a) + prec + 1) in *.
    set (exp := expo a - expo b - shift) in *.
    set (m := Z.min (expo a - expo b) (expo d)).
    assert (Hsa : coef a = Z.sgn (coef a) * Z.abs (coef a))
      by (destruct (Z.sgn_spec (coef a)) as [[? ->]|[[? ->]|[? ->]]]; lia).
    assert (Hsb : coef b = Z.sgn (coef b) * Z.abs (coef b))
      by (destruct (Z.sgn_spec (coef b)) as [[? ->]|[[? ->]|[? ->]]]; lia).
    assert (Hsb1 : Z.sgn (coef b) = 1 \/ Z.sgn (coef b) = -1)
      by (destruct (Z.sgn_spec (coef b)) as [[? ->]|[[? ->]|[? ->]]]; lia).
    set (sa := Z.sgn (coef a)) in *. set (sb := Z.sgn (coef b)) in *.
    set (A := Z.abs (coef a)) in *. set (B := Z.abs (coef b)) in *.
    set (R := coef d * 10 ^ (expo d - exp)) in *.
    destruct (0 <=? shift) eqn:E.
    + apply Z.leb_le in E.
      assert (Hm : exp <= m) by (unfold m, exp; lia).
      assert (Ht : 0 < 10 ^ (m - exp)) by (apply pow10_pos; lia).
      assert (HL : (coef a * 10 ^ (expo a - expo b - m)
                    - coef d * coef b * 10 ^ (expo d - m)) * 10 ^ (m - exp)
                   = sb * (sa * sb * (A * 10 ^ shift) - R * B)).
      { unfold R.
        replace shift with ((expo a - expo b - m) + (m - exp)) at 1 by (unfold exp; lia).
        replace (expo d - exp) with ((expo d - m) + (m - exp)) by lia.
        rewrite !Z.pow_add_r by (unfold m; lia).
        rewrite Hsa at 1. rewrite Hsb at 1.
        assert (Hsq : sb * sb = 1) by (destruct Hsb1 as [-> | ->]; reflexivity).
        transitivity (sa * (sb * sb) * A * (10 ^ (expo a - expo b - m) * 10 ^ (m - exp))
                      - coef d * (sb * B) * (10 ^ (expo d - m) * 10 ^ (m - exp)));
          [rewrite Hsq; ring|ring]. }
      assert (HR : B * 10 ^ (expo d - m) * 10 ^ (m - exp) = 10 ^ (expo d - exp) * B).
      { replace (expo d - exp) with ((expo d - m) + (m - exp)) by lia.
        rewrite Z.pow_add_r by (unfold m; lia). ring. }
      assert (Habs : Z.abs (coef a * 10 ^ (expo a - expo b - m)
                            - coef d * coef b * 10 ^ (expo d - m)) * 10 ^ (m - exp)
                     = Z.abs (sa * sb * (A * 10 ^ shift) - R * B)).
      { rewrite <- (Z.abs_eq (10 ^ (m - exp))) at 1 by lia.
        rewrite <- Z.abs_mul, HL, Z.abs_mul.
        replace (Z.abs sb) with 1 by (destruct Hsb1 as [-> | ->]; reflexivity). lia. }
      nia.
    + apply Z.leb_gt in E.
      assert (Hm : m = expo a - expo b) by (unfold m, exp in *; lia).
      rewrite Hm, Z.sub_diag. change (10 ^ 0) with 1. rewrite Z.mul_1_r.
      assert (Hs : 0 < 10 ^ (- shift)) by (apply pow10_pos; lia).
      assert (HL : coef a - coef d * coef b * 10 ^ (expo d - (expo a - expo b))
                   = sb * (sa * sb * A - R * (B * 10 ^ (- shift)))).
      { unfold R.
        replace (expo d - (expo a - expo b)) with ((expo d - exp) + (- shift))
          by (unfold exp; lia).
        rewrite Z.pow_add_r by lia.
        rewrite Hsa at 1. rewrite Hsb at 1.
        assert (Hsq : sb * sb = 1) by (destruct Hsb1 as [-> | ->]; reflexivity).
        transitivity (sa * (sb * sb) * A
                      - coef d * (sb * B) * (10 ^ (expo d - exp) * 10 ^ (- shift)));
          [rewrite Hsq; ring|ring]. }
      assert (HR : B * 10 ^ (expo d - (expo a - expo b))
                   = 10 ^ (expo d - exp) * (B * 10 ^ (- shift))).
      { replace (expo d - (expo a - expo b)) with ((expo d - exp) + (- shift))
          by (unfold exp; lia).
        rewrite Z.pow_add_r by lia. ring. }
      rewrite HL, HR, Z.abs_mul.
      replace (Z.abs sb) with 1 by (destruct Hsb1 as [-> | ->]; reflexivity).
      rewrite Z.mul_1_l. exact Hcore.
Qed.

(** ** decimal.Decimal: quantize with the rounding of the context *)

Lemma quantize_half_even_nearest (d ex r : Decimal) :
  quantize_half_even d ex = Ok r -> expo r = expo ex /\ rounding_error d r.
Proof.
  unfold quantize_half_even, rounding_error. intros H. cbv zeta in *.
  destruct (negb ((Etiny <=? expo ex) && (expo ex <=? Emax))); [discriminate|].
  destruct (coef d =? 0) eqn:E0.
  - apply Z.eqb_eq in E0. injection H as <-. cbn [expo coef]. split; [reflexivity|].
    unfold scaled. cbn [coef expo]. rewrite E0, !Z.mul_0_l. cbn [Z.sub Z.opp Z.add Z.abs].
    assert (0 < 10 ^ (expo ex - Z.min (expo d) (expo ex))) by (apply pow10_pos; lia). lia.
  - destruct (Emax <? adjusted d); [discriminate|].
    destruct (prec <? adjusted d - expo ex + 1); [discriminate|].
    destruct (Emax <? adjusted (rescale_half_even d (expo ex))); [discriminate|].
    destruct (prec <? ndigits (coef (rescale_half_even d (expo ex)))); [discriminate|].
    injection H as <-. unfold rescale_half_even.
    destruct (expo ex <=? expo d) eqn:E; cbn [expo coef]; (split; [reflexivity|]);
      unfold scaled; cbn [coef expo].
    + apply Z.leb_le in E. rewrite Z.min_r by lia. rewrite !Z.sub_diag.
      change (10 ^ 0) with 1. rewrite Z.mul_1_r, Z.sub_diag. cbn [Z.abs]. lia.
    + apply Z.leb_gt in E. rewrite Z.min_l by lia. rewrite !Z.sub_diag.
      change (10 ^ 0) with 1. rewrite Z.mul_1_r.
      pose proof (round_half_even_error (coef d) (expo ex - expo d) ltac:(lia)) as Hr.
      rewrite <- Z.abs_opp.
      replace (- (round_half_even (coef d) (expo ex - expo d) * 10 ^ (expo ex - expo d) - coef d))
        with (coef d - round_half_even (coef d) (expo ex - expo d) * 10 ^ (expo ex - expo d))
        by ring.
      exact Hr.
Qed.

(** ** src/utils.py: qty_for_min_notional *)

(** X7: [qty_for_min_notional] gives Decimal 0 for a zero price.  For any
    other price, a returned quantity has the exponent of [step] (the value
    of [step] beyond its exponent plays no part) and is the quotient
    min_notional / price rounded twice to nearest: the division result [d]
    is within half a unit of its last place of the exact quotient, and the
    quantity is within half a unit of the exponent of [step] of [d]. *)
Theorem qty_for_min_notional_rounds_to_nearest (price min_notional step r : Decimal) :
  qty_for_min_notional price min_notional step = Ok r ->
  if dec_is_zero price then r = dec_zero
  else expo r = expo step /\
       exists d, dec_div min_notional price = Ok d /\
                 quotient_error min_notional price d /\ rounding_error d r.
Proof.
  unfold qty_for_min_notional. intros H.
  destruct (dec_is_zero price) eqn:Ez.
  - injection H as <-. reflexivity.
  - destruct (dec_div min_notional price) as [d|e] eqn:Ed; [|discriminate].
    cbv zeta in H. destruct (quantize_half_even_nearest _ _ _ H) as [He Hr].
    split; [exact He|]. exists d. split; [reflexivity|]. split; [|exact Hr].
    apply dec_div_nearest; [|exact Ed].
    unfold dec_is_zero in Ez. apply Z.eqb_neq. exact Ez.
Qed.

Lemma qty_for_min_notional_rounds_to_nearest_witness :
  expo (mkDec 33333 (-3)) = expo (mkDec 5 (-3)) /\
  exists d, dec_div (mkDec 100 0) (mkDec 3 0) = Ok d /\
            quotient_error (mkDec 100 0) (mkDec 3 0) d /\
            rounding_error d (mkDec 33333 (-3)).
Proof.
  apply (qty_for_min_notional_rounds_to_nearest
           (mkDec 3 0) (mkDec 100 0) (mkDec 5 (-3)) (mkDec 33333 (-3))).
  vm_compute. reflexivity.
Defined.

(** One step of the symbolic execution. *)
Ltac wp_one :=
  cbv beta iota;
  lazymatch goal with
  | |- wp (bind _ _) _ _ => apply wp_bind
  | |- wp (ret _) _ _ => apply wp_ret
  | |- wp (raise _) _ _ => apply wp_raise
  | |- wp (emit _) _ _ => apply wp_emit
  | |- wp (lift (Ok _)) _ _ => apply wp_lift; cbn [of_result]
  | |- wp (lift (Err _)) _ _ => apply wp_lift; cbn [of_result]
  | |- wp (lift ?r) _ _ => apply wp_lift; destruct r eqn:?; cbn [of_result]
  | |- wp (request_exchange_info _) _ _ =>
      apply wp_request_exchange_info; intros [?|?] ? ?; cbn [of_result]
  | |- wp (BinanceFuturesClient true) _ _ => apply wp_client; intros ? ? _
  | |- wp (get_exchange_info _) _ _ => unfold get_exchange_info
  end.

(** Run a function up to the point where it picks the symbol description. *)
Ltac wp_to_symbol :=
  repeat lazymatch goal with
         | |- wp (bind (first_symbol _ _) _) _ _ => fail
         | _ => wp_one
         end.

Section Placing.
Context {X : Type} {EX : Exchange X} {PF : Platform}.

(** ** src/client_wrapper.py: the constructor *)

(** X8: Building a client never fails: with [sync_time] it asks the server time
    once and swallows a failure of that request; without, it sends
    nothing. *)
Theorem client_construction_never_fails (sync_time : bool) (x : X) :
  outcome_of (BinanceFuturesClient sync_time x) = Ret tt /\
  if sync_time
  then trace_of (BinanceFuturesClient sync_time x) = [EvTime (fst (x_time x))] /\
       state_of (BinanceFuturesClient sync_time x) = snd (x_time x)
  else trace_of (BinanceFuturesClient sync_time x) = [] /\
       state_of (BinanceFuturesClient sync_time x) = x.
Proof.
  destruct sync_time; [|repeat split].
  unfold BinanceFuturesClient, try_except, bind, request_time, ret, outcome_of, trace_of,
    state_of.
  destruct (x_time x) as [[a|e] x']; cbn; repeat split.
Qed.

(** ** Arguments are validated before anything is sent *)

Lemma validate_side_error (side : string) (e : exn) :
  validate_side side = Err e -> exists msg, e = Exception ValueError msg.
Proof.
  unfold validate_side.
  destruct (String.eqb (upper side) "BUY" || String.eqb (upper side) "SELL")%bool;
    intros H; [discriminate|]. injection H as <-. eauto.
Qed.

Lemma validate_positive_number_error (name : string) (v : PyNum) (e : exn) :
  validate_positive_number name v = Err e -> exists msg, e = Exception ValueError msg.
Proof.
  unfold validate_positive_number. destruct v as [|f].
  - intros H. injection H as <-. eauto.
  - destruct (dec_leb f dec_zero); intros H; [|discriminate]. injection H as <-. eauto.
Qed.

Ltac reject_with :=
  repeat match goal with
         | |- context [validate_side ?s] =>
             let E := fresh "E" in
             destruct (validate_side s) eqn:E;
             [|destruct (validate_side_error _ _ E) as [? ->]; eexists; reflexivity]
         | |- context [validate_positive_number ?n ?v] =>
             let E := fresh "E" in
             destruct (validate_positive_number n v) eqn:E;
             [|destruct (validate_positive_number_error _ _ _ E) as [? ->];
               eexists; reflexivity]
         end.

(** Whatever the validation refuses is refused by each of the five order
    functions before the client is built. *)
Lemma rejected_by_validation (fuel : nat) (symbol side : string)
  (qty price tp_price sl_price stop_price : PyNum) (entry_type tif : string)
  (entry_price : option PyNum) (wait_timeout poll_interval : Z) (flag : bool) (x : X) :
  let bad_side := is_err (validate_side side) in
  let bad name v := is_err (validate_positive_number name v) in
  (bad_side || bad "qty" qty = true ->
   rejected (place_market_order symbol side qty x) x) /\
  (bad_side || bad "qty" qty || bad "price" price = true ->
   rejected (place_limit_order symbol side qty price x) x) /\
  (bad_side || bad "qty" qty || bad "tp_price" tp_price || bad "sl_price" sl_price = true ->
   rejected (place_oco fuel symbol side qty tp_price sl_price entry_type entry_price
               wait_timeout poll_interval flag x) x) /\
  (bad_side || bad "qty" qty || bad "stop_price" stop_price || bad "limit_price" price = true ->
   rejected (place_stop_limit symbol side qty stop_price price tif flag x) x) /\
  (bad_side || bad "qty" qty || bad "stop_price" stop_price = true ->
   rejected (place_stop_market symbol side qty stop_price flag x) x).
Proof.
  cbv zeta. unfold rejected.
  repeat split; intros H.
  - unfold place_market_order. reject_with. discriminate.
  - unfold place_limit_order. reject_with. discriminate.
  - unfold place_oco. reject_with. discriminate.
  - unfold place_stop_limit. reject_with. discriminate.
  - unfold place_stop_market. reject_with. discriminate.
Qed.

Lemma bad_side_refused (side : string) :
  bad_side side -> is_err (validate_side side) = true.
Proof.
  intros (_ & Hb & Hs). rewrite (validate_side_refuses side Hb Hs). reflexivity.
Qed.

Lemma not_positive_refused (name : string) (v : PyNum) :
  not_positive v -> is_err (validate_positive_number name v) = true.
Proof.
  intros [->|(f & -> & Hf)]; [reflexivity|].
  unfold validate_positive_number. unfold dec_le in Hf. rewrite Hf. reflexivity.
Qed.

Ltac refused :=
  cbv zeta;
  repeat match goal with
         | H : _ \/ _ |- _ => destruct H as [H|H]
         | H : bad_side _ |- _ => rewrite (bad_side_refused _ H)
         | H : not_positive _ |- _ => rewrite (not_positive_refused _ _ H)
         end;
  rewrite ?orb_true_r; reflexivity.

(** X9: An ASCII side that spells neither BUY nor SELL, and a quantity or a
    price that [float] does not convert or that is a finite number not
    above 0, is refused with a ValueError by each of the five order
    functions before the client is built: nothing is sent. *)
Theorem invalid_arguments_rejected (fuel : nat) (symbol side : string)
  (qty price tp_price sl_price stop_price : PyNum) (entry_type tif : string)
  (entry_price : option PyNum) (wait_timeout poll_interval : Z) (flag : bool) (x : X) :
  (bad_side side \/ not_positive qty ->
   rejected (place_market_order symbol side qty x) x) /\
  (bad_side side \/ not_positive qty \/ not_positive price ->
   rejected (place_limit_order symbol side qty price x) x) /\
  (bad_side side \/ not_positive qty \/ not_positive tp_price \/ not_positive sl_price ->
   rejected (place_oco fuel symbol side qty tp_price sl_price entry_type entry_price
               wait_timeout poll_interval flag x) x) /\
  (bad_side side \/ not_positive qty \/ not_positive stop_price \/ not_positive price ->
   rejected (place_stop_limit symbol side qty stop_price price tif flag x) x) /\
  (bad_side side \/ not_positive qty \/ not_positive stop_price ->
   rejected (place_stop_market symbol side qty stop_price flag x) x).
Proof.
  destruct (rejected_by_validation fuel symbol side qty price tp_price sl_price stop_price
              entry_type tif entry_price wait_timeout poll_interval flag x)
    as (H1 & H2 & H3 & H4 & H5).
  repeat split; intros H.
  - apply H1. refused.
  - apply H2. refused.
  - apply H3. refused.
  - apply H4. refused.
  - apply H5. refused.
Qed.

(** ** src/client_wrapper.py: calls that fail before anything is sent *)


(** ** The symbol description comes first *)

Ltac no_symbol_leaf :=
  intros _; cbn; repeat split; eauto;
  let H := fresh "H" in
  intros ? ? H; repeat (destruct H as [H|H]; [try discriminate|]); try contradiction;
  reflexivity.

Ltac symbol_guard :=
  wp_to_symbol; try (unfold needs_symbol_info; no_symbol_leaf);
  apply wp_bind; unfold first_symbol;
  repeat lazymatch goal with
         | |- wp (match ?v with _ => _ end) _ _ => destruct v
         end;
  [apply wp_raise; unfold needs_symbol_info; no_symbol_leaf
  |apply wp_ret; apply wp_any; intros; unfold needs_symbol_info; cbn; discriminate
  |apply wp_raise; unfold needs_symbol_info; no_symbol_leaf].

(** X11: None of the five order functions places an order before the exchange
    has described the symbol.  When the request for the description fails
    the function raises; when the answer names no symbol it raises its
    RuntimeError. *)
Theorem orders_need_symbol_info (fuel : nat) (symbol side : string)
  (qty price tp_price sl_price stop_price : PyNum) (entry_type tif : string)
  (entry_price : option PyNum) (wait_timeout poll_interval : Z) (flag : bool) (x : X) :
  wp (place_market_order symbol side qty) x
     (fun o _ t => needs_symbol_info "Could not fetch symbol info" o t) /\
  wp (place_limit_order symbol side qty price) x
     (fun o _ t => needs_symbol_info "Could not fetch symbol info" o t) /\
  wp (place_oco fuel symbol side qty tp_price sl_price entry_type entry_price
        wait_timeout poll_interval flag) x
     (fun o _ t => needs_symbol_info "could not fetch symbol info" o t) /\
  wp (place_stop_limit symbol side qty stop_price price tif flag) x
     (fun o _ t => needs_symbol_info "could not fetch symbol info" o t) /\
  wp (place_stop_market symbol side qty stop_price flag) x
     (fun o _ t => needs_symbol_info "could not fetch symbol info" o t).
Proof.
  split; [|split; [|split; [|split]]].
  - unfold place_market_order. symbol_guard.
  - unfold place_limit_order. symbol_guard.
  - unfold place_oco. symbol_guard.
  - unfold place_stop_limit. symbol_guard.
  - unfold place_stop_market. symbol_guard.
Qed.

(** ** src/market_orders.py, src/limit_orders.py: the order that is sent *)

Ltac one_post :=
  cbn; split; [lia|];
  let H := fresh "H" in
  intros ? ? H; repeat (destruct H as [H|H]; [try discriminate|]); try contradiction.

(** X12: [place_market_order] sends at most one order and returns the answer to
    it, or raises its failure.  The order is a MARKET order for the symbol
    and the validated side; it carries no price, no timeInForce, no stop
    price and no flag. *)
Theorem place_market_order_sends_market (symbol side : string) (qty : PyNum) (x : X) :
  wp (place_market_order symbol side qty) x
     (fun o _ t =>
        (List.length (posts t) <= 1)%nat /\
        forall p r, In (EvPostOrder p r) t ->
          o = of_result r /\
          p_symbol p = symbol /\ validate_side side = Ok (p_side p) /\
          p_type p = "MARKET" /\ p_price p = None /\ p_timeInForce p = None /\
          plain_order p).
Proof.
  unfold place_market_order. wp_auto.
  all: one_post.
  all: match goal with H : EvPostOrder _ _ = EvPostOrder _ _ |- _ => injection H as <- <- end.
  all: cbn; repeat split; assumption.
Qed.

(** X13: [place_limit_order] sends at most one order and returns the answer to
    it, or raises its failure.  The order is a LIMIT order for the symbol
    and the validated side, good till cancelled, without stop price or
    flag; its price is the validated price rounded to the tick of the
    symbol by [round_price_to_tick]. *)
Theorem place_limit_order_sends_limit (symbol side : string) (qty price : PyNum) (x : X) :
  wp (place_limit_order symbol side qty price) x
     (fun o _ t =>
        (List.length (posts t) <= 1)%nat /\
        forall p r, In (EvPostOrder p r) t ->
          o = of_result r /\
          p_symbol p = symbol /\ validate_side side = Ok (p_side p) /\
          p_type p = "LIMIT" /\ p_timeInForce p = Some "GTC" /\ plain_order p /\
          exists s price_f price_dec,
            symbol_info_of t = Some s /\
            validate_positive_number "price" price = Ok price_f /\
            round_price_to_tick price_f (f_tickSize (parse_symbol_filters s))
            = Ok price_dec /\
            p_price p = Some (to_float price_dec)).
Proof.
  unfold place_limit_order. wp_auto.
  all: one_post.
  all: match goal with H : EvPostOrder _ _ = EvPostOrder _ _ |- _ => injection H as <- <- end.
  all: cbn; repeat split; try assumption.
  all: eexists _, _, _; repeat split; eassumption.
Qed.

End Placing.

Lemma invalid_arguments_rejected_witness :
  rejected (place_market_order (PF := short_platform) "BTCUSDT" "HOLD" (Num (mkDec 2 (-2)))
              sim0) sim0 /\
  rejected (place_limit_order (PF := short_platform) "BTCUSDT" "BUY" (Num (mkDec 2 (-2)))
              (Num (mkDec 0 0)) sim0) sim0.
Proof.
  split.
  - apply (proj1 (invalid_arguments_rejected (PF := short_platform) 0 "BTCUSDT" "HOLD"
                    (Num (mkDec 2 (-2))) NotNumber NotNumber NotNumber NotNumber "" "" None
                    0 0 false sim0)).
    left. split; [reflexivity|].
    split; vm_compute; intros H; repeat (destruct H as [H|H]; [discriminate H|]); exact H.
  - apply (proj1 (proj2 (invalid_arguments_rejected (PF := short_platform) 0 "BTCUSDT" "BUY"
                    (Num (mkDec 2 (-2))) (Num (mkDec 0 0)) NotNumber NotNumber NotNumber
                    "" "" None 0 0 false sim0))).
    right; right. right. exists (mkDec 0 0). split; reflexivity.
Defined.

Lemma orders_need_symbol_info_witness :
  outcome_of (place_limit_order (PF := short_platform) "BTCUSDT" "BUY"
                (Num (mkDec 2 (-2))) (Num (mkDec 60000 0)) sim_no_symbol)
  = Raise (could_not_fetch "Could not fetch symbol info").
Proof.
  refine (proj2 (proj2 (proj2
            (proj1 (proj2 (orders_need_symbol_info (PF := short_platform) 0 "BTCUSDT" "BUY"
                             (Num (mkDec 2 (-2))) (Num (mkDec 60000 0)) NotNumber NotNumber
                             NotNumber "" "" None 0 0 false sim_no_symbol)) _)))
            (Some "BTCUSDT") None _).
  - vm_compute. reflexivity.
  - vm_compute. repeat (first [left; reflexivity | right]).
Defined.

Lemma place_market_order_sends_market_witness :
  outcome_of (place_market_order (PF := short_platform) "BTCUSDT" "buy"
                (Num (mkDec 2 (-2))) sim_one_post)
  = of_result (Ok (order 7 "NEW" (mkDec 0 0) (mkDec 1 (-3)))) /\
  p_symbol (order_params (market_args "BTCUSDT" "BUY" (mkDec 2 (-2)))) = "BTCUSDT" /\
  validate_side "buy" = Ok (p_side (order_params (market_args "BTCUSDT" "BUY" (mkDec 2 (-2))))) /\
  p_type (order_params (market_args "BTCUSDT" "BUY" (mkDec 2 (-2)))) = "MARKET" /\
  p_price (order_params (market_args "BTCUSDT" "BUY" (mkDec 2 (-2)))) = None /\
  p_timeInForce (order_params (market_args "BTCUSDT" "BUY" (mkDec 2 (-2)))) = None /\
  plain_order (order_params (market_args "BTCUSDT" "BUY" (mkDec 2 (-2)))).
Proof.
  refine (proj2 (place_market_order_sends_market (PF := short_platform) "BTCUSDT" "buy"
                   (Num (mkDec 2 (-2))) sim_one_post)
            (order_params (market_args "BTCUSDT" "BUY" (mkDec 2 (-2))))
            (Ok (order 7 "NEW" (mkDec 0 0) (mkDec 1 (-3)))) _).
  vm_compute. repeat (first [left; reflexivity | right]).
Defined.

Lemma place_limit_order_sends_limit_witness :
  p_type (order_params (limit_args "BTCUSDT" "SELL" (mkDec 2 (-2)) (mkDec 650005 (-1))
                          "GTC" false)) = "LIMIT" /\
  exists s price_f price_dec,
    symbol_info_of (trace_of (place_limit_order (PF := short_platform) "BTCUSDT" "sell"
                                (Num (mkDec 2 (-2))) (Num (mkDec 6500055 (-2)))
                                sim_one_post)) = Some s /\
    validate_positive_number "price" (Num (mkDec 6500055 (-2))) = Ok price_f /\
    round_price_to_tick price_f (f_tickSize (parse_symbol_filters s)) = Ok price_dec /\
    p_price (order_params (limit_args "BTCUSDT" "SELL" (mkDec 2 (-2)) (mkDec 650005 (-1))
                             "GTC" false))
    = Some (@to_float short_platform price_dec).
Proof.
  pose proof (proj2 (place_limit_order_sends_limit (PF := short_platform) "BTCUSDT" "sell"
                       (Num (mkDec 2 (-2))) (Num (mkDec 6500055 (-2))) sim_one_post)
                (order_params (limit_args "BTCUSDT" "SELL" (mkDec 2 (-2)) (mkDec 650005 (-1))
                                 "GTC" false))
                (Ok (order 7 "NEW" (mkDec 0 0) (mkDec 1 (-3))))) as H.
  refine ((fun K => conj (proj1 (proj2 (proj2 (proj2 K))))
                         (proj2 (proj2 (proj2 (proj2 (proj2 (proj2 K))))))) (H _)).
  vm_compute. repeat (first [left; reflexivity | right]).
Defined.


Section Bracket_legs.
Context {X : Type} {EX : Exchange X} {PF : Platform}.

(** ** src/advanced/oco.py: a leg with its reduce-only fallback *)

(** X14: A leg is sent reduce-only first when that is preferred, and once more
    without reduce-only when the first attempt fails; otherwise it is sent
    once, without reduce-only.  The second component of the result tells
    whether the reduce-only order was accepted, and the function raises
    only what the order without reduce-only raised. *)
Theorem leg_falls_back_to_plain_order (symbol side : string) (quantity price : Decimal)
  (time_in_force : string) (prefer_reduce_only : bool) (x : X) :
  let leg ro := order_params (limit_args symbol side (to_float quantity) (to_float price)
                                time_in_force ro) in
  wp (_place_limit_leg_with_reduce_fallback symbol side quantity price time_in_force
        prefer_reduce_only) x
     (fun o _ t =>
        match o with
        | Ret (resp, true) =>
            prefer_reduce_only = true /\ post_events t = [(leg true, Ok resp)]
        | Ret (resp, false) =>
            if prefer_reduce_only
            then exists e, post_events t = [(leg true, Err e); (leg false, Ok resp)]
            else post_events t = [(leg false, Ok resp)]
        | Raise e =>
            if prefer_reduce_only
            then exists e', post_events t = [(leg true, Err e'); (leg false, Err e)]
            else post_events t = [(leg false, Err e)]
        | Exit _ | OutOfFuel => False
        end).
Proof.
  cbv zeta. unfold _place_limit_leg_with_reduce_fallback. wp_auto.
  all: try match goal with H : _ /\ _ |- _ => destruct H; discriminate end.
  all: cbn; eauto.
Qed.

(** ** src/advanced/oco.py: an entry that comes back without an order id *)

Ltac skip_rest :=
  repeat (cbv beta;
          lazymatch goal with
          | |- wp _ _ _ => apply wp_any; intros ? ? ?
          | |- match ?o with _ => _ end => destruct o
          end).

(** X15: When the exchange accepts the entry but its answer carries no usable
    orderId, [place_oco] raises its RuntimeError and stops there: the entry
    is the only order sent, nothing is queried, cancelled or waited for. *)
Theorem place_oco_entry_without_order_id (fuel : nat) (symbol side : string)
  (qty tp_price sl_price : PyNum) (entry_type : string) (entry_price : option PyNum)
  (wait_timeout poll_interval : Z) (detach : bool) (x : X) :
  wp (place_oco fuel symbol side qty tp_price sl_price entry_type entry_price
        wait_timeout poll_interval detach) x
     (fun o _ t =>
        forall p ent,
          hd_error (post_events t) = Some (p, Ok ent) ->
          truthy_int (o_orderId ent) = false ->
          o = Raise (Exception RuntimeError "entry returned no orderId") /\
          post_events t = [(p, Ok ent)] /\
          get_events t = [] /\ cancel_calls t = [] /\ sleeps t = []).
Proof.
  unfold place_oco. wp_auto.
  all: skip_rest.
  all: cbn; intros ? ? Hhd Ht; try discriminate.
  all: injection Hhd as <- <-.
  all: try (repeat split; reflexivity).
  all: match goal with H : negb (truthy_int _) = false |- _ =>
         rewrite Ht in H; discriminate end.
Qed.

(** ** src/advanced/oco.py: the entry order *)

(** X16: The first order [place_oco] sends is the entry, for the symbol and the
    validated side.  Its quantity is the requested quantity rounded down to
    the step; it is not raised to the minimum quantity.  For the entry type
    MARKET, in any letter case, it is a MARKET order without price; for any
    other entry type it is a LIMIT order, good till cancelled, at the entry
    price as it was given, not rounded to the tick. *)
Theorem place_oco_entry_order (fuel : nat) (symbol side : string)
  (qty tp_price sl_price : PyNum) (entry_type : string) (entry_price : option PyNum)
  (wait_timeout poll_interval : Z) (detach : bool) (x : X) :
  wp (place_oco fuel symbol side qty tp_price sl_price entry_type entry_price
        wait_timeout poll_interval detach) x
     (fun _ _ t =>
        forall p, hd_error (posts t) = Some p ->
          p_symbol p = symbol /\ validate_side side = Ok (p_side p) /\ plain_order p /\
          (exists s qty_f qty_dec,
             symbol_info_of t = Some s /\
             validate_positive_number "qty" qty = Ok qty_f /\
             round_down_qty (to_float qty_f) (f_stepSize (parse_symbol_filters s))
             = Ok qty_dec /\
             p_quantity p = to_float qty_dec) /\
          if String.eqb (upper entry_type) "MARKET"
          then p_type p = "MARKET" /\ p_price p = None /\ p_timeInForce p = None
          else p_type p = "LIMIT" /\ p_timeInForce p = Some "GTC" /\
               exists ep, entry_price = Some (Num ep) /\ p_price p = Some ep).
Proof.
  unfold place_oco. wp_auto.
  all: skip_rest.
  all: cbn; intros ? Hhd; try discriminate.
  all: injection Hhd as <-.
  all: cbn; repeat split; try assumption.
  all: try (eexists _, _, _; repeat split; eassumption).
  all: match goal with H : float_of ?v = Ok ?f |- _ =>
         destruct v; [discriminate|]; injection H as ->; eexists; split; reflexivity
       end.
Qed.

(** ** src/advanced/oco.py: detach mode *)

Lemma sleeps_app (t1 t2 : list Event) : sleeps (t1 ++ t2) = sleeps t1 ++ sleeps t2.
Proof. apply flat_map_app. Qed.

Lemma leg_is_quiet (symbol side : string) (quantity price : Decimal) (tif : string)
  (prefer : bool) (x : X) :
  wp (_place_limit_leg_with_reduce_fallback symbol side quantity price tif prefer) x
     (fun o _ t =>
        finished o /\ get_events t = [] /\ cancel_calls t = [] /\ sleeps t = [] /\
        (List.length (posts t) <= 2)%nat).
Proof.
  unfold _place_limit_leg_with_reduce_fallback. wp_auto.
  all: cbn; repeat split; lia.
Qed.

Ltac quiet_leg :=
  eapply wp_conseq; [apply leg_is_quiet|]; cbv beta;
  intros [[? ?]|?|?|] ? ? (? & ? & ? & ? & ?); try contradiction.

Ltac quiet_leaf :=
  rewrite ?get_events_app, ?cancel_calls_app, ?sleeps_app, ?posts_app, ?length_app;
  repeat match goal with
         | H : get_events _ = [] |- _ => rewrite H; clear H
         | H : cancel_calls _ = [] |- _ => rewrite H; clear H
         | H : sleeps _ = [] |- _ => rewrite H; clear H
         end;
  cbn; repeat split; try lia;
  try match goal with
      | H : _ = Ret _ |- _ => first [discriminate H | injection H as <-; reflexivity]
      end.

(** X17: In detach mode [place_oco] returns at once whatever the fuel: it never
    queries an order, never cancels, never sleeps, and sends five orders at
    most, the entry and each leg once or twice.  Its result is marked
    detached and names no winner. *)
Theorem place_oco_detached_does_not_wait (fuel : nat) (symbol side : string)
  (qty tp_price sl_price : PyNum) (entry_type : string) (entry_price : option PyNum)
  (wait_timeout poll_interval : Z) (x : X) :
  wp (place_oco fuel symbol side qty tp_price sl_price entry_type entry_price
        wait_timeout poll_interval true) x
     (fun o _ t =>
        finished o /\ get_events t = [] /\ cancel_calls t = [] /\ sleeps t = [] /\
        (List.length (posts t) <= 5)%nat /\
        forall res, o = Ret res -> oco_detached res = true /\ oco_winner res = None).
Proof.
  unfold place_oco. wp_auto.
  all: try quiet_leg; wp_auto; try quiet_leg; wp_auto.
  all: quiet_leaf.
Qed.

Lemma _poll_order_filled_loop_no_exit (symbol : string) (order_id : option Z)
  (timeout poll_interval started : Z) (fuel : nat) :
  forall x : X,
    wp (_poll_order_filled_loop fuel symbol order_id timeout poll_interval started) x
       (fun o _ _ => no_exit o).
Proof.
  induction fuel as [|fuel IH]; intros x; [exact I|].
  cbn [_poll_order_filled_loop]. wp_auto.
  all: try exact I.
  apply wp_time_sleep; intros Hs; [exact I|].
  eapply wp_conseq; [apply IH|auto].
Qed.

(** ** src/advanced/oco.py: the polls come to an end *)

Section Clock.
Hypothesis clock_get_order : forall s n x, x_clock x <= x_clock (snd (x_get_order s n x)).
Hypothesis clock_sleep : forall d x, 0 <= d -> x_clock x + d <= x_clock (x_sleep d x).

Lemma _poll_order_filled_loop_bounded (symbol : string) (order_id : option Z)
  (timeout poll_interval started : Z) :
  1 <= poll_interval ->
  forall (fuel : nat) (x : X),
    wp (_poll_order_filled_loop fuel symbol order_id timeout poll_interval started) x
       (fun o _ t =>
          Z.of_nat (List.length (get_events t))
          <= Z.max (timeout - (x_clock x - started) + 1) 0 + 1 /\
          (Z.max (timeout - (x_clock x - started) + 1) 0 + 1 <= Z.of_nat fuel ->
           o <> OutOfFuel)).
Proof.
  intros Hpi. induction fuel as [|fuel IH]; intros x.
  - apply wp_out_of_fuel. cbn [get_events flat_map List.length].
    split; [lia|intros H; exfalso; lia].
  - cbn [_poll_order_filled_loop]. wp_auto.
    all: try (cbn [app get_events flat_map List.length]; split; [lia|discriminate]).
    apply wp_time_sleep; intros Hs; [lia|].
    eapply wp_conseq; [apply IH|]. cbv beta. intros o ? t [Hn Ht].
    match goal with H : x_get_order _ _ _ = _ |- _ =>
      pose proof (clock_get_order symbol z x) as Hc; rewrite H in Hc; cbn [snd] in Hc end.
    match goal with H : (_ <? _) = false |- _ => apply Z.ltb_ge in H end.
    pose proof (clock_sleep poll_interval x' Hs).
    cbn [app get_events flat_map List.length]. fold (get_events t).
    split; [lia|]. intros Hf. apply Ht. lia.
Qed.

Lemma _poll_order_filled_queries (fuel : nat) (symbol : string) (order_id : option Z)
  (timeout poll_interval : Z) (x : X) :
  1 <= poll_interval ->
  wp (_poll_order_filled fuel symbol order_id timeout poll_interval) x
     (fun o _ t =>
        Z.of_nat (List.length (get_events t)) <= Z.max (timeout + 1) 0 + 1 /\
        (Z.max (timeout + 1) 0 + 1 <= Z.of_nat fuel -> finished o)).
Proof.
  intros Hpi. unfold _poll_order_filled. wp_auto.
  eapply wp_conseq;
    [apply wp_and; [apply _poll_order_filled_loop_bounded; assumption
                   |apply _poll_order_filled_loop_no_exit]|].
  cbv beta. intros o ? t [[Hn Ht] Hx].
  replace (timeout - (x_clock x - x_clock x) + 1) with (timeout + 1) in * by lia.
  cbn [app]. split; [exact Hn|]. intros Hf. specialize (Ht Hf).
  destruct o; try exact I; [contradiction|congruence].
Qed.

(** X18: With a clock that moves (a query never turns it back, a sleep lasts at
    least as long as asked) and a poll interval of one tick or more,
    [_poll_order_filled] sends at most [max(timeout + 1, 0) + 1] queries
    and then has returned or raised. *)
Theorem _poll_order_filled_bounded (fuel : nat) (symbol : string) (order_id : option Z)
  (timeout poll_interval : Z) (x : X) :
  1 <= poll_interval ->
  wp (_poll_order_filled fuel symbol order_id timeout poll_interval) x
     (fun o _ t =>
        Z.of_nat (List.length (get_events t)) <= Z.max (timeout + 1) 0 + 1 /\
        (Z.max (timeout + 1) 0 + 1 <= Z.of_nat fuel -> finished o)).
Proof. apply _poll_order_filled_queries. Qed.

Lemma place_oco_monitor_terminates (symbol : string) (tp_id sl_id : option Z)
  (wait_timeout poll_interval start : Z) :
  1 <= poll_interval ->
  forall (fuel : nat) (x : X),
    Z.max (wait_timeout - (x_clock x - start) + 1) 0 + 1 <= Z.of_nat fuel ->
    wp (place_oco_monitor fuel symbol tp_id sl_id wait_timeout poll_interval start) x
       (fun o _ _ => finished o).
Proof.
  intros Hpi. induction fuel as [|fuel IH]; intros x Hfuel; [simpl in Hfuel; lia|].
  cbn [place_oco_monitor]. wp_auto; try exact I.
  all: apply wp_time_sleep; intros Hs; [exact I|].
  all: eapply wp_conseq; [apply IH|auto].
  all: repeat match goal with H : x_get_order ?s ?n ?y = _ |- _ =>
         let Hc := fresh "Hc" in
         pose proof (clock_get_order s n y) as Hc; rewrite H in Hc; cbn [snd] in Hc;
         clear H end.
  all: match goal with H : (_ <? _) = false |- _ => apply Z.ltb_ge in H end.
  all: match goal with |- context [x_sleep ?d ?y] =>
         pose proof (clock_sleep d y Hs) end.
  all: lia.
Qed.

Ltac finished_leg :=
  eapply wp_conseq; [apply leg_is_quiet|]; cbv beta;
  intros [[? ?]|?|?|] ? ? (? & _); try contradiction; try exact I.

(** X19: [place_oco] comes to an end.  With a clock that moves (a query never
    turns it back, a sleep lasts at least as long as asked), a poll interval
    of one tick or more and fuel for [max(wait_timeout + 1, 0) + 1] rounds
    of each loop, every run returns or raises. *)
Theorem place_oco_terminates (fuel : nat) (symbol side : string)
  (qty tp_price sl_price : PyNum) (entry_type : string) (entry_price : option PyNum)
  (wait_timeout poll_interval : Z) (detach : bool) (x : X) :
  1 <= poll_interval ->
  Z.max (wait_timeout + 1) 0 + 1 <= Z.of_nat fuel ->
  finished (outcome_of (place_oco fuel symbol side qty tp_price sl_price entry_type
                          entry_price wait_timeout poll_interval detach x)).
Proof.
  intros Hpi Hfuel.
  apply (wp_intro _ x (fun o _ _ => finished o)).
  unfold place_oco. wp_auto.
  all: try exact I.
  all: try (finished_leg; wp_auto; try exact I; finished_leg; wp_auto; exact I).
  all: (eapply wp_conseq; [apply _poll_order_filled_queries; assumption|]);
       cbv beta; intros o ? ? [_ Hf]; specialize (Hf Hfuel);
       destruct o; try contradiction; try exact I.
  all: wp_auto; try exact I.
  all: finished_leg; wp_auto; try exact I; finished_leg; wp_auto; try exact I.
  all: (eapply wp_conseq;
         [apply place_oco_monitor_terminates; [assumption|]|]);
       [|cbv beta; intros [?|?|?|] ? ? ?; try contradiction; wp_auto; exact I].
  all: match goal with |- context [?w - (x_clock ?y - x_clock ?y) + 1] =>
         replace (w - (x_clock y - x_clock y) + 1) with (w + 1) by lia
       end; assumption.
Qed.

End Clock.

(** ** src/advanced/oco.py: monitoring without a fill *)

Lemma poll_pairs_round (pre t : list Event) (a a0 : Order) :
  get_events pre = [Ok a; Ok a0] ->
  poll_pairs (pre ++ t) = (a, a0) :: poll_pairs t.
Proof.
  intros Hg. unfold poll_pairs. rewrite get_oks_app. unfold get_oks at 1.
  rewrite Hg. reflexivity.
Qed.

Ltac filled_pair :=
  let HF := fresh "HF" in
  intros HF; cbn in HF; inversion HF as [|? ? [? ?]]; subst; cbn [fst snd] in *; congruence.

(** X20: As long as no observation shows a FILLED leg the monitoring cancels
    nothing.  It then returns no winner, and only once [wait_timeout] is
    over; if it raises, a query failed, a leg has no order id, or the poll
    interval is negative: both legs are left on the exchange. *)
Theorem place_oco_monitor_gives_up (symbol : string) (tp_id sl_id : option Z)
  (wait_timeout poll_interval start : Z) (fuel : nat) (x : X) :
  wp (place_oco_monitor fuel symbol tp_id sl_id wait_timeout poll_interval start) x
     (fun o x' t => gives_up tp_id sl_id wait_timeout poll_interval start o x' t).
Proof.
  revert x. induction fuel as [|fuel IH]; intros x.
  - apply wp_out_of_fuel. intros _. split; [reflexivity|exact I].
  - cbn [place_oco_monitor]. wp_auto.
    all: try (intros _; cbn; split; [reflexivity|]; auto 6).
    all: try filled_pair.
    + (* the wait is over *)
      split; [reflexivity|]. apply Z.ltb_lt. assumption.
    + (* sleep and look again *)
      apply wp_time_sleep; intros Hs.
      * intros _. cbn. split; [reflexivity|]. auto.
      * eapply wp_conseq; [apply IH|]. cbv beta. intros o x2 t Ht.
        cbn [app]. intros HF.
        match type of HF with
        | Forall _ (poll_pairs (?e0 :: ?e1 :: ?e2 :: ?e3 :: ?e4 :: _)) =>
            change (Forall unfilled_pair (poll_pairs ([e0; e1; e2; e3; e4] ++ t))) in HF;
            rewrite (poll_pairs_round [e0; e1; e2; e3; e4] t a a0 eq_refl) in HF
        end.
        inversion HF as [|? ? _ HF']; subst.
        destruct (Ht HF') as [Hc Ho].
        split; [exact Hc|].
        destruct o; auto.
        destruct Ho as [Ho|Ho]; [|right; exact Ho].
        left. cbn. right. right. exact Ho.
Qed.

(** ** src/advanced/oco.py: what the exit legs carry *)

Lemma leg_details (symbol side : string) (quantity price : Decimal) (prefer : bool)
  (x : X) :
  wp (_place_limit_leg_with_reduce_fallback symbol side quantity price "GTC" prefer) x
     (fun _ _ t =>
        Forall (fun p => p_type p = "LIMIT" /\ p_price p = Some (to_float price) /\
                         p_timeInForce p = Some "GTC" /\ p_symbol p = symbol /\
                         (p_reduceOnly p = true -> prefer = true))
               (posts t)).
Proof.
  unfold _place_limit_leg_with_reduce_fallback. wp_auto.
  all: cbn; repeat constructor.
  all: try match goal with H : _ /\ _ |- _ => destruct H; discriminate end.
  all: cbn; intros; try discriminate; reflexivity.
Qed.

Ltac find_in :=
  lazymatch goal with
  | |- In _ (_ :: _) => first [left; reflexivity | right; find_in]
  | |- In _ (_ ++ _) => apply in_or_app; first [left; find_in | right; find_in]
  end.

Ltac details_leg :=
  eapply wp_conseq; [apply leg_details|]; cbv beta; intros [[? ?]|?|?|] ? ? ?.

Ltac details_poll :=
  match goal with H : negb (truthy_int _) = false |- _ =>
    let n := fresh "n" in let E := fresh "E" in
    destruct (truthy_int_some _ H) as [n E]; rewrite E in *
  end;
  eapply wp_conseq; [apply _poll_order_filled_post|]; cbv beta;
  intros [?|?|?|] ? ? (? & ? & ? & ? & ? & ?).

Ltac details_monitor :=
  eapply wp_conseq; [apply place_oco_monitor_places_nothing|]; cbv beta;
  intros [?|?|?|] ? ? [? ?].

Ltac no_details :=
  let p := fresh "p" in let Hp := fresh "Hp" in
  intros p Hp; rewrite ?posts_app in Hp;
  repeat match goal with H : posts _ = [] |- _ => rewrite H in Hp end;
  cbn in Hp; contradiction.

Ltac entry_direction Hro :=
  let Hs := fresh "Hs" in let Hd := fresh "Hd" in
  unfold position_with_entry, position_amount, dec_lt;
  apply orb_true_iff in Hro; destruct Hro as [Hro|Hro]; [left|right];
  apply andb_true_iff in Hro; destruct Hro as [Hs Hd];
  apply String.eqb_eq in Hs; (split; [exact Hs|exact Hd]).

Ltac details_of p Hp :=
  let Htype := fresh "Htype" in
  let Hprice := fresh "Hprice" in let Htif := fresh "Htif" in
  let Hsym := fresh "Hsym" in let Hro := fresh "Hro" in
  let Hr := fresh "Hr" in
  match goal with
  | HF : Forall _ (posts ?t) |- _ =>
      match type of Hp with In _ (posts t) =>
        destruct (proj1 (Forall_forall _ _) HF p Hp)
          as (Htype & Hprice & Htif & Hsym & Hro)
      end
  end;
  eexists _, _, _, _, _, _;
  split; [reflexivity|];
  split; [cbn; reflexivity|];
  split; [reflexivity|];
  split; [reflexivity|];
  split; [eassumption|];
  split; [eassumption|];
  split; [exact Htype|];
  split; [first [left; exact Hprice | right; exact Hprice]|];
  split; [exact Htif|];
  split; [exact Hsym|];
  intros Hr; specialize (Hro Hr);
  match goal with
  | Ha : x_account _ = (Ok ?acct, _) |- _ =>
      exists acct; split; [find_in|entry_direction Hro]
  end.

Ltac details_leaf :=
  let p := fresh "p" in let Hp := fresh "Hp" in
  intros p Hp; rewrite ?posts_app in Hp;
  repeat match goal with H : posts _ = [] |- _ => rewrite H in Hp end;
  cbn in Hp; rewrite ?in_app_iff in Hp; cbn [In] in Hp;
  repeat match type of Hp with
         | _ \/ _ => destruct Hp as [Hp|Hp]
         | False => contradiction
         end;
  details_of p Hp.

(** X21: Besides its quantity, every exit leg that [place_oco] sends is a
    LIMIT order for the symbol, good till cancelled, at the take-profit or
    the stop-loss price rounded to the tick of the symbol; and it is sent
    reduce-only only when the account, read after the entry, shows a
    position in the direction of the entry: long after BUY, short after
    SELL. *)
Theorem place_oco_leg_details (fuel : nat) (symbol side : string)
  (qty tp_price sl_price : PyNum) (entry_type : string) (entry_price : option PyNum)
  (wait_timeout poll_interval : Z) (detach : bool) (x : X) :
  wp (place_oco fuel symbol side qty tp_price sl_price entry_type entry_price
        wait_timeout poll_interval detach) x
     (fun _ _ t => leg_details_post symbol side tp_price sl_price t).
Proof.
  unfold place_oco, leg_details_post. wp_auto.
  all: try (intros ? Hp; cbn in Hp; contradiction).
  all: try (details_poll; try no_details; wp_auto; try no_details).
  all: details_leg; try no_details; wp_auto; try no_details.
  all: try (details_leg; wp_auto).
  all: try details_monitor.
  all: try no_details.
  all: wp_auto.
  all: details_leaf.
Qed.

End Bracket_legs.

Lemma place_oco_entry_without_order_id_witness :
  outcome_of (bracket_run 0 30 false
                (with_orders sim0 [Ok (mkOrder None (Some "BTCUSDT") (Some "NEW") None None)]
                   [] []))
  = Raise (Exception RuntimeError "entry returned no orderId").
Proof.
  refine (proj1 (place_oco_entry_without_order_id (PF := short_platform) 0 "BTCUSDT" "BUY"
                   (Num (mkDec 2 (-2))) (Num (mkDec 65000 0)) (Num (mkDec 55000 0))
                   "MARKET" None 30 1 false
                   (with_orders sim0
                      [Ok (mkOrder None (Some "BTCUSDT") (Some "NEW") None None)] [] [])
                   (order_params (market_args "BTCUSDT" "BUY" (mkDec 2 (-2))))
                   (mkOrder None (Some "BTCUSDT") (Some "NEW") None None) _ _)).
  - vm_compute. reflexivity.
  - reflexivity.
Defined.

Lemma place_oco_detached_does_not_wait_witness :
  oco_detached (mkOcoResult (order 7 "PARTIALLY_FILLED" (mkDec 10 (-3)) (mkDec 20 (-3)))
                  (new_order 8) (new_order 9) None true) = true /\
  oco_winner (mkOcoResult (order 7 "PARTIALLY_FILLED" (mkDec 10 (-3)) (mkDec 20 (-3)))
                (new_order 8) (new_order 9) None true) = None.
Proof.
  refine (proj2 (proj2 (proj2 (proj2 (proj2
            (place_oco_detached_does_not_wait (PF := short_platform) 0 "BTCUSDT" "BUY"
               (Num (mkDec 2 (-2))) (Num (mkDec 65000 0)) (Num (mkDec 55000 0))
               "MARKET" None 30 1 sim_partial))))) _ _).
  vm_compute. reflexivity.
Defined.

Lemma _poll_order_filled_bounded_witness :
  Z.of_nat (List.length (get_events
              (trace_of (_poll_order_filled 4 "BTCUSDT" (Some 7) 2 1 sim_unfilled))))
  <= Z.max (2 + 1) 0 + 1 /\
  (Z.max (2 + 1) 0 + 1 <= Z.of_nat 4 ->
   finished (outcome_of (_poll_order_filled 4 "BTCUSDT" (Some 7) 2 1 sim_unfilled))).
Proof.
  refine (_poll_order_filled_bounded _ _ 4 "BTCUSDT" (Some 7) 2 1 sim_unfilled _).
  - intros s n x. simpl. lia.
  - intros d x Hd. simpl. lia.
  - lia.
Defined.

Lemma place_oco_terminates_witness :
  finished (outcome_of (bracket_run 31 29 false sim_bracket)).
Proof.
  refine (place_oco_terminates (PF := short_platform) _ _ 31 "BTCUSDT" "BUY"
            (Num (mkDec 2 (-2))) (Num (mkDec 65000 0)) (Num (mkDec 55000 0)) "MARKET" None
            29 1 false sim_bracket _ _).
  - intros s n x. simpl. lia.
  - intros d x Hd. simpl. lia.
  - lia.
  - simpl. lia.
Defined.

Lemma place_oco_monitor_gives_up_witness :
  cancel_calls (trace_of (place_oco_monitor 3 "BTCUSDT" (Some 8) (Some 9) 0 1 0 sim_no_fill))
  = [].
Proof.
  refine (proj1 (place_oco_monitor_gives_up "BTCUSDT" (Some 8) (Some 9) 0 1 0 3 sim_no_fill
                   _)).
  vm_compute. repeat constructor.
Defined.

Lemma place_oco_leg_details_witness :
  exists side' s tp_f sl_f tp_dec sl_dec,
    validate_side "BUY" = Ok side' /\
    symbol_info_of (trace_of (bracket_run 5 30 false sim_bracket)) = Some s /\
    validate_positive_number "tp_price" (Num (mkDec 65000 0)) = Ok tp_f /\
    validate_positive_number "sl_price" (Num (mkDec 55000 0)) = Ok sl_f /\
    round_price_to_tick tp_f (f_tickSize (parse_symbol_filters s)) = Ok tp_dec /\
    round_price_to_tick sl_f (f_tickSize (parse_symbol_filters s)) = Ok sl_dec /\
    p_type (order_params (limit_args "BTCUSDT" "SELL" (mkDec 2 (-2)) (mkDec 650000 (-1))
                            "GTC" true)) = "LIMIT" /\
    (p_price (order_params (limit_args "BTCUSDT" "SELL" (mkDec 2 (-2)) (mkDec 650000 (-1))
                              "GTC" true)) = Some (short_float tp_dec) \/
     p_price (order_params (limit_args "BTCUSDT" "SELL" (mkDec 2 (-2)) (mkDec 650000 (-1))
                              "GTC" true)) = Some (short_float sl_dec)) /\
    p_timeInForce (order_params (limit_args "BTCUSDT" "SELL" (mkDec 2 (-2))
                                   (mkDec 650000 (-1)) "GTC" true)) = Some "GTC" /\
    p_symbol (order_params (limit_args "BTCUSDT" "SELL" (mkDec 2 (-2)) (mkDec 650000 (-1))
                              "GTC" true)) = "BTCUSDT" /\
    (p_reduceOnly (order_params (limit_args "BTCUSDT" "SELL" (mkDec 2 (-2))
                                   (mkDec 650000 (-1)) "GTC" true)) = true ->
     exists acct,
       In (EvAccount (Ok acct)) (trace_of (bracket_run 5 30 false sim_bracket)) /\
       position_with_entry side' (position_amount "BTCUSDT" acct)).
Proof.
  refine (place_oco_leg_details (PF := short_platform) 5 "BTCUSDT" "BUY" (Num (mkDec 2 (-2)))
            (Num (mkDec 65000 0)) (Num (mkDec 55000 0)) "MARKET" None 30 1 false sim_bracket
            (order_params (limit_args "BTCUSDT" "SELL" (mkDec 2 (-2)) (mkDec 650000 (-1))
                             "GTC" true)) _).
  vm_compute. left. reflexivity.
Defined.

Lemma place_oco_entry_order_witness :
  p_type (order_params (market_args "BTCUSDT" "BUY" (mkDec 2 (-2)))) = "MARKET" /\
  p_price (order_params (market_args "BTCUSDT" "BUY" (mkDec 2 (-2)))) = None /\
  p_timeInForce (order_params (market_args "BTCUSDT" "BUY" (mkDec 2 (-2)))) = None.
Proof.
  refine (proj2 (proj2 (proj2 (proj2
            (place_oco_entry_order (PF := short_platform) 5 "BTCUSDT" "BUY"
               (Num (mkDec 2 (-2))) (Num (mkDec 65000 0)) (Num (mkDec 55000 0))
               "MARKET" None 30 1 false sim_bracket
               (order_params (market_args "BTCUSDT" "BUY" (mkDec 2 (-2)))) _))))).
  vm_compute. reflexivity.
Defined.

Section Stops.
Context {X : Type} {EX : Exchange X} {PF : Platform}.

(** ** src/advanced/stop_orders.py: the order that is sent *)

Lemma stop_tick_not_zero (s : SymbolInfo) : negb (dec_is_zero (stop_tick s)) = true.
Proof.
  unfold stop_tick.
  destruct (negb (dec_is_zero (f_tickSize (parse_symbol_filters s)))) eqn:E;
    [exact E|reflexivity].
Qed.

Ltac one_stop :=
  cbn; split; [lia|];
  let H := fresh "H" in
  intros ? ? H; repeat (destruct H as [H|H]; [try discriminate|]); try contradiction;
  match goal with H : EvPostOrder _ _ = EvPostOrder _ _ |- _ => injection H as <- <- end.

Ltac stop_facts :=
  match goal with s : SymbolInfo |- _ =>
    fold (stop_tick s) in *; rewrite (stop_tick_not_zero s) in *
  end;
  cbn [order_params p_symbol p_side p_type p_price p_timeInForce p_stopPrice p_reduceOnly
       p_closePosition pa_symbol pa_side pa_order_type pa_price pa_time_in_force
       pa_stop_price pa_reduce_only pa_close_position needs_price upper upper_ascii
       of_result];
  repeat match goal with
         | |- _ /\ _ => split
         | |- _ = _ => reflexivity || (symmetry; assumption) || assumption
         | |- exists s limit_f limit_dec, _ =>
             eexists _, _, _; split; [cbn; reflexivity|];
             split; [first [reflexivity | eassumption]|];
             split; [eassumption|reflexivity]
         | |- stop_checked _ _ _ _ =>
             unfold stop_checked; eexists _, _, _, _;
             split; [cbn; reflexivity|];
             split; [cbn; repeat (first [left; reflexivity | right])|];
             split; [first [reflexivity | eassumption]|];
             split; [eassumption|];
             split; [reflexivity|];
             unfold beyond_market; cbn [p_side order_params pa_side];
             match goal with H : String.eqb _ "BUY" = _ |- _ => rewrite H end;
             eexists; split; [eassumption|];
             unfold dec_lt; unfold dec_gtb in *;
             match goal with H : negb _ = false |- _ =>
               apply negb_false_iff in H; exact H end
         end.

(** X22: A stop order is sent only after its stop price passed the check against
    the market.  [place_stop_limit] and [place_stop_market] send at most one
    order and return the answer to it; the order carries the validated stop
    price rounded to the tick (0.0001 when the symbol has no tick), and the
    ticker price read in the run puts that stop price more than one tick
    above the market for BUY and more than one tick below it for SELL.  The
    stop-limit order is a STOP order with the rounded limit price; the
    stop-market order is a STOP_MARKET order without price. *)
Theorem stop_orders_sent_beyond_market (symbol side : string)
  (qty stop_price limit_price : PyNum) (time_in_force : string)
  (reduce_only close_position : bool) (x : X) :
  wp (place_stop_limit symbol side qty stop_price limit_price time_in_force reduce_only) x
     (fun o _ t =>
        (List.length (posts t) <= 1)%nat /\
        forall p r, In (EvPostOrder p r) t ->
          o = of_result r /\
          p_symbol p = symbol /\ validate_side side = Ok (p_side p) /\
          p_type p = "STOP" /\ p_timeInForce p = Some time_in_force /\
          p_reduceOnly p = reduce_only /\ p_closePosition p = false /\
          (exists s limit_f limit_dec,
             symbol_info_of t = Some s /\
             validate_positive_number "limit_price" limit_price = Ok limit_f /\
             round_price_to_tick limit_f (stop_tick s) = Ok limit_dec /\
             p_price p = Some (to_float limit_dec)) /\
          stop_checked symbol stop_price p t) /\
  wp (place_stop_market symbol side qty stop_price close_position) x
     (fun o _ t =>
        (List.length (posts t) <= 1)%nat /\
        forall p r, In (EvPostOrder p r) t ->
          o = of_result r /\
          p_symbol p = symbol /\ validate_side side = Ok (p_side p) /\
          p_type p = "STOP_MARKET" /\ p_price p = None /\ p_timeInForce p = None /\
          p_reduceOnly p = false /\ p_closePosition p = close_position /\
          stop_checked symbol stop_price p t).
Proof.
  split.
  - unfold place_stop_limit, _validate_stop_vs_market. wp_auto.
    all: one_stop.
    all: stop_facts.
  - unfold place_stop_market, _validate_stop_vs_market. wp_auto.
    all: one_stop.
    all: stop_facts.
Qed.

End Stops.

Lemma stop_orders_sent_beyond_market_witness :
  stop_checked (PF := short_platform) "BTCUSDT" (Num (mkDec 61000 0))
    (order_params (mkPlaceArgs "BTCUSDT" "BUY" "STOP_MARKET" (mkDec 2 (-2)) None "GTC" false
                     (Some (mkDec 610000 (-1))) false None))
    (trace_of (place_stop_market (PF := short_platform) "BTCUSDT" "BUY"
                 (Num (mkDec 2 (-2))) (Num (mkDec 61000 0)) false sim_one_post)).
Proof.
  refine ((fun K => proj2 (proj2 (proj2 (proj2 (proj2 (proj2 (proj2 (proj2 K))))))))
            (proj2 (proj2 (stop_orders_sent_beyond_market (PF := short_platform)
                             "BTCUSDT" "BUY" (Num (mkDec 2 (-2))) (Num (mkDec 61000 0))
                             NotNumber "GTC" false false sim_one_post))
               (order_params (mkPlaceArgs "BTCUSDT" "BUY" "STOP_MARKET" (mkDec 2 (-2)) None
                                "GTC" false (Some (mkDec 610000 (-1))) false None))
               (Ok (order 7 "NEW" (mkDec 0 0) (mkDec 1 (-3)))) _)).
  vm_compute. repeat (first [left; reflexivity | right]).
Defined.

Section Commands.
Context {X : Type} {EX : Exchange X} {PF : Platform}.

(** ** src/cli.py: cancel-all *)

Lemma deletes_app (t1 t2 : list Event) : deletes (t1 ++ t2) = deletes t1 ++ deletes t2.
Proof. apply flat_map_app. Qed.

Lemma cancel_all_loop_calls (orders : list Order) :
  forall (cancelled failed : Z) (x : X),
    wp (cancel_all_loop orders cancelled failed) x
       (fun _ _ t =>
          cancel_calls t = map cancel_key orders /\
          deletes t = map cancel_key (filter (fun o => truthy_int (o_orderId o)) orders) /\
          posts t = [] /\
          forall s r, ~ In (EvOpenOrders s r) t).
Proof.
  induction orders as [|o rest IH]; intros cancelled failed x.
  - cbn. repeat split. intros s r [].
  - cbn [cancel_all_loop]. wp_auto.
    all: try match goal with H : truthy_str None = true |- _ => discriminate H end.
    all: eapply wp_conseq; [apply IH|]; cbv beta; intros ? ? t (Hc & Hd & Hp & Hn).
    all: rewrite ?cancel_calls_app, ?deletes_app, ?posts_app, Hc, Hd, Hp.
    all: cbn [filter map];
         repeat match goal with H : truthy_int _ = _ |- _ => rewrite H end.
    all: cbn; repeat split.
    all: intros s r Hin;
         repeat (destruct Hin as [Hin|Hin]; [discriminate|]); exact (Hn s r Hin).
Qed.

(** X23: [cancel-all] calls [cancel_order] once for each open order of the list
    it received, in the order of the list, with the symbol and the order id
    of that order.  An order with a usable id gets one DELETE request; an
    order without one gets none.  No order is placed. *)
Theorem cancel_all_cancels_each_listed_order (symbol : option string) (x : X) :
  wp (cancel_all_cmd symbol) x
     (fun _ _ t =>
        posts t = [] /\
        forall s orders, In (EvOpenOrders s (Ok orders)) t ->
          s = symbol_param (upper_opt symbol) /\
          cancel_calls t = map cancel_key orders /\
          deletes t = map cancel_key (filter (fun o => truthy_int (o_orderId o)) orders)).
Proof.
  unfold cancel_all_cmd, cancel_all_try. wp_auto.
  all: try (cbn; split; [reflexivity|];
            intros s0 orders0 Hin;
            repeat (destruct Hin as [Hin|Hin]; [try discriminate|]); try contradiction;
            injection Hin as <- <-; repeat split).
  eapply wp_conseq; [apply cancel_all_loop_calls|]. cbv beta.
  intros out ? t (Hc & Hd & Hp & Hn).
  destruct out; wp_auto.
  all: rewrite ?posts_app, ?cancel_calls_app, ?deletes_app, ?Hc, ?Hd, ?Hp, ?app_nil_r.
  all: cbn [posts flat_map app cancel_calls deletes].
  all: split; [reflexivity|].
  all: intros s0 orders0 Hin; cbn [app In] in Hin;
       rewrite ?in_app_iff in Hin; cbn [In] in Hin.
  all: repeat (destruct Hin as [Hin|Hin]; [try discriminate|]);
       try (exfalso; exact (Hn _ _ Hin)); try contradiction.
  all: try (destruct Hin as [Hin|Hin]; [exfalso; exact (Hn _ _ Hin)|contradiction]).
  all: injection Hin as <- <-; repeat split.
Qed.

(** ** src/cli.py: cancel-order *)

(** X24: [cancel-order] without a usable order id and without a usable client
    order id touches nothing.  Otherwise it calls [cancel_order] once for
    the upper-cased symbol and sends one DELETE request, which carries the
    order id when that is usable, whatever the client order id, and the
    client order id alone otherwise.  It places no order. *)
Theorem cancel_order_cmd_sends_one_cancellation (symbol : string) (order_id : option Z)
  (client_order_id : option string) (x : X) :
  let ids := if truthy_int order_id then (order_id, None) else (None, client_order_id) in
  let run := cancel_order_cmd symbol order_id client_order_id x in
  posts (trace_of run) = [] /\
  if (negb (truthy_int order_id) && negb (truthy_str client_order_id))%bool
  then trace_of run = [] /\ state_of run = x
  else cancel_calls (trace_of run) = [(Some (upper symbol), fst ids, snd ids)] /\
       deletes (trace_of run) = [(Some (upper symbol), fst ids, snd ids)].
Proof.
  cbv zeta.
  apply (wp_intro _ x (fun _ x' t =>
    posts t = [] /\
    if (negb (truthy_int order_id) && negb (truthy_str client_order_id))%bool
    then t = [] /\ x' = x
    else cancel_calls t
         = [(Some (upper symbol),
             fst (if truthy_int order_id then (order_id, None) else (None, client_order_id)),
             snd (if truthy_int order_id then (order_id, None) else (None, client_order_id)))]
         /\ deletes t
         = [(Some (upper symbol),
             fst (if truthy_int order_id then (order_id, None) else (None, client_order_id)),
             snd (if truthy_int order_id then (order_id, None) else (None, client_order_id)))])).
  unfold cancel_order_cmd, cancel_order_try.
  destruct (truthy_int order_id) eqn:Ei; cbn [negb andb].
  - wp_auto. all: try discriminate. all: cbn; repeat split.
  - destruct (truthy_str client_order_id) eqn:Ec; cbn [negb].
    + wp_auto. all: try discriminate. all: cbn; repeat split.
    + apply wp_sys_exit. repeat split.
Qed.

(** ** src/cli.py: the commands that only read *)

(** X25: open-orders, inspect-pos, filters and auth-check place no order and
    cancel none: they neither call [place_order] or [cancel_order] nor send
    a POST or a DELETE for an order. *)
Theorem reading_commands_touch_no_order (symbol : option string) (symbol' : string)
  (x : X) :
  touches_no_order (trace_of (open_orders_cmd symbol x)) /\
  touches_no_order (trace_of (inspect_pos_cmd symbol x)) /\
  touches_no_order (trace_of (filters_cmd symbol' x)) /\
  touches_no_order (trace_of (auth_check x)).
Proof.
  split; [|split; [|split]].
  - apply (wp_intro _ x (fun _ _ t => touches_no_order t)).
    unfold open_orders_cmd, open_orders_try. wp_auto. all: repeat split.
  - apply (wp_intro _ x (fun _ _ t => touches_no_order t)).
    unfold inspect_pos_cmd, inspect_pos_try. wp_auto. all: repeat split.
  - apply (wp_intro _ x (fun _ _ t => touches_no_order t)).
    unfold filters_cmd, filters_try. wp_auto. all: repeat split.
  - apply (wp_intro _ x (fun _ _ t => touches_no_order t)).
    unfold auth_check, auth_check_try. wp_auto. all: repeat split.
Qed.

(** ** src/advanced/twap.py: the arguments *)

(** X26: [execute_twap] raises its ValueError when [parts] or [interval] is
    below 1, for [parts] first, before the client is built.  With both at
    least 1 and [parts] small enough to be converted to float, it returns,
    whatever the exchange answers. *)
Theorem execute_twap_raises_on_bad_arguments_only (symbol side : string)
  (total_qty : PyFloat) (parts interval : Z) (x : X) :
  let run := execute_twap symbol side total_qty parts interval x in
  (parts < 1 -> run = (Raise (Exception ValueError "parts must be >= 1"), x, [])) /\
  (1 <= parts -> interval < 1 ->
   run = (Raise (Exception ValueError "interval must be >= 1"), x, [])) /\
  (1 <= parts -> parts < float_overflow -> 1 <= interval ->
   exists res, outcome_of run = Ret res).
Proof.
  cbv zeta. unfold execute_twap. split; [|split].
  - intros Hp. replace (parts <? 1) with true by (symmetry; apply Z.ltb_lt; lia).
    reflexivity.
  - intros Hp Hi. replace (parts <? 1) with false by (symmetry; apply Z.ltb_ge; lia).
    replace (interval <? 1) with true by (symmetry; apply Z.ltb_lt; lia). reflexivity.
  - intros Hp _ Hi. replace (parts <? 1) with false by (symmetry; apply Z.ltb_ge; lia).
    replace (interval <? 1) with false by (symmetry; apply Z.ltb_ge; lia).
    apply (wp_intro _ x (fun o _ _ => exists res, o = Ret res)).
    wp_auto. unfold wp. rewrite execute_twap_loop_skips. cbn. eauto.
Qed.

End Commands.

Lemma cancel_all_cancels_each_listed_order_witness :
  Some "BTCUSDT" = symbol_param (upper_opt (Some "btcusdt")) /\
  cancel_calls (trace_of (cancel_all_cmd (Some "btcusdt") sim_one_open))
  = map cancel_key [order 7 "NEW" (mkDec 0 0) (mkDec 20 (-3))] /\
  deletes (trace_of (cancel_all_cmd (Some "btcusdt") sim_one_open))
  = map cancel_key (filter (fun o => truthy_int (o_orderId o))
                      [order 7 "NEW" (mkDec 0 0) (mkDec 20 (-3))]).
Proof.
  refine (proj2 (cancel_all_cancels_each_listed_order (Some "btcusdt") sim_one_open)
            (Some "BTCUSDT") [order 7 "NEW" (mkDec 0 0) (mkDec 20 (-3))] _).
  vm_compute. repeat (first [left; reflexivity | right]).
Defined.

Lemma execute_twap_raises_on_bad_arguments_only_witness :
  execute_twap (PF := short_platform) "BTCUSDT" "BUY" (mkDec 2 (-2)) 0 5 sim0
  = (Raise (Exception ValueError "parts must be >= 1"), sim0, []) /\
  exists res,
    outcome_of (execute_twap (PF := short_platform) "BTCUSDT" "BUY" (mkDec 2 (-2)) 10 5 sim0)
    = Ret res.
Proof.
  split.
  - apply (proj1 (execute_twap_raises_on_bad_arguments_only (PF := short_platform)
                    "BTCUSDT" "BUY" (mkDec 2 (-2)) 0 5 sim0)).
    lia.
  - apply (proj2 (proj2 (execute_twap_raises_on_bad_arguments_only (PF := short_platform)
                           "BTCUSDT" "BUY" (mkDec 2 (-2)) 10 5 sim0))).
    + lia.
    + vm_compute. reflexivity.
    + lia.
Defined.
